(** * Live MODIS aerosol-optical-depth fetch: a model of [src/modis_live.py]

    The development embeds the fetch-locate-extract pipeline of
    [modis_live.py] and states the properties of its specification over
    that embedding.

    Conventions of the model.
    - A Python exception is a value of [exn]; a call that may raise
      returns a [result].
    - Code that talks to the network, the clock, the process environment
      or the file system runs in the monad [M], which threads a [world]
      and records every network request in [net_log].
    - numpy's [float32] cells and Python's [float] are IEEE-754 floats
      ([spec_float]): signed zeros, infinities, NaN and finite numbers,
      with [SpecFloat]'s correctly rounded arithmetic in the format the
      code computes in (float32 for the arrays, binary64 for Python
      scalars). *)

From Stdlib Require Import ZArith Ascii String Lia SpecFloat.
From stdpp Require Import gmap strings list fin_maps.

Local Open Scope string_scope.

(** ** Exceptions and results *)

Inductive exn : Type :=
| ModisLiveError (msg : string)      (* class ModisLiveError(RuntimeError) *)
| HTTPError (status : Z)             (* requests.HTTPError, from raise_for_status *)
| RequestException                   (* requests: connection failure or timeout *)
| JSONDecodeError                    (* resp.json() on a body that is not JSON *)
| ValueError (msg : string)          (* numpy *)
| IndexError
| OverflowError                      (* datetime arithmetic out of range *)
| HDF4Error                          (* pyhdf: open or select failed *)
| OSError (msg : string).            (* mkdir / open *)

Inductive result (A : Type) : Type :=
| Ok (a : A)
| Raise (e : exn).
Arguments Ok {A} a.
Arguments Raise {A} e.

#[global] Instance result_ret : MRet result := fun _ a => Ok a.
#[global] Instance result_bind : MBind result := fun _ _ k r =>
  match r with
  | Ok a => k a
  | Raise e => Raise e
  end.

(** The messages of the seven [raise ModisLiveError(...)] sites. *)
Definition msg_credentials : string :=
  "EARTHDATA_USERNAME and EARTHDATA_PASSWORD are required for live MODIS.".
Definition msg_geocode (city : string) : string :=
  "Unable to geocode city: " ++ city.
Definition msg_no_granule : string :=
  "No MODIS granules found for this location/date.".
Definition msg_no_link : string :=
  "No downloadable HDF link found for MODIS granule.".
Definition msg_auth_401 : string :=
  "Earthdata authentication failed (401).".
Definition msg_pyhdf : string :=
  "pyhdf is required to read MODIS HDF4 files. Install pyhdf.".
Definition msg_missing_pixel : string :=
  "MODIS AOD is missing at the nearest pixel.".

(** ** Floating-point numbers *)

(** A float by its IEEE-754 fields: a signed zero, a signed infinity,
    NaN, or [(-1)^s * m * 2^e].  The arithmetic below is [SpecFloat]'s:
    round to nearest, ties to even, in the named format. *)
Definition float : Set := spec_float.

(** [np.nan] *)
Definition nan : float := S754_nan.

(** numpy's [float32]. *)
Definition prec32 : Z := 24.
Definition emax32 : Z := 128.
(** Python's [float], numpy's [float64]. *)
Definition prec64 : Z := 53.
Definition emax64 : Z := 1024.

(** [np.float32(x)], and [x.astype(np.float32)] cell by cell: the
    float32 nearest to [x]. *)
Definition to_f32 (x : float) : float :=
  match x with
  | S754_finite s m e => binary_round prec32 emax32 s m e
  | _ => x
  end.

(** [float(x)]: the same number as a binary64. *)
Definition to_f64 (x : float) : float :=
  match x with
  | S754_finite s m e => binary_round prec64 emax64 s m e
  | _ => x
  end.

(** The Python number [m * 2 ** e]. *)
Definition dyadic (m e : Z) : float := binary_normalize prec64 emax64 m e false.
(** The Python number [z]. *)
Definition num (z : Z) : float := dyadic z 0.

Definition isnan (x : float) : bool :=
  match x with S754_nan => true | _ => false end.

(** float32 arithmetic, as numpy applies it to float32 operands. *)
Definition add32 (x y : float) : float := SFadd prec32 emax32 x y.
Definition sub32 (x y : float) : float := SFsub prec32 emax32 x y.
Definition mul32 (x y : float) : float := SFmul prec32 emax32 x y.
(** [x ** 2] *)
Definition square32 (x : float) : float := mul32 x x.

(** binary64 arithmetic, as Python applies it to two [float]s. *)
Definition add64 (x y : float) : float := SFadd prec64 emax64 x y.
Definition sub64 (x y : float) : float := SFsub prec64 emax64 x y.

(** [x == y] and [x < y] on two floats of one format: false as soon as
    one side is NaN. *)
Definition feqb (x y : float) : bool := SFeqb x y.
Definition fltb (x y : float) : bool := SFltb x y.

(** ** Two-dimensional arrays *)

(** A C-contiguous 2-D [np.ndarray]: its shape and its row-major buffer. *)
Record ndarray : Type := mk_ndarray {
  shape : nat * nat;
  buf : list float
}.

Definition size_of (sh : nat * nat) : nat := (fst sh * snd sh)%nat.

(** The buffer has exactly [rows * cols] cells. *)
Definition wf_ndarray (a : ndarray) : Prop :=
  length (buf a) = size_of (shape a).

Definition arr_map (f : float -> float) (a : ndarray) : ndarray :=
  {| shape := shape a; buf := map f (buf a) |}.

(** [a.astype(np.float32)] *)
Definition astype_f32 (a : ndarray) : ndarray := arr_map to_f32 a.

(** The length two axis lengths broadcast to: equal lengths stay, a
    length of one stretches to the other. *)
Definition broadcast_dim (n m : nat) : option nat :=
  if (n =? m)%nat then Some n
  else if (n =? 1)%nat then Some m
  else if (m =? 1)%nat then Some n
  else None.

(** The cell of [a] that position [(i, j)] of a broadcast result reads:
    an axis of length one is read at index 0. *)
Definition bcast_cell (a : ndarray) (i j : nat) : float :=
  let i' := if (fst (shape a) =? 1)%nat then 0%nat else i in
  let j' := if (snd (shape a) =? 1)%nat then 0%nat else j in
  default nan (buf a !! (i' * snd (shape a) + j')%nat).

(** Element-wise binary operation on two arrays, with numpy's
    broadcasting: [ValueError] when an axis has two different lengths,
    neither of them one. *)
Definition arr_zip (f : float -> float -> float) (a b : ndarray) : result ndarray :=
  match broadcast_dim (fst (shape a)) (fst (shape b)),
        broadcast_dim (snd (shape a)) (snd (shape b)) with
  | Some r, Some c =>
      Ok {| shape := (r, c);
            buf := map (fun k => f (bcast_cell a (k / c) (k mod c))
                                   (bcast_cell b (k / c) (k mod c)))
                       (seq 0 (r * c)) |}
  | _, _ => Raise (ValueError "operands could not be broadcast together")
  end.

(** [np.unravel_index(k, shape)] for a 2-D shape. *)
Definition unravel_index (k : nat) (sh : nat * nat) : result (nat * nat) :=
  if (k <? size_of sh)%nat
  then Ok ((k / snd sh)%nat, (k mod snd sh)%nat)
  else Raise (ValueError "index out of bounds for array").

(** [a[idx]] for a 2-D index tuple. *)
Definition getitem (a : ndarray) (idx : nat * nat) : result float :=
  let '(i, j) := idx in
  if (i <? fst (shape a))%nat && (j <? snd (shape a))%nat
  then match buf a !! (i * snd (shape a) + j)%nat with
       | Some x => Ok x
       | None => Raise IndexError
       end
  else Raise IndexError.

(** [np.argmin] over a flattened array without NaN: one left-to-right
    scan that keeps the first position of the least value. *)
Fixpoint argmin_scan (l : list float) (i : nat) (best : nat * float) : nat :=
  match l with
  | [] => fst best
  | x :: t =>
      if fltb x (snd best)
      then argmin_scan t (S i) (i, x)
      else argmin_scan t (S i) best
  end.

Definition argmin (l : list float) : result nat :=
  match l with
  | [] => Raise (ValueError "attempt to get argmin of an empty sequence")
  | x :: t => Ok (argmin_scan t 1 (0%nat, x))
  end.

(** numpy's [_replace_nan(a, np.inf)], cell by cell. *)
Definition replace_nan (x : float) : float :=
  match x with S754_nan => S754_infinity false | _ => x end.

(** [np.nanargmin] over the flattened cells.  An array with cells that
    are all NaN raises [ValueError]; otherwise the result is [np.argmin]
    of the array with NaN replaced by [+inf], which raises for an array
    without cells. *)
Definition nanargmin_cells (l : list float) : result nat :=
  match l with
  | [] => argmin (map replace_nan l)
  | _ :: _ =>
      if forallb isnan l
      then Raise (ValueError "All-NaN slice encountered")
      else argmin (map replace_nan l)
  end.

Definition nanargmin (a : ndarray) : result nat := nanargmin_cells (buf a).

(** ** Scale and offset *)

(** [_apply_scale(data, attrs)]: [attrs.get("scale_factor", 1.0)],
    [attrs.get("add_offset", 0.0)], then
    [data.astype(np.float32) * float(scale) + float(offset)].  The array
    is float32, so numpy converts the two Python scalars to float32 and
    multiplies and adds in float32. *)
Definition _apply_scale (data : ndarray) (attrs : gmap string float) : ndarray :=
  let scale := default (num 1) (attrs !! "scale_factor") in
  let offset := default (num 0) (attrs !! "add_offset") in
  arr_map (fun v => add32 (mul32 v (to_f32 scale)) (to_f32 offset))
          (astype_f32 data).

(** ** Raster extraction *)

(** One scientific data set of an HDF4 file: [ds[:]] and [ds.attributes()]. *)
Record sds : Type := mk_sds {
  sds_data : ndarray;
  sds_attrs : gmap string float
}.

(** [hdf.select(name)] *)
Definition hdf_select (hdf : gmap string sds) (name : string) : result sds :=
  match hdf !! name with
  | Some d => Ok d
  | None => Raise HDF4Error
  end.

(** [np.where(aod == fill, np.nan, aod)] on the float32 array [aod]. *)
Definition mask_fill (fill : float) (aod : ndarray) : ndarray :=
  arr_map (fun v => if feqb v (to_f32 fill) then nan else v) aod.

(** The distance grid [(lat_arr - lat) ** 2 + (lon_arr - lon) ** 2] of
    two float32 arrays and two Python floats. *)
Definition dist_grid (lat_arr lon_arr : ndarray) (lat lon : float) : result ndarray :=
  arr_zip add32
    (arr_map (fun c => square32 (sub32 c (to_f32 lat))) lat_arr)
    (arr_map (fun c => square32 (sub32 c (to_f32 lon))) lon_arr).

(** The body of [read_aod_from_hdf] once the file is open. *)
Definition read_aod_from_sd (hdf : gmap string sds) (lat lon : float) : result float :=
  aod_ds ← hdf_select hdf "Optical_Depth_Land_And_Ocean";
  let aod := _apply_scale (sds_data aod_ds) (sds_attrs aod_ds) in
  lat_ds ← hdf_select hdf "Latitude";
  lon_ds ← hdf_select hdf "Longitude";
  let lat_arr := astype_f32 (sds_data lat_ds) in
  let lon_arr := astype_f32 (sds_data lon_ds) in
  let aod :=
    match sds_attrs aod_ds !! "_FillValue" with
    | Some fill => mask_fill fill aod
    | None => aod
    end in
  dist ← dist_grid lat_arr lon_arr lat lon;
  k ← nanargmin dist;
  idx ← unravel_index k (shape dist);
  cell ← getitem aod idx;
  let value := to_f64 cell in
  if isnan value
  then Raise (ModisLiveError msg_missing_pixel)
  else Ok value.

(** ** Strings and paths *)

(** [s.split(sep)] for a one-character separator: never the empty list. *)
Fixpoint split_on (sep : ascii) (s : string) : list string :=
  match s with
  | EmptyString => [""]
  | String c t =>
      if Ascii.eqb c sep then "" :: split_on sep t
      else match split_on sep t with
           | h :: r => String c h :: r
           | [] => [String c ""]
           end
  end.

(** [s.endswith(suffix)] *)
Fixpoint endswith (s suffix : string) : bool :=
  if String.eqb s suffix then true
  else match s with
       | EmptyString => false
       | String _ t => endswith t suffix
       end.

(** Python truthiness of a string: [not s] is [true] on the empty string. *)
Definition str_empty (s : string) : bool :=
  match s with EmptyString => true | _ => false end.

(** [url.split("?")[0].split("/")[-1]] *)
Definition cache_filename (url : string) : string :=
  List.last (split_on "/" (List.hd "" (split_on "?" url))) "".

Definition CACHE_DIR : string := "data/modis_cache".

(** [dir / name] of [pathlib]: an empty or ["."] component is dropped.
    Paths are compared as written: [".."] and symbolic links are not
    resolved. *)
Definition path_join (dir name : string) : string :=
  if str_empty name || String.eqb name "." then dir
  else dir ++ "/" ++ name.

(** The directories [mkdir(parents=True)] walks through, outermost first. *)
Fixpoint path_prefixes_from (acc : string) (parts : list string) : list string :=
  match parts with
  | [] => []
  | c :: r =>
      if str_empty c || String.eqb c "." then path_prefixes_from acc r
      else let acc' := if str_empty acc then c else acc ++ "/" ++ c in
           acc' :: path_prefixes_from acc' r
  end.

Definition path_prefixes (p : string) : list string :=
  path_prefixes_from "" (split_on "/" p).

(** [Path(p).parent], as written. *)
Definition path_parent (p : string) : string :=
  List.last (removelast (path_prefixes p)) ".".

(** ** Dates *)

(** A [datetime.datetime]; [tzinfo] is the UTC offset in seconds of an
    aware value and [None] for a naive one. *)
Record datetime : Type := mk_datetime {
  year : Z; month : Z; day : Z;
  hour : Z; minute : Z; second : Z; microsecond : Z;
  tzinfo : option Z
}.

Definition is_leap (y : Z) : bool :=
  (y mod 4 =? 0)%Z && (negb (y mod 100 =? 0)%Z || (y mod 400 =? 0)%Z).

Definition days_in_month (y m : Z) : Z :=
  if (m =? 2)%Z then (if is_leap y then 29 else 28)%Z
  else if (m =? 4)%Z || (m =? 6)%Z || (m =? 9)%Z || (m =? 11)%Z then 30%Z
  else 31%Z.

Definition days_before_year (y : Z) : Z :=
  let y' := (y - 1)%Z in (y' * 365 + y' / 4 - y' / 100 + y' / 400)%Z.

Fixpoint days_before_month_nat (y : Z) (m : nat) : Z :=
  match m with
  | O => 0%Z
  | S m' => (days_before_month_nat y m' + days_in_month y (Z.of_nat m))%Z
  end.

(** Days of year [y] before the first day of month [m]. *)
Definition days_before_month (y m : Z) : Z :=
  days_before_month_nat y (Z.to_nat (m - 1)).

(** [date.toordinal()]: 0001-01-01 is day 1. *)
Definition toordinal (d : datetime) : Z :=
  (days_before_year (year d) + days_before_month (year d) (month d) + day d)%Z.

Definition MAXORDINAL : Z := 3652059%Z.   (* 9999-12-31 *)

(** The field ranges the [datetime] constructor enforces. *)
Definition valid_datetime (d : datetime) : bool :=
  (1 <=? year d)%Z && (year d <=? 9999)%Z &&
  (1 <=? month d)%Z && (month d <=? 12)%Z &&
  (1 <=? day d)%Z && (day d <=? days_in_month (year d) (month d))%Z &&
  (0 <=? hour d)%Z && (hour d <=? 23)%Z &&
  (0 <=? minute d)%Z && (minute d <=? 59)%Z &&
  (0 <=? second d)%Z && (second d <=? 59)%Z &&
  (0 <=? microsecond d)%Z && (microsecond d <=? 999999)%Z.

(** [datetime(y, m, d, tzinfo=timezone.utc)] *)
Definition datetime_utc_midnight (y m d : Z) : result datetime :=
  let r := mk_datetime y m d 0 0 0 0 (Some 0%Z) in
  if valid_datetime r then Ok r
  else Raise (ValueError "datetime field out of range").

(** [d + timedelta(days=1)]: the same wall-clock time on the next
    calendar day, or [OverflowError] past 9999-12-31. *)
Definition add_one_day (d : datetime) : result datetime :=
  if (toordinal d + 1 <=? MAXORDINAL)%Z then
    let '(y, m, dd) :=
      if (day d <? days_in_month (year d) (month d))%Z
      then (year d, month d, (day d + 1)%Z)
      else if (month d <? 12)%Z then (year d, (month d + 1)%Z, 1%Z)
      else ((year d + 1)%Z, 1%Z, 1%Z) in
    Ok (mk_datetime y m dd (hour d) (minute d) (second d) (microsecond d) (tzinfo d))
  else Raise OverflowError.

Definition digit (n : Z) : ascii := ascii_of_nat (48 + Z.to_nat (n mod 10)).

(** [n] printed on exactly [w] decimal digits, zero-padded ([%0wd]). *)
Fixpoint zfill (w : nat) (n : Z) : string :=
  match w with
  | O => ""
  | S w' => zfill w' (n / 10) ++ String (digit n) ""
  end.

(** The [+HH:MM] suffix of an aware datetime. *)
Definition format_offset (off : Z) : string :=
  let a := Z.abs off in
  (if (off <? 0)%Z then "-" else "+") ++
  zfill 2 (a / 3600) ++ ":" ++ zfill 2 (a mod 3600 / 60) ++
  (if (a mod 60 =? 0)%Z then "" else ":" ++ zfill 2 (a mod 60)).

(** [d.isoformat()] *)
Definition isoformat (d : datetime) : string :=
  zfill 4 (year d) ++ "-" ++ zfill 2 (month d) ++ "-" ++ zfill 2 (day d) ++
  "T" ++ zfill 2 (hour d) ++ ":" ++ zfill 2 (minute d) ++ ":" ++ zfill 2 (second d) ++
  (if (microsecond d =? 0)%Z then "" else "." ++ zfill 6 (microsecond d)) ++
  match tzinfo d with
  | None => ""
  | Some off => format_offset off
  end.

(** ** The world: environment, services, file system, network log *)

(** One link of a granule entry, [link.get("href", "")] and
    [link.get("rel", "")] being [default ""] of the fields. *)
Record cmr_link : Type := mk_link {
  href : option string;
  rel : option string
}.

Record cmr_entry : Type := mk_entry {
  title : option string;
  time_start : option string;
  links : option (list cmr_link)
}.

(** The JSON document [{feed: {entry: [...]}}]; an absent key is [None]. *)
Record cmr_json : Type := mk_json {
  feed : option (option (list cmr_entry))
}.

(** The query parameters of the granule search.  The bounding box keeps
    its four numbers (min_lon, min_lat, max_lon, max_lat) unformatted. *)
Record cmr_params : Type := mk_params {
  short_name : string;
  temporal : string;
  bounding_box : float * float * float * float;
  page_size : Z;
  sort_key : string
}.

(** What [requests.get] yields: a response, or an exception of
    [requests] (connection failure, timeout). *)
Inductive http_outcome (B : Type) : Type :=
| Responded (status_code : Z) (body : B)
| NoResponse.
Arguments Responded {B} status_code body.
Arguments NoResponse {B}.

(** A streamed body: the chunks [iter_content] delivers, and whether the
    connection breaks after the last of them. *)
Record stream : Type := mk_stream {
  chunks : list string;
  broken : bool
}.

(** The record [fetch_live_aod] returns. *)
Record payload : Type := mk_payload {
  p_city : string;
  p_date : string;
  p_latitude : float;
  p_longitude : float;
  p_modis_aod : float;
  p_granule_id : string;
  p_source_url : string
}.

Inductive fs_node : Type :=
| Dir
| File (bytes : string)
| CsvFile (row : payload).    (* a one-row table written by [to_csv] *)

Inductive net_call : Type :=
| CallGeocode (city : string)
| CallSearch (url : string) (params : cmr_params)
| CallDownload (url : string) (auth : string * string).

Record world : Type := mk_world {
  environ : gmap string string;                    (* os.environ *)
  clock : datetime;                                (* datetime.now(timezone.utc) *)
  geocoder : string -> option (float * float);     (* Nominatim, behind RateLimiter *)
  cmr : cmr_params -> http_outcome (option cmr_json);
  earthdata : string -> string * string -> http_outcome stream;
  pyhdf_installed : bool;
  sd_decode : string -> option (gmap string sds);  (* pyhdf's reading of a file *)
  fs : gmap string fs_node;
  net_log : list net_call                          (* most recent call last *)
}.

Definition set_fs (f : gmap string fs_node) (w : world) : world :=
  mk_world (environ w) (clock w) (geocoder w) (cmr w) (earthdata w)
           (pyhdf_installed w) (sd_decode w) f (net_log w).

Definition log_call (c : net_call) (w : world) : world :=
  mk_world (environ w) (clock w) (geocoder w) (cmr w) (earthdata w)
           (pyhdf_installed w) (sd_decode w) (fs w) (net_log w ++ [c]).

(** Computations over the world that may raise. *)
Definition M (A : Type) : Type := world -> result A * world.

#[global] Instance M_ret : MRet M := fun _ a w => (Ok a, w).
#[global] Instance M_bind : MBind M := fun _ _ k m w =>
  match m w with
  | (Ok a, w') => k a w'
  | (Raise e, w') => (Raise e, w')
  end.

Definition raise {A} (e : exn) : M A := fun w => (Raise e, w).
Definition lift {A} (r : result A) : M A := fun w => (r, w).
Definition gets {A} (f : world -> A) : M A := fun w => (Ok (f w), w).
Definition modify (f : world -> world) : M unit := fun w => (Ok tt, f w).

(** [os.getenv(name)] *)
Definition getenv (name : string) : M (option string) :=
  gets (fun w => environ w !! name).

(** [path.exists()] *)
Definition path_exists (p : string) : M bool :=
  gets (fun w => bool_decide (is_Some (fs w !! p))).

(** [mkdir] of one directory with [exist_ok=True]. *)
Definition mkdir_one (p : string) : M unit := fun w =>
  match fs w !! p with
  | None => (Ok tt, set_fs (<[p := Dir]> (fs w)) w)
  | Some Dir => (Ok tt, w)
  | Some _ => (Raise (OSError "File exists"), w)
  end.

Fixpoint mkdir_all (ps : list string) : M unit :=
  match ps with
  | [] => mret tt
  | p :: r => mkdir_one p ≫= fun _ => mkdir_all r
  end.

(** [Path(p).mkdir(parents=True, exist_ok=True)] *)
Definition mkdir_parents (p : string) : M unit := mkdir_all (path_prefixes p).

(** [open(p, "wb")]: the file is created empty, or truncated. *)
Definition open_wb (p : string) : M unit :=
  modify (fun w => set_fs (<[p := File ""]> (fs w)) w).

(** [f.write(chunk)] on the file opened at [p]. *)
Definition write_chunk (p : string) (chunk : string) : M unit :=
  modify (fun w =>
    match fs w !! p with
    | Some (File b) => set_fs (<[p := File (b ++ chunk)]> (fs w)) w
    | _ => w
    end).

(** [resp.raise_for_status()]: [HTTPError] on 4xx and 5xx. *)
Definition raise_for_status (status : Z) : result unit :=
  if (400 <=? status)%Z && (status <? 600)%Z then Raise (HTTPError status)
  else Ok tt.

(** [resp.ok] of [requests]: no error status. *)
Definition response_ok (status : Z) : bool :=
  match raise_for_status status with Ok _ => true | Raise _ => false end.

(** ** The pipeline stages *)

(** Python's [not v] for the value of [os.getenv]: unset or empty. *)
Definition not_set (v : option string) : bool :=
  match v with
  | None => true
  | Some s => str_empty s
  end.

Definition _earthdata_auth : M (string * string) :=
  username ← getenv "EARTHDATA_USERNAME";
  password ← getenv "EARTHDATA_PASSWORD";
  if not_set username || not_set password
  then raise (ModisLiveError msg_credentials)
  else mret (default "" username, default "" password).

(** The rate-limited call [geocode(city)]: one request to the service. *)
Definition nominatim_geocode (city : string) : M (option (float * float)) :=
  fun w => (Ok (geocoder w city), log_call (CallGeocode city) w).

Definition geocode_city (city : string) : M (float * float) :=
  location ← nominatim_geocode city;
  match location with
  | None => raise (ModisLiveError (msg_geocode city))
  | Some (latitude, longitude) => mret (latitude, longitude)
  end.

(** The day [_time_window] searches: [start] and [end], before they are
    printed. *)
Definition time_window_bounds (date : option datetime) : M (datetime * datetime) :=
  date ← match date with
         | None => gets clock
         | Some d => mret d
         end;
  start ← lift (datetime_utc_midnight (year date) (month date) (day date));
  end_ ← lift (add_one_day start);
  mret (start, end_).

Definition _time_window (date : option datetime) : M string :=
  b ← time_window_bounds date;
  mret (isoformat (fst b) ++ "," ++ isoformat (snd b)).

Definition CMR_URL : string := "https://cmr.earthdata.nasa.gov/search/granules.json".
Definition SHORT_NAME : string := "MOD04_L2".

(** [requests.get(CMR_URL, params=params, timeout=30)] *)
Definition requests_get_search (url : string) (params : cmr_params)
  : M (Z * option cmr_json) :=
  fun w =>
    let w' := log_call (CallSearch url params) w in
    match cmr w params with
    | Responded status body => (Ok (status, body), w')
    | NoResponse => (Raise RequestException, w')
    end.

(** First loop of the link selection: the first [href] ending in [.hdf]. *)
Fixpoint first_hdf_href (ls : list cmr_link) : string :=
  match ls with
  | [] => ""
  | l :: r =>
      let h := default "" (href l) in
      if endswith h ".hdf" then h else first_hdf_href r
  end.

(** Second loop: the [href] of the first link whose [rel] ends in [/data#]. *)
Fixpoint first_data_href (ls : list cmr_link) : string :=
  match ls with
  | [] => ""
  | l :: r =>
      if endswith (default "" (rel l)) "/data#" then default "" (href l)
      else first_data_href r
  end.

(** The value of [url] after both loops. *)
Definition select_url (ls : list cmr_link) : string :=
  let url := first_hdf_href ls in
  if str_empty url then first_data_href ls else url.

(** The dict [search_granule] returns. *)
Record granule : Type := mk_granule {
  granule_id : string;
  g_time_start : string;
  download_url : string
}.

(** [search_granule] from [entries = ...] on. *)
Definition granule_of_entries (entries : list cmr_entry) : result granule :=
  match entries with
  | [] => Raise (ModisLiveError msg_no_granule)
  | entry :: _ =>
      let url := select_url (default [] (links entry)) in
      if str_empty url then Raise (ModisLiveError msg_no_link)
      else Ok {| granule_id := default "" (title entry);
                 g_time_start := default "" (time_start entry);
                 download_url := url |}
  end.

(** The Python float 0.5. *)
Definition half : float := dyadic 1 (-1).

(** The [params] dict of the search request; the four bounds of the box
    are computed on Python floats, in binary64. *)
Definition search_params (lat lon : float) (window : string) : cmr_params :=
  let bbox := (sub64 lon half, sub64 lat half, add64 lon half, add64 lat half) in
  {| short_name := SHORT_NAME;
     temporal := window;
     bounding_box := bbox;
     page_size := 1;
     sort_key := "-start_date" |}.

(** [data.get("feed", {}).get("entry", [])] *)
Definition feed_entries (data : cmr_json) : list cmr_entry :=
  match feed data with
  | Some (Some es) => es
  | _ => []
  end.

Definition search_granule (lat lon : float) (date : option datetime) : M granule :=
  window ← _time_window date;
  let params := search_params lat lon window in
  resp ← requests_get_search CMR_URL params;
  _ ← lift (raise_for_status (fst resp));
  data ← match snd resp with
         | Some j => mret j
         | None => raise JSONDecodeError
         end;
  let entries := feed_entries data in
  lift (granule_of_entries entries).

(** [requests.get(url, stream=True, auth=auth, timeout=60)] *)
Definition requests_get_stream (url : string) (auth : string * string)
  : M (Z * stream) :=
  fun w =>
    let w' := log_call (CallDownload url auth) w in
    match earthdata w url auth with
    | Responded status body => (Ok (status, body), w')
    | NoResponse => (Raise RequestException, w')
    end.

(** [for chunk in resp.iter_content(...): if chunk: f.write(chunk)] *)
Fixpoint write_chunks (p : string) (cs : list string) : M unit :=
  match cs with
  | [] => mret tt
  | c :: r =>
      (if str_empty c then mret tt else write_chunk p c) ≫= fun _ =>
      write_chunks p r
  end.

Definition download_granule (url : string) (auth : string * string) : M string :=
  _ ← mkdir_parents CACHE_DIR;
  let filename := cache_filename url in
  let out_path := path_join CACHE_DIR filename in
  cached ← path_exists out_path;
  if (cached : bool) then mret out_path
  else
    resp ← requests_get_stream url auth;
    if (fst resp =? 401)%Z then raise (ModisLiveError msg_auth_401)
    else
      _ ← lift (raise_for_status (fst resp));
      _ ← open_wb out_path;
      _ ← write_chunks out_path (chunks (snd resp));
      if broken (snd resp) then raise RequestException
      else mret out_path.

(** [SD(str(hdf_path), SDC.READ)] *)
Definition SD_open (p : string) : M (gmap string sds) := fun w =>
  match fs w !! p with
  | Some (File b) =>
      match sd_decode w b with
      | Some hdf => (Ok hdf, w)
      | None => (Raise HDF4Error, w)
      end
  | _ => (Raise HDF4Error, w)
  end.

Definition read_aod_from_hdf (hdf_path : string) (lat lon : float) : M float :=
  installed ← gets pyhdf_installed;
  if (installed : bool)
  then hdf ← SD_open hdf_path; lift (read_aod_from_sd hdf lat lon)
  else raise (ModisLiveError msg_pyhdf).

(** [pd.DataFrame([payload]).to_csv(out_csv, index=False)] *)
Definition to_csv (p : string) (row : payload) : M unit :=
  modify (fun w => set_fs (<[p := CsvFile row]> (fs w)) w).

Definition fetch_live_aod (city : string) (out_csv : option string)
    (date : option datetime) : M payload :=
  '(lat, lon) ← geocode_city city;
  granule ← search_granule lat lon date;
  auth ← _earthdata_auth;
  hdf_path ← download_granule (download_url granule) auth;
  aod ← read_aod_from_hdf hdf_path lat lon;
  let payload := {| p_city := city;
                    p_date := if str_empty (g_time_start granule) then ""
                              else substring 0 10 (g_time_start granule);
                    p_latitude := lat;
                    p_longitude := lon;
                    p_modis_aod := aod;
                    p_granule_id := granule_id granule;
                    p_source_url := download_url granule |} in
  _ ← match out_csv with
      | Some p => _ ← mkdir_parents (path_parent p); to_csv p payload
      | None => mret tt
      end;
  mret payload.

(** ** Vocabulary for the order of floats *)

(** Where a float that is not NaN stands: its sign class first, then its
    exponent and mantissa, both negated below zero. *)
Definition float_key (x : spec_float) : Z * Z * Z :=
  match x with
  | S754_nan => (3, 0, 0)
  | S754_infinity true => (-2, 0, 0)
  | S754_finite true m e => (-1, - e, - Zpos m)
  | S754_zero _ => (0, 0, 0)
  | S754_finite false m e => (1, e, Zpos m)
  | S754_infinity false => (2, 0, 0)
  end%Z.

Definition key_lt (a b : Z * Z * Z) : Prop :=
  (a.1.1 < b.1.1 \/
   (a.1.1 = b.1.1 /\ (a.1.2 < b.1.2 \/ (a.1.2 = b.1.2 /\ a.2 < b.2))))%Z.

Definition not_nan (x : spec_float) : Prop := x <> S754_nan.

(** ** Vocabulary for the extraction properties *)

(** A decoded granule file that follows the raster data model: the three
    named data sets are present, well formed and of one shape. *)
Record raster_file (hdf : gmap string sds) (aod_ds lat_ds lon_ds : sds) : Prop := {
  rf_aod : hdf !! "Optical_Depth_Land_And_Ocean" = Some aod_ds;
  rf_lat : hdf !! "Latitude" = Some lat_ds;
  rf_lon : hdf !! "Longitude" = Some lon_ds;
  rf_shape_lat : shape (sds_data lat_ds) = shape (sds_data aod_ds);
  rf_shape_lon : shape (sds_data lon_ds) = shape (sds_data aod_ds);
  rf_wf_aod : wf_ndarray (sds_data aod_ds);
  rf_wf_lat : wf_ndarray (sds_data lat_ds);
  rf_wf_lon : wf_ndarray (sds_data lon_ds)
}.

(** The stored scale and offset of a data set, with the defaults of
    [_apply_scale]. *)
Definition scale_of (aod_ds : sds) : float :=
  default (num 1) (sds_attrs aod_ds !! "scale_factor").
Definition offset_of (aod_ds : sds) : float :=
  default (num 0) (sds_attrs aod_ds !! "add_offset").

(** What [_apply_scale] makes of the raw value [raw] of [aod_ds]. *)
Definition scaled (aod_ds : sds) (raw : float) : float :=
  add32 (mul32 (to_f32 raw) (to_f32 (scale_of aod_ds))) (to_f32 (offset_of aod_ds)).

(** The cells of [aod] as [read_aod_from_hdf] holds them when it looks up
    the nearest index: scaled, then masked if [_FillValue] is present. *)
Definition aod_cells (aod_ds : sds) : list float :=
  let aod := _apply_scale (sds_data aod_ds) (sds_attrs aod_ds) in
  buf match sds_attrs aod_ds !! "_FillValue" with
      | Some fill => mask_fill fill aod
      | None => aod
      end.

(** The float32 squared distance of a cell at [(clat, clon)] from the
    target [(lat, lon)]. *)
Definition sq_dist (lat lon clat clon : float) : float :=
  add32 (square32 (sub32 (to_f32 clat) (to_f32 lat)))
        (square32 (sub32 (to_f32 clon) (to_f32 lon))).

(** The cells of [dist], in row-major order. *)
Definition dist_cells (lat_ds lon_ds : sds) (lat lon : float) : list float :=
  zip_with (sq_dist lat lon) (buf (sds_data lat_ds)) (buf (sds_data lon_ds)).

(** Cell [k] is the geometrically nearest one: its float32 squared
    distance is least among all cells (a NaN distance counting as
    [+inf], as [np.nanargmin] has it), and it is the first such cell in
    row-major order. *)
Definition nearest_cell (dist : list float) (k : nat) : Prop :=
  exists m,
    map replace_nan dist !! k = Some m /\
    (forall j q, map replace_nan dist !! j = Some q -> SFleb m q = true) /\
    (forall j q, (j < k)%nat -> map replace_nan dist !! j = Some q ->
                 SFltb m q = true).

(** Some cell has a distance to the target. *)
Definition has_distance (dist : list float) : Prop :=
  exists j d, dist !! j = Some d /\ isnan d = false.

(** The specification's notion of a missing cell: [_FillValue] is
    present and the raw (stored) value of cell [k] equals it, both read
    as float32. *)
Definition raw_missing (aod_ds : sds) (k : nat) : bool :=
  match sds_attrs aod_ds !! "_FillValue", buf (sds_data aod_ds) !! k with
  | Some fill, Some v => feqb (to_f32 v) (to_f32 fill)
  | _, _ => false
  end.

(** The cells the code replaces by NaN: [_FillValue] is present and the
    test [aod == fill] of [np.where] holds at cell [k], [aod] being the
    array [_apply_scale] produced. *)
Definition marked_missing (aod_ds : sds) (k : nat) : bool :=
  match sds_attrs aod_ds !! "_FillValue",
        buf (_apply_scale (sds_data aod_ds) (sds_attrs aod_ds)) !! k with
  | Some fill, Some v => feqb v (to_f32 fill)
  | _, _ => false
  end.


(** [x + 0.0]: the sign of a zero is dropped, every other float stays. *)
Definition pos_zero (x : float) : float :=
  match x with S754_zero _ => S754_zero false | _ => x end.


(** ** Sample granules *)

Definition grid (sh : nat * nat) (cells : list Z) (attrs : gmap string float) : sds :=
  {| sds_data := mk_ndarray sh (map num cells); sds_attrs := attrs |}.

Definition granule_file (aod_ds lat_ds lon_ds : sds) : gmap string sds :=
  {[ "Optical_Depth_Land_And_Ocean" := aod_ds;
     "Latitude" := lat_ds;
     "Longitude" := lon_ds ]}.

(** A 1x2 strip at latitude 0, longitudes 0 and 1. *)
Definition strip_lat : sds := grid (1, 2)%nat [0; 0]%Z ∅.
Definition strip_lon : sds := grid (1, 2)%nat [0; 1]%Z ∅.

(** Its first cell holds the sentinel, its second a measurement; no
    scale or offset is stored. *)
Definition strip_fill_first : sds :=
  grid (1, 2)%nat [-9999; 5]%Z {[ "_FillValue" := num (-9999) ]}.

(** Raw values -19998 and -9999 (the sentinel), stored with
    [scale_factor = 0.5]. *)
Definition strip_scaled : sds :=
  grid (1, 2)%nat [-19998; -9999]%Z
       {[ "_FillValue" := num (-9999); "scale_factor" := dyadic 1 (-1) ]}.

(** A single cell holding the sentinel, stored with [scale_factor = 0.5]. *)
Definition point_lat : sds := grid (1, 1)%nat [0]%Z ∅.
Definition point_lon : sds := grid (1, 1)%nat [0]%Z ∅.
Definition point_all_fill : sds :=
  grid (1, 1)%nat [-9999]%Z
       {[ "_FillValue" := num (-9999); "scale_factor" := dyadic 1 (-1) ]}.



(** The Python float 0.001, the [scale_factor] of the MOD04 AOD data set. *)
Definition milli : float := SFdiv prec64 emax64 (num 1) (num 1000).

(** Two cells at longitudes 1 and 1 + 2**-23, adjacent float32 values. *)
Definition near_lat : sds := grid (1, 2)%nat [0; 0]%Z ∅.
Definition near_lon : sds :=
  {| sds_data := mk_ndarray (1, 2)%nat [num 1; dyadic 8388609 (-23)];
     sds_attrs := ∅ |}.
Definition near_aod : sds := grid (1, 2)%nat [3; 5]%Z ∅.

(** A file whose latitude grid is one column and whose longitude grid is
    one row: numpy broadcasts the two to a 2x2 distance grid. *)
Definition column_lat : sds := grid (2, 1)%nat [0; 10]%Z ∅.
Definition row_lon : sds := grid (1, 2)%nat [0; 10]%Z ∅.
Definition square_aod : sds := grid (2, 2)%nat [1; 2; 3; 4]%Z ∅.

(** Structural equality of two floats, as a boolean. *)
Definition same_float (x y : float) : bool :=
  match x, y with
  | S754_zero s, S754_zero s' => Bool.eqb s s'
  | S754_infinity s, S754_infinity s' => Bool.eqb s s'
  | S754_nan, S754_nan => true
  | S754_finite s m e, S754_finite s' m' e' =>
      Bool.eqb s s' && Pos.eqb m m' && Z.eqb e e'
  | _, _ => false
  end.

(** The [n] integers from [lo] on. *)
Fixpoint zrange (n : nat) (lo : Z) : list Z :=
  match n with
  | O => []
  | S n' => lo :: zrange n' (lo + 1)%Z
  end.

(** Every value an [int16] data set can hold. *)
Definition int16_values : list Z := zrange (Z.to_nat 65536) (-32768)%Z.

(** A float32 value read back as a Python float is the int [z]. *)
Definition int16_survives (z : Z) : bool :=
  same_float (to_f64 (pos_zero (to_f32 (num z)))) (num z).

(** ** Vocabulary for the link selection *)

Definition is_hdf_link (l : cmr_link) : bool :=
  endswith (default "" (href l)) ".hdf".

(** The relation tag denotes a data resource. *)
Definition is_data_link (l : cmr_link) : bool :=
  endswith (default "" (rel l)) "/data#".

Definition xml_link : cmr_link :=
  mk_link (Some "https://host/path/file.xml") None.
Definition hdf_link : cmr_link :=
  mk_link (Some "https://host/path/file.hdf") None.

(** ** Vocabulary for the cache and the pipeline *)

(** [c in s] *)
Fixpoint contains (c : ascii) (s : string) : bool :=
  match s with
  | EmptyString => false
  | String a t => Ascii.eqb a c || contains c t
  end.

(** The path under which [download_granule] caches [url]. *)
Definition cache_path (url : string) : string :=
  path_join CACHE_DIR (cache_filename url).

Definition sample_url : string :=
  "https://ladsweb.example/archive/MOD04_L2.A2024070.0530.hdf?token=a/b".

Definition sample_hdf_url : string :=
  "https://ladsweb.example/archive/MOD04_L2.A2024070.0530.hdf".

Definition sample_entry : cmr_entry :=
  mk_entry (Some "MOD04_L2.A2024070.0530")
           (Some "2024-03-10T05:30:00.000Z")
           (Some [xml_link; mk_link (Some sample_hdf_url) None]).

Definition sample_credentials : gmap string string :=
  {[ "EARTHDATA_USERNAME" := "user"; "EARTHDATA_PASSWORD" := "secret" ]}.

(** A world in which Testville geocodes to (12, 34), the catalogue
    answers with [sample_entry], the download endpoint answers every
    request with [status], and every file decodes to the strip whose
    first cell is the sentinel. *)
Definition sample_world (env : gmap string string) (status : Z)
    (files : gmap string fs_node) : world :=
  {| environ := env;
     clock := mk_datetime 2024 3 10 12 0 0 0 (Some 0%Z);
     geocoder := fun city =>
       if String.eqb city "Testville" then Some (num 12, num 34) else None;
     cmr := fun _ => Responded 200 (Some (mk_json (Some (Some [sample_entry]))));
     earthdata := fun _ _ => Responded status (mk_stream ["HDF"; ""; "4"] false);
     pyhdf_installed := true;
     sd_decode := fun _ =>
       Some (granule_file strip_fill_first strip_lat strip_lon);
     fs := files;
     net_log := [] |}.

Definition sample_auth : string * string := ("user", "secret").

(** ** Vocabulary for the time window *)

(** The position of [d] on its own calendar, in microseconds: its
    wall-clock reading, whatever its time zone. *)
Definition wall_micros (d : datetime) : Z :=
  ((toordinal d * 86400 + hour d * 3600 + minute d * 60 + second d) * 1000000
   + microsecond d)%Z.

(** The UTC offset of [d] in seconds; a naive value is read as UTC. *)
Definition utc_offset (d : datetime) : Z := default 0%Z (tzinfo d).

(** The instant [d] denotes, in microseconds of UTC. *)
Definition utc_micros (d : datetime) : Z :=
  (wall_micros d - utc_offset d * 1000000)%Z.

(** The date the window is computed from: the argument, or the clock. *)
Definition requested_date (date : option datetime) (w : world) : datetime :=
  match date with
  | None => clock w
  | Some d => d
  end.

(** ** Vocabulary for the further properties *)

(** A raster file whose grids have no cell at all. *)
Definition empty_grid : sds := grid (0, 0)%nat [] ∅.

(** The bytes of a streamed body: [b"".join(chunks)]. *)
Definition join_chunks (cs : list string) : string :=
  fold_right String.append "" cs.

(** The world after [n] was stored at path [p]. *)
Definition store (p : string) (n : fs_node) (w : world) : world :=
  set_fs (<[p := n]> (fs w)) w.

(** The date part of an ISO stamp: [YYYY-MM-DD]. *)
Definition iso_date (d : datetime) : string :=
  zfill 4 (year d) ++ "-" ++ zfill 2 (month d) ++ "-" ++ zfill 2 (day d).

(** [d] is the last day [datetime] can represent. *)
Definition is_last_day (d : datetime) : bool :=
  (year d =? 9999)%Z && (month d =? 12)%Z && (day d =? 31)%Z.

(** [w'] differs from [w] at most in its file system and network log:
    environment, clock and services are the same. *)
Definition same_services (w w' : world) : Prop :=
  environ w' = environ w /\ clock w' = clock w /\
  geocoder w' = geocoder w /\ cmr w' = cmr w /\ earthdata w' = earthdata w /\
  pyhdf_installed w' = pyhdf_installed w /\ sd_decode w' = sd_decode w.

(** The whole degrees from -180 to 180. *)
Definition whole_degrees : list Z := zrange 361 (-180)%Z.

(** Around the whole degree [z], the two bounds are [z - 0.5] and
    [z + 0.5] exactly. *)
Definition box_is_exact (z : Z) : bool :=
  same_float (sub64 (num z) half) (dyadic (2 * z - 1) (-1)) &&
  same_float (add64 (num z) half) (dyadic (2 * z + 1) (-1)).

(** The [out_csv] branch of [fetch_live_aod]. *)
Definition write_csv (out_csv : option string) (row : payload) : M unit :=
  match out_csv with
  | Some p => _ ← mkdir_parents (path_parent p); to_csv p row
  | None => mret tt
  end.

(** The dict [fetch_live_aod] assembles. *)
Definition make_payload (city : string) (g : granule) (lat lon aod : float) : payload :=
  {| p_city := city;
     p_date := if str_empty (g_time_start g) then ""
               else substring 0 10 (g_time_start g);
     p_latitude := lat;
     p_longitude := lon;
     p_modis_aod := aod;
     p_granule_id := granule_id g;
     p_source_url := download_url g |}.

(** The pipeline from the opening of the cached file on. *)
Definition read_and_report (city : string) (out_csv : option string)
    (g : granule) (lat lon : float) (hdf_path : string) : M payload :=
  aod ← read_aod_from_hdf hdf_path lat lon;
  _ ← write_csv out_csv (make_payload city g lat lon aod);
  mret (make_payload city g lat lon aod).

(** * Properties *)

(** ** Rounding to a format *)

Section rounding.
Variables prec emax : Z.
Hypothesis prec_pos : (0 < prec)%Z.

Lemma digits2_pos_log2 (p : positive) :
  Zpos (digits2_pos p) = (Z.log2 (Zpos p) + 1)%Z.
Proof.
  induction p as [p IH | p IH |]; simpl digits2_pos.
  - rewrite Pos2Z.inj_succ, IH.
    change (Zpos p~1) with (2 * Zpos p + 1)%Z.
    rewrite Z.log2_succ_double by lia. lia.
  - rewrite Pos2Z.inj_succ, IH.
    change (Zpos p~0) with (2 * Zpos p)%Z.
    rewrite Z.log2_double by lia. lia.
  - reflexivity.
Qed.

Lemma shr_1_m (mrs : shr_record) :
  (0 <= shr_m mrs)%Z -> shr_m (shr_1 mrs) = Z.shiftr (shr_m mrs) 1.
Proof.
  destruct mrs as [m r s]. simpl. intros Hm.
  destruct m as [| p | p]; [reflexivity | | lia].
  destruct p; reflexivity.
Qed.

Lemma shr_iter_m (p : positive) :
  forall mrs : shr_record, (0 <= shr_m mrs)%Z ->
    shr_m (SpecFloat.iter_pos shr_1 p mrs) = Z.shiftr (shr_m mrs) (Zpos p).
Proof.
  induction p as [p IH | p IH |]; intros mrs Hm.
  - change (SpecFloat.iter_pos shr_1 p~1 mrs)
      with (SpecFloat.iter_pos shr_1 p (SpecFloat.iter_pos shr_1 p (shr_1 mrs))).
    assert (H1 : (0 <= shr_m (shr_1 mrs))%Z)
      by (rewrite shr_1_m by assumption; apply Z.shiftr_nonneg; assumption).
    assert (H2 : (0 <= shr_m (SpecFloat.iter_pos shr_1 p (shr_1 mrs)))%Z)
      by (rewrite IH by assumption; apply Z.shiftr_nonneg; assumption).
    rewrite IH, IH, shr_1_m by assumption.
    rewrite !Z.shiftr_shiftr by lia. f_equal. lia.
  - change (SpecFloat.iter_pos shr_1 p~0 mrs)
      with (SpecFloat.iter_pos shr_1 p (SpecFloat.iter_pos shr_1 p mrs)).
    assert (H2 : (0 <= shr_m (SpecFloat.iter_pos shr_1 p mrs))%Z)
      by (rewrite IH by assumption; apply Z.shiftr_nonneg; assumption).
    rewrite IH, IH by assumption.
    rewrite !Z.shiftr_shiftr by lia. f_equal. lia.
  - apply shr_1_m. assumption.
Qed.

(** The first component of [shr_fexp]: the mantissa shifted right by
    the number of digits that do not fit. *)
Lemma shr_fexp_spec (m e : Z) (l : location) :
  (0 <= m)%Z ->
  shr_m (fst (shr_fexp prec emax m e l)) =
    Z.shiftr m (Z.max 0 (fexp prec emax (Zdigits2 m + e) - e)) /\
  snd (shr_fexp prec emax m e l) =
    (e + Z.max 0 (fexp prec emax (Zdigits2 m + e) - e))%Z.
Proof.
  intros Hm. unfold shr_fexp, shr.
  assert (Hrec : shr_m (shr_record_of_loc m l) = m)
    by (destruct l as [| []]; reflexivity).
  destruct (fexp prec emax (Zdigits2 m + e) - e)%Z as [| p | p] eqn:Hn.
  - simpl. rewrite Hrec. split; [reflexivity | lia].
  - cbn [fst snd]. rewrite shr_iter_m by (rewrite Hrec; assumption).
    rewrite Hrec. replace (Z.max 0 (Z.pos p)) with (Z.pos p) by lia.
    split; reflexivity.
  - simpl. rewrite Hrec. split; [reflexivity | lia].
Qed.

Lemma round_nearest_even_bounds (m : Z) (l : location) :
  (m <= round_nearest_even m l <= m + 1)%Z.
Proof.
  destruct l as [| []]; simpl; try lia.
  destruct (Z.even m); lia.
Qed.

Lemma Zdigits2_log2 (m : Z) : (0 < m)%Z -> Zdigits2 m = (Z.log2 m + 1)%Z.
Proof.
  destruct m as [| p | p]; try lia. intros _. apply digits2_pos_log2.
Qed.

Lemma log2_shiftr_pos (m n : Z) :
  (0 < m)%Z -> (0 <= n)%Z -> (0 < Z.shiftr m n)%Z ->
  Z.log2 (Z.shiftr m n) = (Z.log2 m - n)%Z.
Proof.
  intros Hm Hn Hpos. rewrite Z.log2_shiftr by assumption.
  destruct (Z_lt_le_dec (Z.log2 m) n) as [Hlt | Hle]; [| lia].
  rewrite (Z.shiftr_eq_0 m n) in Hpos by lia. lia.
Qed.

(** A positive mantissa that is not too short for its exponent rounds
    to a float of the format. *)
Lemma binary_round_aux_valid (sx : bool) (mx ex : Z) (lx : location) :
  (0 < mx)%Z -> (0 <= fexp prec emax (Zdigits2 mx + ex) - ex)%Z ->
  valid_binary prec emax (binary_round_aux prec emax sx mx ex lx) = true.
Proof.
  intros Hmx Hn1. unfold binary_round_aux.
  destruct (shr_fexp_spec mx ex lx ltac:(lia)) as [Hm1 He1].
  destruct (shr_fexp prec emax mx ex lx) as [mrs1 e1]. cbn [fst snd] in Hm1, He1.
  set (m1 := shr_m mrs1) in *.
  pose proof (round_nearest_even_bounds m1 (loc_of_shr_record mrs1)) as Hr.
  set (m1r := round_nearest_even m1 (loc_of_shr_record mrs1)) in *.
  assert (Hm1nn : (0 <= m1)%Z) by (rewrite Hm1; apply Z.shiftr_nonneg; lia).
  destruct (shr_fexp_spec m1r e1 loc_Exact ltac:(lia)) as [Hm2 He2].
  destruct (shr_fexp prec emax m1r e1 loc_Exact) as [mrs2 e2].
  cbn [fst snd] in Hm2, He2.
  destruct (shr_m mrs2) as [| m2 | m2] eqn:Hm2e; [reflexivity | | reflexivity].
  destruct (e2 <=? emax - prec)%Z eqn:Hle; [| reflexivity].
  simpl. unfold bounded, canonical_mantissa. rewrite Hle, andb_true_r.
  apply Z.eqb_eq.
  rewrite digits2_pos_log2.
  assert (Hm1r : (0 < m1r)%Z).
  { destruct (Z_lt_le_dec 0 m1r) as [H | H]; [assumption |].
    assert (m1r = 0%Z) by lia. rewrite H0 in Hm2.
    rewrite Z.shiftr_0_l in Hm2. discriminate Hm2. }
  rewrite (Zdigits2_log2 mx Hmx) in *.
  rewrite (Zdigits2_log2 m1r Hm1r) in *.
  replace (Z.max 0 (fexp prec emax (Z.log2 mx + 1 + ex) - ex))%Z
    with (fexp prec emax (Z.log2 mx + 1 + ex) - ex)%Z in * by lia.
  set (n1 := (fexp prec emax (Z.log2 mx + 1 + ex) - ex)%Z) in *.
  assert (Hlog2 : Z.log2 (Zpos m2) =
            (Z.log2 m1r - Z.max 0 (fexp prec emax (Z.log2 m1r + 1 + e1) - e1))%Z).
  { rewrite Hm2. apply log2_shiftr_pos; [assumption | lia |].
    rewrite <- Hm2. lia. }
  rewrite Hlog2.
  assert (Hcase : (0 < m1 /\ Z.log2 m1 = Z.log2 mx - n1)%Z \/
                  (m1 = 0 /\ n1 > Z.log2 mx)%Z).
  { destruct (Z_lt_le_dec 0 m1) as [H | H].
    - left. split; [assumption |]. rewrite Hm1.
      apply log2_shiftr_pos; [assumption | lia | rewrite <- Hm1; assumption].
    - right. split; [lia |].
      destruct (Z_lt_le_dec (Z.log2 mx) n1) as [H' | H']; [lia |].
      exfalso. assert (Hz : Z.shiftr mx n1 = 0%Z) by lia.
      apply Z.shiftr_eq_0_iff in Hz. lia. }
  assert (Hmono : (Z.log2 m1 <= Z.log2 m1r)%Z) by (apply Z.log2_le_mono; lia).
  assert (Hm1r1 : (m1 = 0 -> Z.log2 m1r = 0)%Z).
  { intros H0. assert (m1r = 1%Z) by lia. subst m1r. rewrite H. reflexivity. }
  unfold fexp, emin in *. subst n1. lia.
Qed.

Lemma Zpos_iter_xO (m d : positive) :
  Zpos (Pos.iter xO m d) = Z.shiftl (Zpos m) (Zpos d).
Proof.
  rewrite (Pos.iter_swap_gen _ _ Zpos xO (Z.mul 2)) by reflexivity.
  reflexivity.
Qed.

(** Rounding to the format gives a float of the format. *)
Lemma binary_round_valid (s : bool) (m : positive) (e : Z) :
  valid_binary prec emax (binary_round prec emax s m e) = true.
Proof.
  unfold binary_round, shl_align.
  destruct (fexp prec emax (Zpos (digits2_pos m) + e) - e)%Z as [| d | d] eqn:Hd.
  - apply binary_round_aux_valid; [lia |]. simpl Zdigits2. lia.
  - apply binary_round_aux_valid; [lia |]. simpl Zdigits2. lia.
  - apply binary_round_aux_valid; [lia |]. simpl Zdigits2.
    rewrite !digits2_pos_log2 in *. rewrite Zpos_iter_xO.
    rewrite Z.log2_shiftl by lia.
    replace (Z.log2 (Z.pos m) + Z.pos d + 1 + fexp prec emax (Z.log2 (Z.pos m) + 1 + e))%Z
      with (Z.log2 (Z.pos m) + 1 + e)%Z by lia.
    lia.
Qed.

Lemma binary_round_aux_not_nan (sx : bool) (mx ex : Z) (lx : location) :
  (0 <= mx)%Z -> binary_round_aux prec emax sx mx ex lx <> S754_nan.
Proof.
  intros Hmx. unfold binary_round_aux.
  destruct (shr_fexp_spec mx ex lx Hmx) as [Hm1 _].
  destruct (shr_fexp prec emax mx ex lx) as [mrs1 e1]. cbn [fst snd] in Hm1.
  pose proof (round_nearest_even_bounds (shr_m mrs1) (loc_of_shr_record mrs1)) as Hr.
  assert (Hm1nn : (0 <= shr_m mrs1)%Z) by (rewrite Hm1; apply Z.shiftr_nonneg; lia).
  destruct (shr_fexp_spec (round_nearest_even (shr_m mrs1) (loc_of_shr_record mrs1))
              e1 loc_Exact ltac:(lia)) as [Hm2 _].
  destruct (shr_fexp prec emax _ e1 loc_Exact) as [mrs2 e2]. cbn [fst snd] in Hm2.
  assert (Hm2nn : (0 <= shr_m mrs2)%Z) by (rewrite Hm2; apply Z.shiftr_nonneg; lia).
  destruct (shr_m mrs2) as [| p | p]; [discriminate | | lia].
  destruct (e2 <=? emax - prec)%Z; discriminate.
Qed.

Lemma binary_round_not_nan (s : bool) (m : positive) (e : Z) :
  binary_round prec emax s m e <> S754_nan.
Proof.
  unfold binary_round.
  destruct (shl_align m e (fexp prec emax (Zpos (digits2_pos m) + e))) as [mz ez].
  apply binary_round_aux_not_nan. lia.
Qed.

End rounding.

(** ** The order of floats *)

Lemma SFltb_key (x y : spec_float) :
  not_nan x -> not_nan y ->
  (SFltb x y = true <-> key_lt (float_key x) (float_key y)).
Proof.
  intros Hx Hy. unfold SFltb, key_lt.
  destruct x as [sx | sx | | sx mx ex], y as [sy | sy | | sy my ey];
    try (exfalso; apply Hx; reflexivity); try (exfalso; apply Hy; reflexivity);
    repeat match goal with s : bool |- _ => destruct s end;
    cbn [SFcompare float_key fst snd];
    try (split; [intros H; try discriminate H; lia | intros H; try reflexivity; lia]).
  - change (Pos.compare_cont Eq mx my) with (Pos.compare mx my).
    destruct (Z.compare_spec ex ey) as [He | He | He];
      [destruct (Pos.compare_spec mx my) as [Hm | Hm | Hm] |..]; simpl;
      (split; [intros H; try discriminate H; lia | intros H; try reflexivity; lia]).
  - change (Pos.compare_cont Eq mx my) with (Pos.compare mx my).
    destruct (Z.compare_spec ex ey) as [He | He | He];
      [destruct (Pos.compare_spec mx my) as [Hm | Hm | Hm] |..]; simpl;
      (split; [intros H; try discriminate H; lia | intros H; try reflexivity; lia]).
Qed.

Lemma SFleb_key (x y : spec_float) :
  not_nan x -> not_nan y ->
  (SFleb x y = true <-> ~ key_lt (float_key y) (float_key x)).
Proof.
  intros Hx Hy. unfold SFleb, key_lt.
  destruct x as [sx | sx | | sx mx ex], y as [sy | sy | | sy my ey];
    try (exfalso; apply Hx; reflexivity); try (exfalso; apply Hy; reflexivity);
    repeat match goal with s : bool |- _ => destruct s end;
    cbn [SFcompare float_key fst snd];
    try (split; [intros H; try discriminate H; lia | intros H; try reflexivity; lia]).
  - change (Pos.compare_cont Eq mx my) with (Pos.compare mx my).
    destruct (Z.compare_spec ex ey) as [He | He | He];
      [destruct (Pos.compare_spec mx my) as [Hm | Hm | Hm] |..]; simpl;
      (split; [intros H; try discriminate H; lia | intros H; try reflexivity; lia]).
  - change (Pos.compare_cont Eq mx my) with (Pos.compare mx my).
    destruct (Z.compare_spec ex ey) as [He | He | He];
      [destruct (Pos.compare_spec mx my) as [Hm | Hm | Hm] |..]; simpl;
      (split; [intros H; try discriminate H; lia | intros H; try reflexivity; lia]).
Qed.

(** ** float32 and binary64 *)

Lemma to_f32_valid (x : float) : valid_binary prec32 emax32 (to_f32 x) = true.
Proof.
  destruct x as [s | s | | s m e]; try reflexivity.
  apply binary_round_valid. reflexivity.
Qed.


Lemma isnan_to_f64 (x : float) : isnan (to_f64 x) = isnan x.
Proof.
  destruct x as [s | s | | s m e]; try reflexivity. simpl.
  pose proof (binary_round_not_nan prec64 emax64 s m e) as H.
  destruct (binary_round prec64 emax64 s m e); try reflexivity. congruence.
Qed.

(** [x * 1.0] is [x] for every float32 [x]. *)
Lemma mul32_one (x : float) :
  valid_binary prec32 emax32 x = true -> mul32 x (to_f32 (num 1)) = x.
Proof.
  change (to_f32 (num 1)) with (S754_finite false 8388608 (-23)).
  destruct x as [[] | [] | | s m e]; try reflexivity.
  intros Hv. simpl in Hv. unfold bounded, canonical_mantissa in Hv.
  apply andb_true_iff in Hv. destruct Hv as [Hc He].
  apply Z.eqb_eq in Hc. apply Z.leb_le in He.
  unfold mul32, SFmul. rewrite xorb_false_r.
  rewrite (Pos.mul_comm m 8388608).
  change (8388608 * m)%positive
    with (m~0~0~0~0~0~0~0~0~0~0~0~0~0~0~0~0~0~0~0~0~0~0~0)%positive.
  unfold binary_round_aux, shr_fexp.
  assert (Hd : Zdigits2 (Zpos m~0~0~0~0~0~0~0~0~0~0~0~0~0~0~0~0~0~0~0~0~0~0~0)
               = (Zpos (digits2_pos m) + 23)%Z).
  { simpl. lia. }
  rewrite Hd.
  replace (fexp prec32 emax32 (Z.pos (digits2_pos m) + 23 + (e + -23)) - (e + -23))%Z
    with 23%Z by (replace (Z.pos (digits2_pos m) + 23 + (e + -23))%Z
                    with (Z.pos (digits2_pos m) + e)%Z by lia; lia).
  cbn [shr shr_record_of_loc SpecFloat.iter_pos shr_1 shr_m shr_r shr_s
       loc_of_shr_record round_nearest_even orb].
  cbn [Zdigits2].
  replace (e + -23 + 23)%Z with e by lia.
  rewrite Hc, Z.sub_diag. cbn [shr shr_m].
  apply Z.leb_le in He. unfold prec32, emax32 in *. rewrite He. reflexivity.
Qed.

(** Casting a float32 to float32 changes nothing. *)
Lemma to_f32_float32 (x : float) :
  valid_binary prec32 emax32 x = true -> to_f32 x = x.
Proof.
  destruct x as [s | s | | s m e]; try reflexivity.
  intros Hv. simpl in Hv. unfold bounded, canonical_mantissa in Hv.
  apply andb_true_iff in Hv. destruct Hv as [Hc He].
  apply Z.eqb_eq in Hc.
  unfold to_f32, binary_round, shl_align. rewrite Hc, Z.sub_diag.
  unfold binary_round_aux, shr_fexp. cbn [Zdigits2].
  rewrite Hc, Z.sub_diag.
  cbn [shr shr_record_of_loc shr_m shr_r shr_s loc_of_shr_record
       round_nearest_even Zdigits2].
  rewrite Hc, Z.sub_diag. cbn [shr shr_m].
  rewrite He. reflexivity.
Qed.

(** [x + 0.0] keeps [x], up to the sign of a zero. *)
Lemma add32_zero (x : float) : add32 x (to_f32 (num 0)) = pos_zero x.
Proof. destruct x as [[] | [] | | s m e]; reflexivity. Qed.

Lemma unit_scale (x : float) :
  valid_binary prec32 emax32 x = true ->
  add32 (mul32 x (to_f32 (num 1))) (to_f32 (num 0)) = pos_zero x.
Proof. intros Hv. rewrite mul32_one by assumption. apply add32_zero. Qed.

Lemma feqb_pos_zero (x f : float) : feqb (pos_zero x) f = feqb x f.
Proof. destruct x as [[] | [] | | s m e], f as [[] | [] | | s' m' e']; reflexivity. Qed.




(** ** Comparing floats *)

Lemma SFltb_not_nan (x y : float) : SFltb x y = true -> not_nan x /\ not_nan y.
Proof.
  unfold SFltb, not_nan.
  destruct x as [sx | sx | | sx mx ex], y as [sy | sy | | sy my ey];
    simpl; intros H; try discriminate H; split; discriminate.
Qed.

Lemma SFleb_not_nan (x y : float) : SFleb x y = true -> not_nan x /\ not_nan y.
Proof.
  unfold SFleb, not_nan.
  destruct x as [sx | sx | | sx mx ex], y as [sy | sy | | sy my ey];
    simpl; intros H; try discriminate H; split; discriminate.
Qed.

Ltac by_keys :=
  unfold key_lt in *;
  repeat match goal with
         | |- context [float_key ?x] =>
             let a := fresh "a" in let b := fresh "b" in let c := fresh "c" in
             destruct (float_key x) as [[a b] c]
         | H : context [float_key ?x] |- _ =>
             let a := fresh "a" in let b := fresh "b" in let c := fresh "c" in
             destruct (float_key x) as [[a b] c]
         end;
  cbn [fst snd] in *; lia.

Lemma fle_refl (x : float) : not_nan x -> SFleb x x = true.
Proof. intros Hx. apply SFleb_key; [assumption .. |]. by_keys. Qed.

Lemma flt_fle (x y : float) : SFltb x y = true -> SFleb x y = true.
Proof.
  intros H. destruct (SFltb_not_nan _ _ H) as [Hx Hy].
  apply SFltb_key in H; [| assumption ..].
  apply SFleb_key; [assumption .. |]. by_keys.
Qed.

Lemma flt_fle_trans (x y z : float) :
  SFltb x y = true -> SFleb y z = true -> SFltb x z = true.
Proof.
  intros H1 H2. destruct (SFltb_not_nan _ _ H1) as [Hx Hy].
  destruct (SFleb_not_nan _ _ H2) as [_ Hz].
  apply SFltb_key in H1; [| assumption ..].
  apply SFleb_key in H2; [| assumption ..].
  apply SFltb_key; [assumption .. |]. by_keys.
Qed.

Lemma flt_trans (x y z : float) :
  SFltb x y = true -> SFltb y z = true -> SFltb x z = true.
Proof.
  intros H1 H2. apply (flt_fle_trans x y z H1). apply flt_fle. assumption.
Qed.

Lemma fnlt_fle (x y : float) :
  not_nan x -> not_nan y -> SFltb x y = false -> SFleb y x = true.
Proof.
  intros Hx Hy H. apply SFleb_key; [assumption .. |].
  intros Hlt. apply SFltb_key in Hlt; [| assumption ..]. congruence.
Qed.

Lemma flt_fle_absurd (x y : float) :
  SFltb x y = true -> SFleb y x = true -> False.
Proof.
  intros H1 H2. destruct (SFltb_not_nan _ _ H1) as [Hx Hy].
  apply SFltb_key in H1; [| assumption ..].
  apply SFleb_key in H2; [| assumption ..]. by_keys.
Qed.

(** ** The nearest-cell scan *)

(** What the scan returns is either the candidate it started with, still
    no greater than every cell scanned, or a scanned cell that is least,
    strictly below every earlier cell and strictly below the candidate. *)
Lemma argmin_scan_spec (l : list float) :
  forall (i bj : nat) (bm : float),
    Forall not_nan l -> not_nan bm ->
    (argmin_scan l i (bj, bm) = bj /\
     (forall j q, l !! j = Some q -> SFleb bm q = true))
    \/
    (exists k' m, argmin_scan l i (bj, bm) = (i + k')%nat /\ l !! k' = Some m /\
       (forall j q, l !! j = Some q -> SFleb m q = true) /\
       (forall j q, (j < k')%nat -> l !! j = Some q -> SFltb m q = true) /\
       SFltb m bm = true).
Proof.
  induction l as [| x t IH]; intros i bj bm Hall Hbm; simpl.
  - left. split; [reflexivity |]. intros j q Hj. destruct j; discriminate.
  - inversion Hall as [| ? ? Hx Ht]; subst. unfold fltb. cbn [snd].
    destruct (SFltb x bm) eqn:Hcmp.
    + destruct (IH (S i) i x Ht Hx) as [[Hk Hle] | (k' & m & Hk & Hm & Hle & Hlt & Hbest)].
      * right. exists 0%nat, x. rewrite Hk. repeat split.
        -- lia.
        -- intros [| j] q Hj; simpl in Hj.
           ++ inversion Hj; subst. apply fle_refl. assumption.
           ++ eauto.
        -- intros j q Hj. lia.
        -- assumption.
      * right. exists (S k'), m. rewrite Hk. repeat split.
        -- lia.
        -- assumption.
        -- intros [| j] q Hj; simpl in Hj.
           ++ inversion Hj; subst. apply flt_fle. assumption.
           ++ eauto.
        -- intros [| j] q Hj' Hj; simpl in Hj.
           ++ inversion Hj; subst. assumption.
           ++ apply (Hlt j); [lia | assumption].
        -- eapply flt_trans; eassumption.
    + apply fnlt_fle in Hcmp; [| assumption ..].
      destruct (IH (S i) bj bm Ht Hbm) as [[Hk Hle] | (k' & m & Hk & Hm & Hle & Hlt & Hbest)].
      * left. split; [assumption |].
        intros [| j] q Hj; simpl in Hj.
        -- inversion Hj; subst. assumption.
        -- eauto.
      * right. exists (S k'), m. rewrite Hk. repeat split.
        -- lia.
        -- assumption.
        -- intros [| j] q Hj; simpl in Hj.
           ++ inversion Hj; subst. apply flt_fle.
              eapply flt_fle_trans; eassumption.
           ++ eauto.
        -- intros [| j] q Hj' Hj; simpl in Hj.
           ++ inversion Hj; subst. eapply flt_fle_trans; eassumption.
           ++ apply (Hlt j); [lia | assumption].
        -- assumption.
Qed.

Lemma replace_nan_not_nan (l : list float) : Forall not_nan (map replace_nan l).
Proof.
  induction l as [| x t IH]; simpl; constructor; [| exact IH].
  destruct x; discriminate.
Qed.

(** [np.argmin] returns the first position of the least cell. *)
Lemma argmin_first_least (l : list float) (k : nat) :
  Forall not_nan l -> argmin l = Ok k ->
  exists m, l !! k = Some m /\
    (forall j q, l !! j = Some q -> SFleb m q = true) /\
    (forall j q, (j < k)%nat -> l !! j = Some q -> SFltb m q = true).
Proof.
  destruct l as [| x t]; [discriminate |]. intros Hall H.
  inversion Hall as [| ? ? Hx Ht]; subst. simpl in H. inversion H as [Hk]. clear H.
  destruct (argmin_scan_spec t 1 0 x Ht Hx)
    as [[Hk' Hle] | (k' & m & Hk' & Hm & Hle & Hlt & Hbest)].
  - rewrite Hk'. exists x. repeat split.
    + intros [| j] q Hj; simpl in Hj.
      * inversion Hj; subst. apply fle_refl. assumption.
      * eauto.
    + intros j q Hj. lia.
  - rewrite Hk'. exists m. repeat split.
    + exact Hm.
    + intros [| j] q Hj; simpl in Hj.
      * inversion Hj; subst. apply flt_fle. assumption.
      * eauto.
    + intros [| j] q Hj' Hj; simpl in Hj.
      * inversion Hj; subst. assumption.
      * apply (Hlt j); [lia | assumption].
Qed.

(** [np.nanargmin] returns the nearest cell. *)
Lemma nanargmin_cells_nearest (l : list float) (k : nat) :
  nanargmin_cells l = Ok k -> nearest_cell l k.
Proof.
  unfold nanargmin_cells, nearest_cell. intros H.
  apply argmin_first_least; [apply replace_nan_not_nan |].
  destruct l as [| x t]; [discriminate H |].
  destruct (forallb isnan (x :: t)); [discriminate H | exact H].
Qed.

Lemma has_distance_forallb (l : list float) :
  has_distance l -> forallb isnan l = false.
Proof.
  intros (j & d & Hj & Hd).
  destruct (forallb isnan l) eqn:Hall; [| reflexivity].
  rewrite forallb_forall in Hall.
  apply list_elem_of_lookup_2, list_elem_of_In in Hj.
  rewrite (Hall _ Hj) in Hd. discriminate Hd.
Qed.

(** It does return one as soon as some cell has a distance. *)
Lemma nanargmin_cells_ok (l : list float) :
  has_distance l -> exists k, nanargmin_cells l = Ok k.
Proof.
  intros Hd. pose proof (has_distance_forallb l Hd) as Hall.
  unfold nanargmin_cells. destruct l as [| x t].
  - destruct Hd as (j & d & Hj & _). destruct j; discriminate Hj.
  - rewrite Hall. simpl. eauto.
Qed.

Lemma nearest_cell_unique (l : list float) (k k' : nat) :
  nearest_cell l k -> nearest_cell l k' -> k = k'.
Proof.
  intros (m & Hk & Hall & Hlt) (m' & Hk' & Hall' & Hlt').
  destruct (Nat.lt_trichotomy k k') as [Hc | [Hc | Hc]]; [| assumption |].
  - pose proof (Hlt' _ _ Hc Hk) as H1. pose proof (Hall _ _ Hk') as H2.
    exfalso. exact (flt_fle_absurd _ _ H1 H2).
  - pose proof (Hlt _ _ Hc Hk') as H1. pose proof (Hall' _ _ Hk) as H2.
    exfalso. exact (flt_fle_absurd _ _ H1 H2).
Qed.

Lemma nearest_cell_lt (l : list float) (k : nat) :
  nearest_cell l k -> (k < length l)%nat.
Proof.
  intros (m & Hk & _). apply lookup_lt_Some in Hk.
  rewrite length_map in Hk. exact Hk.
Qed.

(** The nearest cell is what [np.nanargmin] returns. *)
Lemma nanargmin_cells_complete (l : list float) (k : nat) :
  has_distance l -> nearest_cell l k -> nanargmin_cells l = Ok k.
Proof.
  intros Hd Hn. destruct (nanargmin_cells_ok l Hd) as [k0 Hk0].
  rewrite Hk0. f_equal.
  exact (nearest_cell_unique _ _ _ (nanargmin_cells_nearest _ _ Hk0) Hn).
Qed.

(** ** Extraction reads the nearest cell *)

Lemma unravel_getitem (a : ndarray) (sh : nat * nat) (k : nat) (v : float) :
  shape a = sh -> (k < size_of sh)%nat -> buf a !! k = Some v ->
  (unravel_index k sh ≫= getitem a) = Ok v.
Proof.
  intros Hsh Hk Hv. unfold unravel_index.
  destruct sh as [r c]. unfold size_of in *. simpl in *.
  apply Nat.ltb_lt in Hk as Hk'. rewrite Hk'.
  change (getitem a ((k / c)%nat, (k mod c)%nat) = Ok v).
  unfold getitem. rewrite Hsh. simpl.
  assert (Hc : c <> 0%nat) by (intros ->; lia).
  assert (Hi : (k / c < r)%nat) by (apply Nat.Div0.div_lt_upper_bound; lia).
  assert (Hj : (k mod c < c)%nat) by (apply Nat.mod_upper_bound; assumption).
  apply Nat.ltb_lt in Hi. apply Nat.ltb_lt in Hj. rewrite Hi, Hj. simpl.
  replace (k / c * c + k mod c)%nat with k
    by (pose proof (Nat.div_mod_eq k c); lia).
  rewrite Hv. reflexivity.
Qed.

Lemma lookup_map {A B} (f : A -> B) (l : list A) (k : nat) :
  map f l !! k = f <$> (l !! k).
Proof.
  revert k. induction l as [| x t IH]; intros [| k]; simpl; auto.
Qed.

Lemma buf_arr_map (f : float -> float) (a : ndarray) :
  buf (arr_map f a) = map f (buf a).
Proof. reflexivity. Qed.

Lemma lookup_map_seq {B} (g : nat -> B) (n k : nat) :
  map g (seq 0 n) !! k = if (k <? n)%nat then Some (g k) else None.
Proof.
  rewrite lookup_map. destruct (k <? n)%nat eqn:Hk.
  - apply Nat.ltb_lt in Hk. rewrite lookup_seq_lt by assumption. reflexivity.
  - apply Nat.ltb_ge in Hk. rewrite lookup_seq_ge by assumption. reflexivity.
Qed.

Lemma broadcast_dim_same (n : nat) : broadcast_dim n n = Some n.
Proof. unfold broadcast_dim. rewrite Nat.eqb_refl. reflexivity. Qed.

(** Inside the array, a broadcast read is a plain read. *)
Lemma bcast_cell_inside (a : ndarray) (k : nat) (v : float) :
  buf a !! k = Some v -> (k < size_of (shape a))%nat ->
  bcast_cell a (k / snd (shape a)) (k mod snd (shape a)) = v.
Proof.
  intros Hv Hk. unfold bcast_cell. destruct (shape a) as [r c]. unfold size_of in Hk.
  cbn [fst snd] in *.
  assert (Hc : c <> 0%nat) by (intros ->; lia).
  assert (Hi : (if (r =? 1)%nat then 0%nat else (k / c)%nat) = (k / c)%nat).
  { destruct (r =? 1)%nat eqn:Hr; [| reflexivity].
    apply Nat.eqb_eq in Hr. subst r. symmetry. apply Nat.div_small. lia. }
  assert (Hj : (if (c =? 1)%nat then 0%nat else (k mod c)%nat) = (k mod c)%nat).
  { destruct (c =? 1)%nat eqn:Hc1; [| reflexivity].
    apply Nat.eqb_eq in Hc1. subst c. symmetry. apply Nat.mod_1_r. }
  rewrite Hi, Hj.
  replace (k / c * c + k mod c)%nat with k
    by (pose proof (Nat.div_mod_eq k c); lia).
  rewrite Hv. reflexivity.
Qed.

(** Two well-formed arrays of one shape are combined cell by cell. *)
Lemma arr_zip_same_shape (f : float -> float -> float) (a b : ndarray) :
  shape b = shape a -> wf_ndarray a -> wf_ndarray b ->
  arr_zip f a b = Ok {| shape := shape a; buf := zip_with f (buf a) (buf b) |}.
Proof.
  intros Hsh Hwa Hwb. unfold arr_zip. rewrite Hsh, !broadcast_dim_same.
  destruct (shape a) as [r c] eqn:Hsa. cbn [fst snd]. do 2 f_equal.
  unfold wf_ndarray, size_of in *. rewrite Hsh in Hwb. rewrite Hsa in *.
  cbn [fst snd] in *.
  apply list_eq. intros k. rewrite lookup_map_seq, lookup_zip_with.
  destruct (k <? r * c)%nat eqn:Hk.
  - apply Nat.ltb_lt in Hk.
    destruct (lookup_lt_is_Some_2 (buf a) k ltac:(lia)) as [x Hx].
    destruct (lookup_lt_is_Some_2 (buf b) k ltac:(lia)) as [y Hy].
    rewrite Hx, Hy. simpl.
    pose proof (bcast_cell_inside a k x Hx) as Ha.
    pose proof (bcast_cell_inside b k y Hy) as Hb.
    rewrite Hsh in Hb. rewrite Hsa in Ha. unfold size_of in Ha, Hb.
    cbn [fst snd] in Ha, Hb. rewrite Ha, Hb by assumption. reflexivity.
  - apply Nat.ltb_ge in Hk.
    rewrite (lookup_ge_None_2 (buf a) k) by lia. reflexivity.
Qed.

Lemma zip_with_map_map {A B C D E} (f : C -> D -> E) (g : A -> C) (h : B -> D)
    (l : list A) (k : list B) :
  zip_with f (map g l) (map h k) = zip_with (fun x y => f (g x) (h y)) l k.
Proof.
  revert k. induction l as [| x t IH]; intros [| y k]; simpl; try reflexivity.
  rewrite IH. reflexivity.
Qed.

Lemma length_aod_cells (aod_ds : sds) :
  length (aod_cells aod_ds) = length (buf (sds_data aod_ds)).
Proof.
  unfold aod_cells, _apply_scale, mask_fill, astype_f32, arr_map.
  destruct (sds_attrs aod_ds !! "_FillValue"); simpl;
    rewrite ?length_map; reflexivity.
Qed.

Lemma length_dist_cells (lat_ds lon_ds : sds) (lat lon : float) :
  length (buf (sds_data lat_ds)) = length (buf (sds_data lon_ds)) ->
  length (dist_cells lat_ds lon_ds lat lon) = length (buf (sds_data lat_ds)).
Proof.
  intros H. unfold dist_cells. rewrite length_zip_with. lia.
Qed.

(** On a raster file the distance grid has the shape of the three grids
    and holds the squared distance of every cell. *)
Lemma dist_grid_raster hdf aod_ds lat_ds lon_ds lat lon :
  raster_file hdf aod_ds lat_ds lon_ds ->
  dist_grid (astype_f32 (sds_data lat_ds)) (astype_f32 (sds_data lon_ds)) lat lon =
    Ok {| shape := shape (sds_data aod_ds);
          buf := dist_cells lat_ds lon_ds lat lon |}.
Proof.
  intros [_ _ _ Hsla Hslo _ Hwla Hwlo]. unfold dist_grid.
  rewrite arr_zip_same_shape.
  - unfold astype_f32. rewrite !buf_arr_map. cbn [shape arr_map].
    rewrite Hsla. do 2 f_equal.
    rewrite !map_map. rewrite zip_with_map_map. reflexivity.
  - cbn [shape arr_map astype_f32]. congruence.
  - unfold wf_ndarray in *. cbn [shape buf arr_map astype_f32].
    rewrite !length_map. assumption.
  - unfold wf_ndarray in *. cbn [shape buf arr_map astype_f32].
    rewrite !length_map. assumption.
Qed.

Lemma raster_lengths hdf aod_ds lat_ds lon_ds lat lon :
  raster_file hdf aod_ds lat_ds lon_ds ->
  length (dist_cells lat_ds lon_ds lat lon) = size_of (shape (sds_data aod_ds)) /\
  length (buf (sds_data aod_ds)) = size_of (shape (sds_data aod_ds)).
Proof.
  intros [_ _ _ Hsla Hslo Hwa Hwla Hwlo]. unfold wf_ndarray in *.
  rewrite length_dist_cells by (rewrite Hwla, Hwlo, Hsla, Hslo; reflexivity).
  rewrite Hwla, Hsla. split; [reflexivity | assumption].
Qed.

(** On a raster file, extraction is decided by [np.nanargmin] over the
    distance grid alone: the cell it finds is looked up in [aod], and a
    NaN there is the missing-pixel error. *)
Lemma read_aod_from_sd_raster hdf aod_ds lat_ds lon_ds lat lon :
  raster_file hdf aod_ds lat_ds lon_ds ->
  read_aod_from_sd hdf lat lon =
    match nanargmin_cells (dist_cells lat_ds lon_ds lat lon) with
    | Ok k =>
        match aod_cells aod_ds !! k with
        | Some v => if isnan v then Raise (ModisLiveError msg_missing_pixel)
                    else Ok (to_f64 v)
        | None => Raise IndexError
        end
    | Raise e => Raise e
    end.
Proof.
  intros Hrf. pose proof (dist_grid_raster _ _ _ _ lat lon Hrf) as Hdist.
  pose proof (raster_lengths _ _ _ _ lat lon Hrf) as [Hdl Hal].
  destruct Hrf as [Ha Hla Hlo Hsla Hslo Hwa Hwla Hwlo].
  unfold read_aod_from_sd, hdf_select. rewrite Ha, Hla, Hlo.
  change (Ok aod_ds ≫= ?f) with (f aod_ds). cbv beta.
  change (Ok lat_ds ≫= ?f) with (f lat_ds). cbv beta.
  change (Ok lon_ds ≫= ?f) with (f lon_ds). cbv beta.
  rewrite Hdist.
  match goal with |- (Ok ?d ≫= ?f) = _ => change (Ok d ≫= f) with (f d) end.
  cbv beta. unfold nanargmin. cbn [buf shape].
  destruct (nanargmin_cells (dist_cells lat_ds lon_ds lat lon)) as [k | e] eqn:Hk;
    [| reflexivity].
  change (Ok k ≫= ?f) with (f k). cbv beta.
  apply nanargmin_cells_nearest, nearest_cell_lt in Hk.
  assert (Hka : (k < length (aod_cells aod_ds))%nat)
    by (rewrite length_aod_cells; lia).
  destruct (lookup_lt_is_Some_2 _ _ Hka) as [v Hv]. rewrite Hv.
  set (aod := match sds_attrs aod_ds !! "_FillValue" with
              | Some fill => mask_fill fill
                  (_apply_scale (sds_data aod_ds) (sds_attrs aod_ds))
              | None => _apply_scale (sds_data aod_ds) (sds_attrs aod_ds)
              end).
  assert (Hshape : shape aod = shape (sds_data aod_ds)).
  { subst aod. destruct (sds_attrs aod_ds !! "_FillValue"); reflexivity. }
  assert (Hbuf : buf aod !! k = Some v) by exact Hv.
  assert (Hks : (k < size_of (shape (sds_data aod_ds)))%nat) by lia.
  pose proof (unravel_getitem aod _ k v Hshape Hks Hbuf) as Hget.
  destruct (unravel_index k (shape (sds_data aod_ds))) as [idx |] eqn:Hidx.
  - change (Ok idx ≫= getitem aod) with (getitem aod idx) in Hget.
    change (Ok idx ≫= ?f) with (f idx). cbv beta.
    rewrite Hget.
    change (Ok v ≫= ?f) with (f v). cbv beta.
    rewrite isnan_to_f64. reflexivity.
  - discriminate Hget.
Qed.

Lemma raster_file_sample (aod_ds lat_ds lon_ds : sds) :
  shape (sds_data lat_ds) = shape (sds_data aod_ds) ->
  shape (sds_data lon_ds) = shape (sds_data aod_ds) ->
  wf_ndarray (sds_data aod_ds) -> wf_ndarray (sds_data lat_ds) ->
  wf_ndarray (sds_data lon_ds) ->
  raster_file (granule_file aod_ds lat_ds lon_ds) aod_ds lat_ds lon_ds.
Proof.
  intros. unfold granule_file. constructor; try assumption.
  - apply lookup_insert_eq.
  - rewrite lookup_insert_ne by discriminate. apply lookup_insert_eq.
  - rewrite lookup_insert_ne by discriminate.
    rewrite lookup_insert_ne by discriminate.
    apply lookup_singleton_eq.
Defined.

(** The scaled cell at position [k]. *)
Lemma lookup_apply_scale (aod_ds : sds) (k : nat) :
  buf (_apply_scale (sds_data aod_ds) (sds_attrs aod_ds)) !! k =
    scaled aod_ds <$> (buf (sds_data aod_ds) !! k).
Proof.
  unfold _apply_scale, astype_f32. rewrite !buf_arr_map, !lookup_map.
  destruct (buf (sds_data aod_ds) !! k); reflexivity.
Qed.

(** The cell the nearest index is looked up in: the scaled value, or NaN
    where the code marked it. *)
Lemma lookup_aod_cells (aod_ds : sds) (k : nat) :
  aod_cells aod_ds !! k =
    (fun raw => if marked_missing aod_ds k then nan else scaled aod_ds raw)
      <$> (buf (sds_data aod_ds) !! k).
Proof.
  unfold aod_cells, marked_missing.
  destruct (sds_attrs aod_ds !! "_FillValue") as [fill |].
  - unfold mask_fill. rewrite buf_arr_map, lookup_map, lookup_apply_scale.
    destruct (buf (sds_data aod_ds) !! k); reflexivity.
  - rewrite lookup_apply_scale.
    destruct (buf (sds_data aod_ds) !! k); reflexivity.
Qed.

(** Stored with a scale of one and an offset of zero, a value comes back
    as its float32 rounding. *)
Lemma scaled_unit_scale (aod_ds : sds) (raw : float) :
  to_f32 (scale_of aod_ds) = to_f32 (num 1) ->
  to_f32 (offset_of aod_ds) = to_f32 (num 0) ->
  scaled aod_ds raw = pos_zero (to_f32 raw).
Proof.
  intros Hs Ho. unfold scaled. rewrite Hs, Ho.
  apply unit_scale, to_f32_valid.
Qed.

(** With a scale of one and an offset of zero the code marks exactly the
    cells whose raw value is the sentinel. *)
Lemma marked_missing_unit_scale (aod_ds : sds) :
  to_f32 (scale_of aod_ds) = to_f32 (num 1) ->
  to_f32 (offset_of aod_ds) = to_f32 (num 0) ->
  forall k, marked_missing aod_ds k = raw_missing aod_ds k.
Proof.
  intros Hs Ho k. unfold marked_missing, raw_missing.
  destruct (sds_attrs aod_ds !! "_FillValue") as [fill |] eqn:Hf; [| reflexivity].
  rewrite lookup_apply_scale.
  destruct (buf (sds_data aod_ds) !! k) as [v |]; [| reflexivity].
  simpl. rewrite scaled_unit_scale by assumption. apply feqb_pos_zero.
Qed.

(** A marked cell that is the nearest one makes extraction raise. *)
Lemma marked_nearest_raises hdf aod_ds lat_ds lon_ds lat lon k :
  raster_file hdf aod_ds lat_ds lon_ds ->
  has_distance (dist_cells lat_ds lon_ds lat lon) ->
  nearest_cell (dist_cells lat_ds lon_ds lat lon) k ->
  marked_missing aod_ds k = true ->
  read_aod_from_sd hdf lat lon = Raise (ModisLiveError msg_missing_pixel).
Proof.
  intros Hrf Hd Hn Hmark.
  rewrite (read_aod_from_sd_raster _ _ _ _ lat lon Hrf).
  rewrite (nanargmin_cells_complete _ _ Hd Hn).
  rewrite lookup_aod_cells, Hmark.
  pose proof (raster_lengths _ _ _ _ lat lon Hrf) as [Hdl Hal].
  apply nearest_cell_lt in Hn.
  destruct (lookup_lt_is_Some_2 (buf (sds_data aod_ds)) k ltac:(lia)) as [raw Hraw].
  rewrite Hraw. reflexivity.
Qed.

(** ** C1: which cell extraction returns *)




(** Two cells whose longitudes are adjacent float32 numbers, 1 and
    1 + 2**-23, and a target at longitude 100: both float32 differences
    round to -99, the distances tie, and extraction reads the first
    cell. *)
Example float32_tie_reads_first_cell :
  dist_cells near_lat near_lon (num 0) (num 100) =
    [to_f32 (num 9801); to_f32 (num 9801)] /\
  read_aod_from_sd (granule_file near_aod near_lat near_lon) (num 0) (num 100)
    = Ok (num 3).
Proof. split; vm_compute; reflexivity. Qed.

(** A latitude column and a longitude row are broadcast to a 2x2
    distance grid; the target (10, 10) is nearest to its last cell. *)
Example broadcast_grids_are_read :
  read_aod_from_sd (granule_file square_aod column_lat row_lon) (num 10) (num 10)
    = Ok (num 4) /\
  read_aod_from_sd (granule_file square_aod column_lat row_lon) (num 10) (num 0)
    = Ok (num 3).
Proof. split; vm_compute; reflexivity. Qed.

(** ** C2: a grid that holds only the sentinel *)

(** C2 at a failing input.  Every raw cell of [point_all_fill] equals the
    [_FillValue] sentinel -9999, and the data set stores
    [scale_factor = 0.5].  The comparison [aod == fill] runs on the scaled
    array, so nothing is masked and extraction returns -4999.5, the scaled
    sentinel, where the claim demands the missing-data error. *)
Lemma all_fill_grid_returns_scaled_sentinel :
  raw_missing point_all_fill 0 = true /\
  length (buf (sds_data point_all_fill)) = 1%nat /\
  marked_missing point_all_fill 0 = false /\
  read_aod_from_sd (granule_file point_all_fill point_lat point_lon)
                   (num 0) (num 0)
    = Ok (dyadic (-9999) (-1)).
Proof. repeat split; vm_compute; reflexivity. Qed.

(** ** C3: which cells are marked missing *)

(** C3 at a failing input.  In [strip_scaled] the raw values are -19998
    and -9999, the sentinel is -9999 and [scale_factor] is 0.5.  The
    comparison [aod == fill] runs on the scaled array: the code marks the
    first cell, whose raw value is not the sentinel, and leaves the
    second, whose raw value is the sentinel, unmarked; a target on the
    first cell raises, a target on the second returns -4999.5, the scaled
    sentinel. *)
Lemma fill_marking_uses_scaled_values :
  ~ (forall k, marked_missing strip_scaled k = raw_missing strip_scaled k) /\
  raw_missing strip_scaled 0 = false /\ marked_missing strip_scaled 0 = true /\
  raw_missing strip_scaled 1 = true /\ marked_missing strip_scaled 1 = false /\
  read_aod_from_sd (granule_file strip_scaled strip_lat strip_lon) (num 0) (num 0)
    = Raise (ModisLiveError msg_missing_pixel) /\
  read_aod_from_sd (granule_file strip_scaled strip_lat strip_lon) (num 0) (num 1)
    = Ok (dyadic (-9999) (-1)).
Proof.
  split.
  - intros H. specialize (H 0%nat). vm_compute in H. discriminate H.
  - repeat split; vm_compute; reflexivity.
Qed.

(** Where the stored scale is one and the stored offset zero, the
    comparison on the scaled array marks exactly the cells whose raw
    value is the sentinel, and a marked nearest cell raises. *)
Lemma fill_marking_on_unscaled_data (aod_ds : sds) :
  to_f32 (scale_of aod_ds) = to_f32 (num 1) ->
  to_f32 (offset_of aod_ds) = to_f32 (num 0) ->
  (forall k, marked_missing aod_ds k = raw_missing aod_ds k) /\
  (forall hdf lat_ds lon_ds lat lon k,
      raster_file hdf aod_ds lat_ds lon_ds ->
      has_distance (dist_cells lat_ds lon_ds lat lon) ->
      nearest_cell (dist_cells lat_ds lon_ds lat lon) k ->
      raw_missing aod_ds k = true ->
      read_aod_from_sd hdf lat lon = Raise (ModisLiveError msg_missing_pixel)).
Proof.
  intros Hs Ho.
  pose proof (marked_missing_unit_scale aod_ds Hs Ho) as Hmark.
  split; [exact Hmark |].
  intros hdf lat_ds lon_ds lat lon k Hrf Hd Hn Hraw.
  rewrite <- Hmark in Hraw.
  exact (marked_nearest_raises _ _ _ _ _ _ _ Hrf Hd Hn Hraw).
Qed.

(** ** C8: the scale/offset transform *)

Lemma same_float_eq (x y : float) : same_float x y = true -> x = y.
Proof.
  destruct x as [s | s | | s m e], y as [s' | s' | | s' m' e']; simpl;
    try discriminate; try reflexivity.
  - intros H. apply Bool.eqb_prop in H. congruence.
  - intros H. apply Bool.eqb_prop in H. congruence.
  - intros H. apply andb_true_iff in H. destruct H as [H He].
    apply andb_true_iff in H. destruct H as [Hs Hm].
    apply Bool.eqb_prop in Hs. apply Pos.eqb_eq in Hm. apply Z.eqb_eq in He.
    congruence.
Qed.

Lemma int16_values_survive : forallb int16_survives int16_values = true.
Proof. vm_compute. reflexivity. Qed.

Lemma in_zrange (n : nat) :
  forall lo z, (lo <= z < lo + Z.of_nat n)%Z -> In z (zrange n lo).
Proof.
  induction n as [| n IH]; intros lo z Hz; [lia |].
  simpl. destruct (Z.eq_dec lo z) as [-> | Hne]; [left; reflexivity |].
  right. apply IH. lia.
Qed.

Lemma int16_roundtrip (z : Z) :
  (-32768 <= z <= 32767)%Z -> to_f64 (pos_zero (to_f32 (num z))) = num z.
Proof.
  intros Hz. apply same_float_eq.
  pose proof int16_values_survive as H. rewrite forallb_forall in H.
  apply H. unfold int16_values. apply in_zrange. lia.
Qed.

(** C8, as the code has it.  [_apply_scale] keeps the shape, converts
    every raw cell to float32 and computes [v * scale + offset] in
    float32, [scale] being the [scale_factor] attribute or 1.0 and
    [offset] the [add_offset] attribute or 0.0, both rounded to float32.
    With a scale of one and an offset of zero, or both attributes
    absent, every cell comes back as the float32 nearest to its raw
    value (the sign of a zero dropped): every float32 value and every
    int16 value comes back unchanged. *)
Theorem apply_scale_defaults (data : ndarray) (attrs : gmap string float) :
  let scale := default (num 1) (attrs !! "scale_factor") in
  let offset := default (num 0) (attrs !! "add_offset") in
  shape (_apply_scale data attrs) = shape data /\
  buf (_apply_scale data attrs) =
    map (fun v => add32 (mul32 (to_f32 v) (to_f32 scale)) (to_f32 offset))
        (buf data) /\
  (to_f32 scale = to_f32 (num 1) -> to_f32 offset = to_f32 (num 0) ->
   buf (_apply_scale data attrs) = map (fun v => pos_zero (to_f32 v)) (buf data) /\
   (forall k (v : float), valid_binary prec32 emax32 v = true ->
      buf data !! k = Some v ->
      buf (_apply_scale data attrs) !! k = Some (pos_zero v)) /\
   (forall k z, (-32768 <= z <= 32767)%Z -> buf data !! k = Some (num z) ->
      to_f64 <$> (buf (_apply_scale data attrs) !! k) = Some (num z))).
Proof.
  intros scale offset.
  assert (Hbuf : buf (_apply_scale data attrs) =
            map (fun v => add32 (mul32 (to_f32 v) (to_f32 scale)) (to_f32 offset))
                (buf data)).
  { unfold _apply_scale, astype_f32. rewrite !buf_arr_map, map_map. reflexivity. }
  split; [reflexivity |]. split; [exact Hbuf |].
  intros Hs Ho.
  assert (Hid : buf (_apply_scale data attrs) =
            map (fun v => pos_zero (to_f32 v)) (buf data)).
  { rewrite Hbuf, Hs, Ho. apply map_ext. intros v.
    apply unit_scale, to_f32_valid. }
  split; [exact Hid |]. split.
  - intros k v Hv Hk. rewrite Hid, lookup_map, Hk. simpl.
    rewrite to_f32_float32 by assumption. reflexivity.
  - intros k z Hz Hk. rewrite Hid, lookup_map, Hk. simpl.
    rewrite int16_roundtrip by assumption. reflexivity.
Qed.

(** The MOD04 scale: the raw value -9999 stored with
    [scale_factor = 0.001] and [add_offset = 0.0] becomes the float32
    -9.999000549316406, and 250 becomes 0.25. *)
Lemma apply_scale_defaults_witness :
  shape (_apply_scale (mk_ndarray (1, 2)%nat [num (-9999); num 250])
           {[ "scale_factor" := milli; "add_offset" := num 0 ]}) = (1, 2)%nat /\
  buf (_apply_scale (mk_ndarray (1, 2)%nat [num (-9999); num 250])
         {[ "scale_factor" := milli; "add_offset" := num 0 ]}) =
    [S754_finite true 10484712 (-20); to_f32 (dyadic 1 (-2))] /\
  buf (_apply_scale (sds_data strip_fill_first) (sds_attrs strip_fill_first)) =
    [to_f32 (num (-9999)); to_f32 (num 5)] /\
  to_f64 <$> (buf (_apply_scale (sds_data strip_fill_first)
                     (sds_attrs strip_fill_first)) !! 1%nat) = Some (num 5).
Proof.
  destruct (apply_scale_defaults (mk_ndarray (1, 2)%nat [num (-9999); num 250])
              {[ "scale_factor" := milli; "add_offset" := num 0 ]})
    as (H1 & H2 & _).
  destruct (apply_scale_defaults (sds_data strip_fill_first)
              (sds_attrs strip_fill_first)) as (_ & _ & H3).
  destruct (H3 eq_refl eq_refl) as (H4 & _ & H5).
  split; [exact H1 |]. split; [rewrite H2; vm_compute; reflexivity |].
  split; [rewrite H4; vm_compute; reflexivity |].
  apply (H5 1%nat 5%Z); [lia | reflexivity].
Defined.

(** C8, as stated, fails: the raw value 16777217, held exactly by an
    int32 data set, comes back as 16777216 although both attributes are
    absent, and 0.1 comes back as the float32 nearest to it. *)
Lemma apply_scale_rounds_to_float32 :
  to_f64 <$> buf (_apply_scale (mk_ndarray (1, 1)%nat [num 16777217]) ∅) =
    [num 16777216] /\
  num 16777216 <> num 16777217 /\
  _apply_scale (mk_ndarray (1, 1)%nat [num 16777217]) ∅ <>
    mk_ndarray (1, 1)%nat [num 16777217].
Proof.
  split; [vm_compute; reflexivity |].
  split; [vm_compute; discriminate |].
  vm_compute. discriminate.
Qed.

(** ** C10: a data set without [_FillValue] *)






(** ** C7: granule link selection *)

Lemma endswith_nonempty (s suffix : string) :
  endswith s suffix = true -> str_empty suffix = false -> str_empty s = false.
Proof.
  destruct s; [| reflexivity]. simpl.
  destruct suffix; [discriminate | simpl; discriminate].
Qed.

Lemma first_hdf_href_find (ls : list cmr_link) :
  first_hdf_href ls =
    match find is_hdf_link ls with
    | Some l => default "" (href l)
    | None => ""
    end.
Proof.
  induction ls as [| l r IH]; [reflexivity |].
  simpl. unfold is_hdf_link at 1.
  destruct (endswith (default "" (href l)) ".hdf"); [reflexivity | exact IH].
Qed.

Lemma first_data_href_find (ls : list cmr_link) :
  first_data_href ls =
    match find is_data_link ls with
    | Some l => default "" (href l)
    | None => ""
    end.
Proof.
  induction ls as [| l r IH]; [reflexivity |].
  simpl. unfold is_data_link at 1.
  destruct (endswith (default "" (rel l)) "/data#"); [reflexivity | exact IH].
Qed.

(** C7.  The URL taken from the top entry's links is the [href] of the
    first link whose [href] ends in [.hdf]; without such a link it is the
    [href] of the first link whose [rel] ends in [/data#]; when neither
    kind of link exists the search raises the no-link [ModisLiveError]
    (as it does when the chosen data link carries no [href]).  For the
    links [file.xml], [file.hdf], in either order, the [.hdf] link is
    chosen. *)
Theorem link_selection_policy :
  (forall ls : list cmr_link,
      select_url ls =
        match find is_hdf_link ls with
        | Some l => default "" (href l)
        | None =>
            match find is_data_link ls with
            | Some l => default "" (href l)
            | None => ""
            end
        end) /\
  (forall (entry : cmr_entry) (rest : list cmr_entry) (l : cmr_link),
      find is_hdf_link (default [] (links entry)) = Some l ->
      granule_of_entries (entry :: rest) =
        Ok {| granule_id := default "" (title entry);
              g_time_start := default "" (time_start entry);
              download_url := default "" (href l) |}) /\
  (forall (entry : cmr_entry) (rest : list cmr_entry) (l : cmr_link),
      find is_hdf_link (default [] (links entry)) = None ->
      find is_data_link (default [] (links entry)) = Some l ->
      granule_of_entries (entry :: rest) =
        if str_empty (default "" (href l))
        then Raise (ModisLiveError msg_no_link)
        else Ok {| granule_id := default "" (title entry);
                   g_time_start := default "" (time_start entry);
                   download_url := default "" (href l) |}) /\
  (forall (entry : cmr_entry) (rest : list cmr_entry),
      find is_hdf_link (default [] (links entry)) = None ->
      find is_data_link (default [] (links entry)) = None ->
      granule_of_entries (entry :: rest) = Raise (ModisLiveError msg_no_link)) /\
  select_url [xml_link; hdf_link] = "https://host/path/file.hdf" /\
  select_url [hdf_link; xml_link] = "https://host/path/file.hdf".
Proof.
  assert (Hsel : forall ls : list cmr_link,
      select_url ls =
        match find is_hdf_link ls with
        | Some l => default "" (href l)
        | None =>
            match find is_data_link ls with
            | Some l => default "" (href l)
            | None => ""
            end
        end).
  { intros ls. unfold select_url.
    rewrite first_hdf_href_find, first_data_href_find.
    destruct (find is_hdf_link ls) as [l |] eqn:Hf; [| reflexivity].
    apply find_some in Hf. destruct Hf as [_ Hl]. unfold is_hdf_link in Hl.
    rewrite (endswith_nonempty _ _ Hl eq_refl). reflexivity. }
  split; [exact Hsel |].
  split.
  { intros entry rest l Hf. unfold granule_of_entries. rewrite Hsel, Hf.
    apply find_some in Hf. destruct Hf as [_ Hl]. unfold is_hdf_link in Hl.
    rewrite (endswith_nonempty _ _ Hl eq_refl). reflexivity. }
  split.
  { intros entry rest l H1 H2. unfold granule_of_entries.
    rewrite Hsel, H1, H2. reflexivity. }
  split.
  { intros entry rest H1 H2. unfold granule_of_entries.
    rewrite Hsel, H1, H2. reflexivity. }
  split; reflexivity.
Qed.

Lemma link_selection_policy_witness :
  granule_of_entries
    [mk_entry (Some "MOD04_L2.A2024070") (Some "2024-03-10T05:30:00.000Z")
              (Some [xml_link; hdf_link])] =
    Ok {| granule_id := "MOD04_L2.A2024070";
          g_time_start := "2024-03-10T05:30:00.000Z";
          download_url := "https://host/path/file.hdf" |}.
Proof.
  destruct link_selection_policy as (_ & H & _).
  apply (H (mk_entry (Some "MOD04_L2.A2024070") (Some "2024-03-10T05:30:00.000Z")
                     (Some [xml_link; hdf_link])) [] hdf_link).
  reflexivity.
Defined.

(** ** Running computations in [M] *)

Lemma bind_ok {A B} (m : M A) (k : A -> M B) (w w1 : world) (a : A) :
  m w = (Ok a, w1) -> (m ≫= k) w = k a w1.
Proof. intros H. unfold mbind, M_bind. rewrite H. reflexivity. Qed.

Lemma bind_raise {A B} (m : M A) (k : A -> M B) (w w1 : world) (e : exn) :
  m w = (Raise e, w1) -> (m ≫= k) w = (Raise e, w1).
Proof. intros H. unfold mbind, M_bind. rewrite H. reflexivity. Qed.

Lemma bind_inv_ok {A B} (m : M A) (k : A -> M B) (w w' : world) (b : B) :
  (m ≫= k) w = (Ok b, w') ->
  exists a w1, m w = (Ok a, w1) /\ k a w1 = (Ok b, w').
Proof.
  unfold mbind, M_bind. destruct (m w) as [[a | e] w1]; intros H.
  - eauto.
  - discriminate H.
Qed.

(** ** The cache directory *)

Lemma mkdir_one_inv (p : string) (w w1 : world) :
  mkdir_one p w = (Ok tt, w1) ->
  fs w1 !! p = Some Dir /\
  (w1 = w \/ (fs w !! p = None /\ w1 = set_fs (<[p := Dir]> (fs w)) w)).
Proof.
  unfold mkdir_one. destruct (fs w !! p) as [[| b | r] |] eqn:Hp; intros H;
    inversion H; subst.
  - split; [assumption | left; reflexivity].
  - split; [apply lookup_insert_eq | right; split; reflexivity].
Qed.

(** Creating directories touches nothing but the file system, and never
    an entry that already exists. *)
Lemma mkdir_all_inv (ps : list string) :
  forall w w1, mkdir_all ps w = (Ok tt, w1) ->
    (exists f, w1 = set_fs f w) /\
    (forall q n, fs w !! q = Some n -> fs w1 !! q = Some n) /\
    (forall p, In p ps -> fs w1 !! p = Some Dir).
Proof.
  induction ps as [| p r IH]; intros w w1 H; simpl in H.
  - inversion H; subst. repeat split.
    + exists (fs w1). destruct w1; reflexivity.
    + auto.
    + intros p [].
  - apply bind_inv_ok in H. destruct H as ([] & w0 & H0 & Hr).
    apply mkdir_one_inv in H0. destruct H0 as [Hp Hw0].
    destruct (IH _ _ Hr) as ((f & Hf) & Hkeep & Hdirs).
    assert (Hkeep0 : forall q n, fs w !! q = Some n -> fs w0 !! q = Some n).
    { intros q n Hq. destruct Hw0 as [-> | [Hnone ->]]; [assumption |].
      simpl. destruct (decide (p = q)) as [-> | Hne].
      - rewrite Hnone in Hq. discriminate Hq.
      - rewrite lookup_insert_ne by assumption. assumption. }
    repeat split.
    + destruct Hw0 as [-> | [_ ->]]; [eauto |]. exists f. rewrite Hf. reflexivity.
    + intros q n Hq. apply Hkeep, Hkeep0, Hq.
    + intros q [<- | Hin]; [apply Hkeep, Hp | apply Hdirs, Hin].
Qed.

Lemma mkdir_all_existing (ps : list string) (w : world) :
  (forall p, In p ps -> fs w !! p = Some Dir) -> mkdir_all ps w = (Ok tt, w).
Proof.
  induction ps as [| p r IH]; intros H; simpl; [reflexivity |].
  assert (Hp : mkdir_one p w = (Ok tt, w)).
  { unfold mkdir_one. rewrite (H p (or_introl eq_refl)). reflexivity. }
  rewrite (bind_ok _ _ _ _ _ Hp). apply IH. intros q Hq. apply H. right. exact Hq.
Qed.

Lemma write_chunks_inv (p : string) (cs : list string) :
  forall w b, fs w !! p = Some (File b) ->
    exists b' f, write_chunks p cs w = (Ok tt, set_fs f w) /\
      f !! p = Some (File b') /\
      (forall q, q <> p -> f !! q = fs w !! q).
Proof.
  induction cs as [| c r IH]; intros w b Hb; simpl.
  - exists b, (fs w). split; [destruct w; reflexivity |]. auto.
  - destruct (str_empty c).
    + rewrite (bind_ok _ _ w w tt) by reflexivity. eauto.
    + set (w1 := set_fs (<[p := File (b ++ c)]> (fs w)) w).
      assert (Hstep : write_chunk p c w = (Ok tt, w1)).
      { unfold write_chunk, modify. rewrite Hb. reflexivity. }
      rewrite (bind_ok _ _ _ _ _ Hstep).
      destruct (IH w1 (b ++ c)) as (b' & f & Hrun & Hp & Hother).
      { apply lookup_insert_eq. }
      exists b', f. split; [exact Hrun |]. split; [exact Hp |].
      intros q Hq. rewrite (Hother q Hq). simpl.
      apply lookup_insert_ne. congruence.
Qed.

(** ** The cache key *)

Lemma split_on_nonempty (c : ascii) (s : string) : split_on c s <> [].
Proof.
  destruct s as [| x t]; simpl; [discriminate |].
  destruct (Ascii.eqb x c); [discriminate |].
  destruct (split_on c t); discriminate.
Qed.

Lemma split_on_absent (c : ascii) (s : string) :
  contains c s = false -> split_on c s = [s].
Proof.
  induction s as [| x t IH]; simpl; [reflexivity |].
  destruct (Ascii.eqb x c); [discriminate |]. simpl.
  intros H. rewrite (IH H). reflexivity.
Qed.

(** [(a + c + b).split(c) == a.split(c) + b.split(c)] *)
Lemma split_on_app (c : ascii) (a b : string) :
  split_on c (a ++ String c b) = (split_on c a ++ split_on c b)%list.
Proof.
  induction a as [| x t IH]; simpl.
  - rewrite Ascii.eqb_refl. reflexivity.
  - destruct (Ascii.eqb x c).
    + rewrite IH. reflexivity.
    + rewrite IH. pose proof (split_on_nonempty c t) as Hne.
      destruct (split_on c t) as [| h r]; [congruence | reflexivity].
Qed.

Lemma last_app_nonempty {A} (l1 l2 : list A) (d : A) :
  l2 <> [] -> List.last (l1 ++ l2)%list d = List.last l2 d.
Proof.
  intros Hne. induction l1 as [| x t IH]; [reflexivity |].
  simpl. destruct (t ++ l2)%list eqn:Happ; [| exact IH].
  apply app_eq_nil in Happ. destruct Happ as [_ ->]. congruence.
Qed.

Lemma hd_app_nonempty {A} (l1 l2 : list A) (d : A) :
  l1 <> [] -> List.hd d (l1 ++ l2)%list = List.hd d l1.
Proof. destruct l1; [congruence | reflexivity]. Qed.

Lemma contains_app (c : ascii) (a b : string) :
  contains c (a ++ b) = contains c a || contains c b.
Proof.
  induction a as [| x t IH]; simpl; [reflexivity |].
  rewrite IH. destruct (Ascii.eqb x c); reflexivity.
Qed.

Lemma append_assoc (a b c : string) : (a ++ b) ++ c = a ++ (b ++ c).
Proof.
  induction a as [| x t IH]; [reflexivity |].
  change (String x ((t ++ b) ++ c) = String x (t ++ (b ++ c))).
  rewrite IH. reflexivity.
Qed.

(** The cache key of [dir/name] and of [dir/name?query] is [name]. *)
Lemma cache_filename_basename (dir name query : string) :
  contains "?" dir = false -> contains "?" name = false ->
  contains "/" name = false ->
  cache_filename (dir ++ "/" ++ name) = name /\
  cache_filename (dir ++ "/" ++ name ++ "?" ++ query) = name.
Proof.
  intros Hd Hn Hs.
  assert (Hq : contains "?" (dir ++ "/" ++ name) = false).
  { rewrite contains_app, Hd. simpl. exact Hn. }
  assert (Hbase : List.last (split_on "/" (dir ++ "/" ++ name)) "" = name).
  { change (dir ++ "/" ++ name) with (dir ++ String "/" name).
    rewrite split_on_app, last_app_nonempty by apply split_on_nonempty.
    rewrite (split_on_absent _ _ Hs). reflexivity. }
  unfold cache_filename. split.
  - rewrite (split_on_absent _ _ Hq). exact Hbase.
  - replace (dir ++ "/" ++ name ++ "?" ++ query)
      with ((dir ++ "/" ++ name) ++ String "?" query).
    + rewrite split_on_app, hd_app_nonempty by apply split_on_nonempty.
      rewrite (split_on_absent _ _ Hq). exact Hbase.
    + rewrite append_assoc. simpl. rewrite append_assoc. reflexivity.
Qed.

(** No piece of a split contains the separator. *)
Lemma split_on_free (c : ascii) (s : string) :
  Forall (fun p => contains c p = false) (split_on c s).
Proof.
  induction s as [| x t IH]; simpl.
  - repeat constructor.
  - destruct (Ascii.eqb x c) eqn:Hx.
    + constructor; [reflexivity | exact IH].
    + destruct (split_on c t) as [| h r].
      * repeat constructor. simpl. rewrite Hx. reflexivity.
      * inversion IH; subst. constructor; [| assumption].
        simpl. rewrite Hx. assumption.
Qed.

(** ** The cached downloader *)

Lemma download_granule_hit (url : string) (auth : string * string) (w w1 : world) :
  mkdir_parents CACHE_DIR w = (Ok tt, w1) ->
  is_Some (fs w1 !! cache_path url) ->
  download_granule url auth w = (Ok (cache_path url), w1).
Proof.
  intros Hmk Hin. unfold download_granule.
  rewrite (bind_ok _ _ _ _ _ Hmk).
  fold (cache_path url).
  assert (Hex : path_exists (cache_path url) w1 = (Ok true, w1)).
  { unfold path_exists, gets. rewrite bool_decide_eq_true_2 by assumption.
    reflexivity. }
  rewrite (bind_ok _ _ _ _ _ Hex). reflexivity.
Qed.

Lemma download_granule_miss (url : string) (auth : string * string) (w w1 : world) :
  mkdir_parents CACHE_DIR w = (Ok tt, w1) ->
  fs w1 !! cache_path url = None ->
  download_granule url auth w =
    (resp ← requests_get_stream url auth;
     if (fst resp =? 401)%Z then raise (ModisLiveError msg_auth_401)
     else
       _ ← lift (raise_for_status (fst resp));
       _ ← open_wb (cache_path url);
       _ ← write_chunks (cache_path url) (chunks (snd resp));
       if broken (snd resp) then raise RequestException
       else mret (cache_path url)) w1.
Proof.
  intros Hmk Hout. unfold download_granule.
  rewrite (bind_ok _ _ _ _ _ Hmk).
  fold (cache_path url).
  assert (Hex : path_exists (cache_path url) w1 = (Ok false, w1)).
  { unfold path_exists, gets. rewrite bool_decide_eq_false_2; [reflexivity |].
    rewrite Hout. intros [n Hn]. discriminate Hn. }
  rewrite (bind_ok _ _ _ _ _ Hex). reflexivity.
Qed.

Lemma raise_for_status_not_ok (status : Z) :
  response_ok status = false -> raise_for_status status = Raise (HTTPError status).
Proof.
  unfold response_ok, raise_for_status.
  destruct ((400 <=? status)%Z && (status <? 600)%Z); [reflexivity | discriminate].
Qed.

(** ** C5: authentication failure against other HTTP errors *)



(** ** C6: the cache key and the cache hit *)

(** A successful download leaves the cache directories in place and the
    file under its key. *)
Lemma download_granule_ok_inv (url : string) (auth : string * string)
    (w w' : world) (p : string) :
  download_granule url auth w = (Ok p, w') ->
  p = cache_path url /\
  (forall d, In d (path_prefixes CACHE_DIR) -> fs w' !! d = Some Dir) /\
  is_Some (fs w' !! cache_path url).
Proof.
  intros Hrun. pose proof Hrun as Hrun0. unfold download_granule in Hrun0.
  apply bind_inv_ok in Hrun0. destruct Hrun0 as ([] & w1 & Hmk & _).
  destruct (mkdir_all_inv _ _ _ Hmk) as (_ & _ & Hdirs).
  destruct (fs w1 !! cache_path url) as [n |] eqn:Hout.
  - rewrite (download_granule_hit _ _ _ _ Hmk) in Hrun by (rewrite Hout; eauto).
    inversion Hrun; subst. rewrite Hout. eauto.
  - rewrite (download_granule_miss _ _ _ _ Hmk Hout) in Hrun.
    unfold mbind at 1, M_bind, requests_get_stream in Hrun.
    destruct (earthdata w1 url auth) as [status body |]; [| discriminate Hrun].
    cbn [fst snd] in Hrun.
    destruct (status =? 401)%Z; [discriminate Hrun |].
    unfold mbind at 1, M_bind, lift in Hrun.
    destruct (raise_for_status status) as [[] | e]; [| discriminate Hrun].
    set (w2 := log_call (CallDownload url auth) w1) in *.
    unfold mbind at 1, M_bind, open_wb, modify in Hrun.
    set (w3 := set_fs (<[cache_path url := File ""]> (fs w2)) w2) in *.
    destruct (write_chunks_inv (cache_path url) (chunks body) w3 "")
      as (b' & f & Hwr & Hf & Hother).
    { apply lookup_insert_eq. }
    unfold mbind at 1, M_bind in Hrun. rewrite Hwr in Hrun.
    destruct (broken body); [discriminate Hrun |].
    inversion Hrun; subst. split; [reflexivity |]. split.
    + intros d Hd. pose proof (Hdirs d Hd) as Hdir. simpl.
      assert (Hne : d <> cache_path url) by congruence.
      rewrite (Hother d Hne). subst w3 w2. simpl.
      rewrite lookup_insert_ne by congruence. exact Hdir.
    + simpl. rewrite Hf. eauto.
Qed.

(** C6.  The cache key of a URL [dir/name] or [dir/name?query] is
    [name]; a key never contains a slash or a question mark.  When the
    file [CACHE_DIR/key] exists, [download_granule] returns that path and
    sends no request; so after one successful fetch, fetching the same
    URL again returns the same path and leaves the world, network log
    included, as it was. *)
Theorem cached_download_is_idempotent :
  (forall dir name query : string,
      contains "?" dir = false -> contains "?" name = false ->
      contains "/" name = false ->
      cache_filename (dir ++ "/" ++ name) = name /\
      cache_filename (dir ++ "/" ++ name ++ "?" ++ query) = name) /\
  (forall url : string,
      contains "/" (cache_filename url) = false /\
      contains "?" (cache_filename url) = false) /\
  (forall (url : string) (auth : string * string) (w w1 : world),
      mkdir_parents CACHE_DIR w = (Ok tt, w1) ->
      is_Some (fs w1 !! path_join CACHE_DIR (cache_filename url)) ->
      download_granule url auth w =
        (Ok (path_join CACHE_DIR (cache_filename url)), w1) /\
      net_log w1 = net_log w) /\
  (forall (url : string) (auth : string * string) (w w' : world) (p : string),
      download_granule url auth w = (Ok p, w') ->
      p = path_join CACHE_DIR (cache_filename url) /\
      download_granule url auth w' = (Ok p, w')).
Proof.
  split; [exact cache_filename_basename |].
  split.
  { intros url. unfold cache_filename.
    pose proof (split_on_free "?" url) as Hq.
    pose proof (split_on_nonempty "?" url) as Hne.
    destruct (split_on "?" url) as [| h r]; [congruence |].
    inversion Hq as [| ? ? Hh _]; subst. simpl hd.
    pose proof (split_on_free "/" h) as Hs.
    pose proof (split_on_nonempty "/" h) as Hne'.
    assert (Hlast : In (List.last (split_on "/" h) "") (split_on "/" h)).
    { destruct (exists_last Hne') as (l' & a & ->).
      rewrite last_last. apply in_or_app. right. left. reflexivity. }
    split.
    - rewrite List.Forall_forall in Hs. apply Hs, Hlast.
    - assert (Hall : Forall (fun p => contains "?" p = false) (split_on "/" h)).
      { clear -Hh. induction h as [| x t IH]; simpl.
        - repeat constructor.
        - simpl in Hh. apply orb_false_iff in Hh. destruct Hh as [Hx Ht].
          specialize (IH Ht).
          destruct (Ascii.eqb x "/").
          + constructor; [reflexivity | exact IH].
          + destruct (split_on "/" t) as [| h r].
            * repeat constructor. simpl. rewrite Hx. reflexivity.
            * inversion IH; subst. constructor; [| assumption].
              simpl. rewrite Hx. assumption. }
      rewrite List.Forall_forall in Hall. apply Hall, Hlast. }
  split.
  { intros url auth w w1 Hmk Hin. split.
    - apply download_granule_hit; assumption.
    - destruct (mkdir_all_inv _ _ _ Hmk) as [[f ->] _]. reflexivity. }
  intros url auth w w' p Hrun.
  destruct (download_granule_ok_inv _ _ _ _ _ Hrun) as (-> & Hdirs & Hin).
  split; [reflexivity |].
  apply download_granule_hit; [| exact Hin].
  apply mkdir_all_existing. exact Hdirs.
Qed.

Lemma cached_download_is_idempotent_witness :
  (download_granule sample_url sample_auth
     (sample_world ∅ 200
        {[ "data" := Dir; "data/modis_cache" := Dir;
           "data/modis_cache/MOD04_L2.A2024070.0530.hdf" := File "HDF4" ]}) =
     (Ok "data/modis_cache/MOD04_L2.A2024070.0530.hdf",
      sample_world ∅ 200
        {[ "data" := Dir; "data/modis_cache" := Dir;
           "data/modis_cache/MOD04_L2.A2024070.0530.hdf" := File "HDF4" ]}) /\
   net_log (sample_world ∅ 200
        {[ "data" := Dir; "data/modis_cache" := Dir;
           "data/modis_cache/MOD04_L2.A2024070.0530.hdf" := File "HDF4" ]}) = []) /\
  ("data/modis_cache/MOD04_L2.A2024070.0530.hdf" =
     path_join CACHE_DIR (cache_filename sample_url) /\
   download_granule sample_url sample_auth
     (snd (download_granule sample_url sample_auth (sample_world ∅ 200 ∅))) =
     (Ok "data/modis_cache/MOD04_L2.A2024070.0530.hdf",
      snd (download_granule sample_url sample_auth (sample_world ∅ 200 ∅)))).
Proof.
  destruct cached_download_is_idempotent as (_ & _ & Hhit & Hagain).
  split.
  - apply (Hhit sample_url sample_auth).
    + vm_compute. reflexivity.
    + vm_compute. eexists. reflexivity.
  - apply (Hagain sample_url sample_auth (sample_world ∅ 200 ∅)).
    vm_compute. reflexivity.
Defined.

(** ** Calendar arithmetic *)

Lemma days_before_month_succ (y m : Z) :
  (1 <= m)%Z ->
  days_before_month y (m + 1) = (days_before_month y m + days_in_month y m)%Z.
Proof.
  intros Hm. unfold days_before_month.
  replace (Z.to_nat (m + 1 - 1)) with (S (Z.to_nat (m - 1))) by lia.
  simpl days_before_month_nat.
  replace (Z.of_nat (S (Z.to_nat (m - 1)))) with m by lia.
  reflexivity.
Qed.

Lemma days_in_month_pos (y m : Z) : (28 <= days_in_month y m <= 31)%Z.
Proof.
  unfold days_in_month.
  destruct (m =? 2)%Z; [destruct (is_leap y); lia |].
  destruct ((m =? 4)%Z || (m =? 6)%Z || (m =? 9)%Z || (m =? 11)%Z); lia.
Qed.

Lemma days_in_year (y : Z) :
  (days_before_month y 12 + days_in_month y 12)%Z
  = if is_leap y then 366%Z else 365%Z.
Proof.
  unfold days_before_month. change (Z.to_nat (12 - 1)) with 11%nat.
  cbn [days_before_month_nat].
  unfold days_in_month.
  change (Z.of_nat 1) with 1%Z. change (Z.of_nat 2) with 2%Z.
  change (Z.of_nat 3) with 3%Z. change (Z.of_nat 4) with 4%Z.
  change (Z.of_nat 5) with 5%Z. change (Z.of_nat 6) with 6%Z.
  change (Z.of_nat 7) with 7%Z. change (Z.of_nat 8) with 8%Z.
  change (Z.of_nat 9) with 9%Z. change (Z.of_nat 10) with 10%Z.
  change (Z.of_nat 11) with 11%Z.
  cbn [Z.eqb Pos.eqb orb].
  destruct (is_leap y); reflexivity.
Qed.

Lemma days_before_year_succ (y : Z) :
  days_before_year (y + 1)
  = (days_before_year y + if is_leap y then 366 else 365)%Z.
Proof.
  unfold days_before_year, is_leap.
  replace (y + 1 - 1)%Z with y by lia.
  destruct (y mod 4 =? 0)%Z eqn:H4; destruct (y mod 100 =? 0)%Z eqn:H100;
    destruct (y mod 400 =? 0)%Z eqn:H400; simpl;
    rewrite ?Z.eqb_eq, ?Z.eqb_neq in *;
    Z.div_mod_to_equations; lia.
Qed.

Lemma days_before_month_one (y : Z) : days_before_month y 1 = 0%Z.
Proof. reflexivity. Qed.

(** The day after [d], on the calendar. *)
Lemma add_one_day_spec (d : datetime) :
  valid_datetime d = true -> (toordinal d < MAXORDINAL)%Z ->
  exists e, add_one_day d = Ok e /\
    toordinal e = (toordinal d + 1)%Z /\
    valid_datetime e = true /\
    hour e = hour d /\ minute e = minute d /\ second e = second d /\
    microsecond e = microsecond d /\ tzinfo e = tzinfo d.
Proof.
  intros Hv Hmax. unfold valid_datetime in Hv.
  repeat (apply andb_prop in Hv; destruct Hv as [Hv ?]).
  repeat match goal with
         | H : (_ <=? _)%Z = true |- _ => apply Z.leb_le in H
         end.
  unfold add_one_day.
  assert (Hle : (toordinal d + 1 <=? MAXORDINAL)%Z = true) by (apply Z.leb_le; lia).
  rewrite Hle.
  pose proof (days_in_month_pos (year d) (month d)) as Hdim.
  destruct (day d <? days_in_month (year d) (month d))%Z eqn:Hday.
  - apply Z.ltb_lt in Hday. eexists. split; [reflexivity |].
    split; [unfold toordinal; simpl; lia |].
    split; [| simpl; auto 10].
    unfold valid_datetime. simpl.
    repeat (apply andb_true_intro; split); apply Z.leb_le; lia.
  - apply Z.ltb_ge in Hday.
    assert (Hd : day d = days_in_month (year d) (month d)) by lia.
    destruct (month d <? 12)%Z eqn:Hmon.
    + apply Z.ltb_lt in Hmon. eexists. split; [reflexivity |].
      split.
      { unfold toordinal. simpl.
        rewrite days_before_month_succ by lia. lia. }
      split; [| simpl; auto 10].
      unfold valid_datetime. simpl.
      pose proof (days_in_month_pos (year d) (month d + 1)).
      repeat (apply andb_true_intro; split); apply Z.leb_le; lia.
    + apply Z.ltb_ge in Hmon.
      assert (Hm12 : month d = 12%Z) by lia.
      assert (Hord : toordinal d =
                (days_before_year (year d + 1))%Z).
      { unfold toordinal. rewrite days_before_year_succ, <- days_in_year.
        rewrite Hd, Hm12. lia. }
      assert (Hy : (year d < 9999)%Z).
      { destruct (Z.eq_dec (year d) 9999%Z) as [Hy | Hy]; [| lia].
        exfalso. rewrite Hord, Hy in Hmax. vm_compute in Hmax. discriminate Hmax. }
      eexists. split; [reflexivity |].
      split.
      { unfold toordinal at 1. simpl.
        rewrite days_before_month_one, Hord. lia. }
      split; [| simpl; auto 10].
      unfold valid_datetime. simpl.
      pose proof (days_in_month_pos (year d + 1) 1).
      repeat (apply andb_true_intro; split); apply Z.leb_le; lia.
Qed.

(** ** C9: the search window *)

(** The window depends on the requested date through its year, month
    and day alone. *)
Lemma time_window_bounds_run (date : option datetime) (w : world) :
  time_window_bounds date w =
    match datetime_utc_midnight (year (requested_date date w))
                                (month (requested_date date w))
                                (day (requested_date date w)) with
    | Ok start =>
        match add_one_day start with
        | Ok end_ => (Ok (start, end_), w)
        | Raise e => (Raise e, w)
        end
    | Raise e => (Raise e, w)
    end.
Proof.
  unfold time_window_bounds.
  assert (Hd : match date with
               | Some d0 => mret d0
               | None => gets clock
               end w = (Ok (requested_date date w), w)) by (destruct date; reflexivity).
  rewrite (bind_ok _ _ _ _ _ Hd).
  unfold mbind at 1, M_bind, lift.
  destruct (datetime_utc_midnight _ _ _) as [start | e]; [| reflexivity].
  unfold mbind at 1, M_bind.
  destruct (add_one_day start) as [end_ | e]; reflexivity.
Qed.

(** The bounds of the window, for a date that has a next day: midnight
    UTC of the date's calendar day and midnight UTC of the next one. *)
Lemma time_window_bounds_next (date : option datetime) (w : world) :
  valid_datetime (requested_date date w) = true ->
  (toordinal (requested_date date w) < MAXORDINAL)%Z ->
  exists e,
    time_window_bounds date w =
      (Ok (mk_datetime (year (requested_date date w))
                       (month (requested_date date w))
                       (day (requested_date date w)) 0 0 0 0 (Some 0%Z), e), w) /\
    toordinal e = (toordinal (requested_date date w) + 1)%Z /\
    valid_datetime e = true /\
    hour e = 0%Z /\ minute e = 0%Z /\ second e = 0%Z /\
    microsecond e = 0%Z /\ tzinfo e = Some 0%Z.
Proof.
  intros Hv Hmax.
  set (d := requested_date date w) in *.
  set (start := mk_datetime (year d) (month d) (day d) 0 0 0 0 (Some 0%Z)).
  assert (Hvs : valid_datetime start = true).
  { unfold valid_datetime in *. simpl.
    repeat (apply andb_prop in Hv; destruct Hv as [Hv ?]).
    repeat (apply andb_true_intro; split); try assumption; reflexivity. }
  destruct (add_one_day_spec start Hvs Hmax)
    as (e & He & Hoe & Hve & Hh & Hmi & Hs & Hus & Htz).
  exists e. split; [| simpl in *; auto 10].
  rewrite time_window_bounds_run. fold d. unfold datetime_utc_midnight.
  fold start. rewrite Hvs, He. reflexivity.
Qed.

(** C9, as the code has it.  For the requested date, or the clock's
    current UTC date when none is given, the window runs from midnight
    UTC of the calendar day named by the date's own year, month and day
    to midnight UTC of the next: the two bounds are exactly one day
    apart and the date's wall-clock reading lies between them, so the
    window holds the requested instant when the date is naive or in
    UTC.  The string handed to the search is the two bounds in ISO
    format; for 2024-03-10, at any time of day, it is
    [2024-03-10T00:00:00+00:00,2024-03-11T00:00:00+00:00].  For the last
    representable day, 9999-12-31, the computation raises
    [OverflowError]. *)
Theorem time_window_is_one_utc_day :
  (forall (date : option datetime) (w : world),
      valid_datetime (requested_date date w) = true ->
      (toordinal (requested_date date w) < MAXORDINAL)%Z ->
      exists start end_,
        time_window_bounds date w = (Ok (start, end_), w) /\
        _time_window date w = (Ok (isoformat start ++ "," ++ isoformat end_), w) /\
        start = mk_datetime (year (requested_date date w))
                            (month (requested_date date w))
                            (day (requested_date date w)) 0 0 0 0 (Some 0%Z) /\
        hour end_ = 0%Z /\ minute end_ = 0%Z /\ second end_ = 0%Z /\
        microsecond end_ = 0%Z /\ tzinfo end_ = Some 0%Z /\
        valid_datetime end_ = true /\
        toordinal end_ = (toordinal start + 1)%Z /\
        utc_micros end_ = (utc_micros start + 86400 * 1000000)%Z /\
        (utc_micros start <= wall_micros (requested_date date w)
           < utc_micros end_)%Z /\
        (utc_offset (requested_date date w) = 0%Z ->
         (utc_micros start <= utc_micros (requested_date date w)
            < utc_micros end_)%Z)) /\
  (forall (w : world) (h mi s us : Z) (tz : option Z),
      time_window_bounds (Some (mk_datetime 2024 3 10 h mi s us tz)) w =
        (Ok (mk_datetime 2024 3 10 0 0 0 0 (Some 0%Z),
             mk_datetime 2024 3 11 0 0 0 0 (Some 0%Z)), w) /\
      _time_window (Some (mk_datetime 2024 3 10 h mi s us tz)) w =
        (Ok "2024-03-10T00:00:00+00:00,2024-03-11T00:00:00+00:00", w)) /\
  (forall w : world,
      time_window_bounds None w = time_window_bounds (Some (clock w)) w) /\
  (forall (w : world) (h mi s us : Z) (tz : option Z),
      _time_window (Some (mk_datetime 9999 12 31 h mi s us tz)) w =
        (Raise OverflowError, w)).
Proof.
  split; [| split; [intros; split; reflexivity | split; [reflexivity |]]].
  2: { intros. reflexivity. }
  intros date w Hv Hmax.
  destruct (time_window_bounds_next date w Hv Hmax)
    as (e & Hb & Hoe & Hve & Hh & Hmi & Hs & Hus & Htz).
  set (d := requested_date date w) in *.
  set (start := mk_datetime (year d) (month d) (day d) 0 0 0 0 (Some 0%Z)) in *.
  assert (Hos : toordinal start = toordinal d) by reflexivity.
  exists start, e. split; [exact Hb |].
  split.
  { unfold _time_window. rewrite (bind_ok _ _ _ _ _ Hb). reflexivity. }
  split; [reflexivity |].
  repeat (split; [assumption |]).
  assert (Hstart : utc_micros start = (toordinal d * 86400 * 1000000)%Z).
  { unfold utc_micros, utc_offset, wall_micros. simpl. rewrite Hos. lia. }
  assert (Hend : utc_micros e = ((toordinal d + 1) * 86400 * 1000000)%Z).
  { unfold utc_micros, utc_offset, wall_micros.
    rewrite Hoe, Hh, Hmi, Hs, Hus, Htz. simpl. lia. }
  assert (Hwall : (utc_micros start <= wall_micros d < utc_micros e)%Z).
  { rewrite Hstart, Hend. unfold wall_micros.
    unfold valid_datetime in Hv.
    repeat (apply andb_prop in Hv; destruct Hv as [Hv ?]).
    repeat match goal with
           | H : (_ <=? _)%Z = true |- _ => apply Z.leb_le in H
           end.
    lia. }
  split; [rewrite Hstart, Hend; lia |].
  split; [exact Hwall |].
  intros Hoff. unfold utc_micros at 2 3. rewrite Hoff. lia.
Qed.

Lemma time_window_is_one_utc_day_witness :
  exists start end_,
    time_window_bounds None (sample_world ∅ 200 ∅) =
      (Ok (start, end_), sample_world ∅ 200 ∅) /\
    _time_window None (sample_world ∅ 200 ∅) =
      (Ok (isoformat start ++ "," ++ isoformat end_), sample_world ∅ 200 ∅) /\
    start = mk_datetime 2024 3 10 0 0 0 0 (Some 0%Z) /\
    toordinal end_ = (toordinal start + 1)%Z /\
    (utc_micros start <= utc_micros (clock (sample_world ∅ 200 ∅))
       < utc_micros end_)%Z.
Proof.
  destruct (proj1 time_window_is_one_utc_day None (sample_world ∅ 200 ∅))
    as (start & e & H1 & H2 & H3 & _ & _ & _ & _ & _ & _ & H4 & _ & _ & H5).
  - reflexivity.
  - reflexivity.
  - exists start, e. repeat split; try assumption; apply H5; reflexivity.
Defined.

(** C9, as stated, fails twice.  A request for 23:30 on 2024-03-10 in
    a zone five hours behind UTC is the instant 04:30 UTC on 2024-03-11,
    yet the window is the UTC day 2024-03-10, which ends before that
    instant.  And for 9999-12-31 there is no window at all. *)
Lemma window_misses_aware_instant :
  valid_datetime (mk_datetime 2024 3 10 23 30 0 0 (Some (-18000)%Z)) = true /\
  time_window_bounds (Some (mk_datetime 2024 3 10 23 30 0 0 (Some (-18000)%Z)))
                     (sample_world ∅ 200 ∅) =
    (Ok (mk_datetime 2024 3 10 0 0 0 0 (Some 0%Z),
         mk_datetime 2024 3 11 0 0 0 0 (Some 0%Z)), sample_world ∅ 200 ∅) /\
  (utc_micros (mk_datetime 2024 3 11 0 0 0 0 (Some 0%Z)) <=
   utc_micros (mk_datetime 2024 3 10 23 30 0 0 (Some (-18000)%Z)))%Z /\
  utc_micros (mk_datetime 2024 3 10 23 30 0 0 (Some (-18000)%Z)) =
    utc_micros (mk_datetime 2024 3 11 4 30 0 0 (Some 0%Z)) /\
  valid_datetime (mk_datetime 9999 12 31 12 0 0 0 (Some 0%Z)) = true /\
  _time_window (Some (mk_datetime 9999 12 31 12 0 0 0 (Some 0%Z)))
               (sample_world ∅ 200 ∅) =
    (Raise OverflowError, sample_world ∅ 200 ∅).
Proof.
  split; [reflexivity |]. split; [reflexivity |].
  split; [vm_compute; discriminate |].
  split; [reflexivity |]. split; reflexivity.
Qed.

(** ** The stages before the download *)

Lemma time_window_bounds_world (date : option datetime) (w : world) :
  snd (time_window_bounds date w) = w.
Proof.
  unfold time_window_bounds, mbind, M_bind, lift, gets, mret, M_ret.
  destruct date as [d |]; simpl;
    match goal with
    | |- context [datetime_utc_midnight ?y ?m ?d] =>
        destruct (datetime_utc_midnight y m d) as [s |]; simpl; [| reflexivity];
        destruct (add_one_day s); reflexivity
    end.
Qed.

Lemma time_window_world (date : option datetime) (w : world) :
  snd (_time_window date w) = w.
Proof.
  pose proof (time_window_bounds_world date w) as H.
  unfold _time_window, mbind, M_bind.
  destruct (time_window_bounds date w) as [[b | e] w0]; simpl in *; exact H.
Qed.

(** [search_granule] either stops at the time window, with the world
    untouched, or sends exactly one search request. *)
Lemma search_granule_run (lat lon : float) (date : option datetime) (w : world) :
  (exists e, search_granule lat lon date w = (Raise e, w)) \/
  (exists window r,
      _time_window date w = (Ok window, w) /\
      search_granule lat lon date w =
        (r, log_call (CallSearch CMR_URL (search_params lat lon window)) w)).
Proof.
  pose proof (time_window_world date w) as Hw.
  destruct (_time_window date w) as [[window | e] w0] eqn:Htw; simpl in Hw; subst w0.
  - right. exists window. unfold search_granule.
    rewrite (bind_ok _ _ _ _ _ Htw).
    unfold mbind at 1, M_bind, requests_get_search.
    destruct (cmr w (search_params lat lon window)) as [status body |]; [| eauto].
    cbn [fst snd].
    unfold mbind at 1, M_bind, lift.
    destruct (raise_for_status status) as [[] | e]; [| eauto].
    unfold mbind at 1, M_bind.
    destruct body as [j |]; [| eauto].
    unfold mret, M_ret. eauto.
  - left. exists e. unfold search_granule.
    rewrite (bind_raise _ _ _ _ _ Htw). reflexivity.
Qed.

Lemma geocode_city_run (city : string) (w : world) :
  geocode_city city w =
    (match geocoder w city with
     | Some c => Ok c
     | None => Raise (ModisLiveError (msg_geocode city))
     end, log_call (CallGeocode city) w).
Proof.
  unfold geocode_city, mbind, M_bind, nominatim_geocode.
  destruct (geocoder w city) as [[la lo] |]; reflexivity.
Qed.

Lemma earthdata_auth_missing (w : world) :
  not_set (environ w !! "EARTHDATA_USERNAME")
  || not_set (environ w !! "EARTHDATA_PASSWORD") = true ->
  _earthdata_auth w = (Raise (ModisLiveError msg_credentials), w).
Proof.
  intros H. unfold _earthdata_auth, mbind, M_bind, getenv, gets.
  rewrite H. reflexivity.
Qed.

(** ** C4: missing credentials *)

(** C4, as the code has it.  With either credential variable unset or
    empty, [_earthdata_auth] raises the credentials [ModisLiveError]
    without touching the network.  [fetch_live_aod] calls it after
    geocoding and granule search: the fetch never succeeds and never
    sends a download request, and once those two stages have succeeded
    it fails with the credentials error, the geocoding request and the
    search request being the only ones sent. *)
Theorem missing_credentials_stop_before_download
    (city : string) (out_csv : option string) (date : option datetime) (w : world) :
  not_set (environ w !! "EARTHDATA_USERNAME")
  || not_set (environ w !! "EARTHDATA_PASSWORD") = true ->
  _earthdata_auth w = (Raise (ModisLiveError msg_credentials), w) /\
  (exists e : exn, fst (fetch_live_aod city out_csv date w) = Raise e) /\
  (forall url a,
      In (CallDownload url a) (net_log (snd (fetch_live_aod city out_csv date w))) ->
      In (CallDownload url a) (net_log w)) /\
  (forall lat lon w1 g w2,
      geocode_city city w = (Ok (lat, lon), w1) ->
      search_granule lat lon date w1 = (Ok g, w2) ->
      fetch_live_aod city out_csv date w =
        (Raise (ModisLiveError msg_credentials), w2) /\
      exists window,
        net_log w2 =
          (net_log w ++ [CallGeocode city;
                         CallSearch CMR_URL (search_params lat lon window)])%list).
Proof.
  intros Hcred. split; [apply earthdata_auth_missing, Hcred |].
  assert (Hstep : forall lat lon w1 g w2,
             geocode_city city w = (Ok (lat, lon), w1) ->
             search_granule lat lon date w1 = (Ok g, w2) ->
             fetch_live_aod city out_csv date w =
               (Raise (ModisLiveError msg_credentials), w2) /\
             exists window,
               net_log w2 =
                 (net_log w ++ [CallGeocode city;
                                CallSearch CMR_URL (search_params lat lon window)])%list).
  { intros lat lon w1 g w2 Hgeo Hsearch.
    assert (Hw1 : w1 = log_call (CallGeocode city) w).
    { rewrite geocode_city_run in Hgeo. inversion Hgeo. reflexivity. }
    destruct (search_granule_run lat lon date w1) as [[e He] | (window & r & _ & Hr)].
    { rewrite He in Hsearch. discriminate Hsearch. }
    rewrite Hr in Hsearch. inversion Hsearch; subst r w2. clear Hsearch.
    split.
    - unfold fetch_live_aod. rewrite (bind_ok _ _ _ _ _ Hgeo).
      rewrite (bind_ok _ _ _ _ _ Hr).
      apply bind_raise. apply earthdata_auth_missing.
      subst w1. exact Hcred.
    - exists window. subst w1. simpl. rewrite <- app_assoc. reflexivity. }
  split; [| split; [| exact Hstep]].
  - pose proof (geocode_city_run city w) as Hgeo.
    destruct (geocoder w city) as [[lat lon] |].
    + destruct (search_granule lat lon date (log_call (CallGeocode city) w))
        as [[g | e] w2] eqn:Hsearch.
      * destruct (Hstep _ _ _ _ _ Hgeo Hsearch) as [-> _]. eauto.
      * unfold fetch_live_aod. rewrite (bind_ok _ _ _ _ _ Hgeo).
        rewrite (bind_raise _ _ _ _ _ Hsearch). eauto.
    + unfold fetch_live_aod. rewrite (bind_raise _ _ _ _ _ Hgeo). eauto.
  - intros url a. pose proof (geocode_city_run city w) as Hgeo.
    destruct (geocoder w city) as [[lat lon] |].
    + destruct (search_granule lat lon date (log_call (CallGeocode city) w))
        as [[g | e] w2] eqn:Hsearch.
      * destruct (Hstep _ _ _ _ _ Hgeo Hsearch) as [-> [window Hlog]]. simpl.
        rewrite Hlog, in_app_iff. simpl.
        intros [H | [H | [H | []]]]; [assumption | discriminate H | discriminate H].
      * unfold fetch_live_aod. rewrite (bind_ok _ _ _ _ _ Hgeo).
        rewrite (bind_raise _ _ _ _ _ Hsearch). simpl.
        destruct (search_granule_run lat lon date (log_call (CallGeocode city) w))
          as [[e' He] | (window & r & _ & Hr)].
        -- rewrite He in Hsearch. inversion Hsearch; subst. simpl.
           rewrite in_app_iff. simpl.
           intros [H | [H | []]]; [assumption | discriminate H].
        -- rewrite Hr in Hsearch. inversion Hsearch; subst. simpl.
           rewrite !in_app_iff. simpl.
           intros [[H | [H | []]] | [H | []]];
             [assumption | discriminate H | discriminate H].
    + unfold fetch_live_aod. rewrite (bind_raise _ _ _ _ _ Hgeo). simpl.
      rewrite in_app_iff. simpl.
      intros [H | [H | []]]; [assumption | discriminate H].
Qed.

Lemma missing_credentials_stop_before_download_witness :
  _earthdata_auth (sample_world {[ "EARTHDATA_USERNAME" := "user" ]} 200 ∅) =
    (Raise (ModisLiveError msg_credentials),
     sample_world {[ "EARTHDATA_USERNAME" := "user" ]} 200 ∅) /\
  exists e : exn,
    fst (fetch_live_aod "Testville" None None
           (sample_world {[ "EARTHDATA_USERNAME" := "user" ]} 200 ∅)) = Raise e.
Proof.
  destruct (missing_credentials_stop_before_download "Testville" None None
              (sample_world {[ "EARTHDATA_USERNAME" := "user" ]} 200 ∅))
    as (H1 & H2 & _).
  - reflexivity.
  - split; [exact H1 | exact H2].
Defined.

(** C4, as stated, fails: with no credentials in the environment the
    fetch for Testville does end in the credentials error, but only after
    the geocoding request and the granule search request have been sent;
    and for a city the geocoder does not know, the fetch ends in the
    geocoding error instead. *)
Lemma credentials_checked_after_two_requests :
  fst (fetch_live_aod "Testville" None None (sample_world ∅ 200 ∅)) =
    Raise (ModisLiveError msg_credentials) /\
  net_log (sample_world ∅ 200 ∅) = [] /\
  net_log (snd (fetch_live_aod "Testville" None None (sample_world ∅ 200 ∅))) =
    [CallGeocode "Testville";
     CallSearch CMR_URL
       (search_params (num 12) (num 34)
          "2024-03-10T00:00:00+00:00,2024-03-11T00:00:00+00:00")] /\
  fetch_live_aod "Atlantis" None None (sample_world ∅ 200 ∅) =
    (Raise (ModisLiveError (msg_geocode "Atlantis")),
     log_call (CallGeocode "Atlantis") (sample_world ∅ 200 ∅)).
Proof. repeat split; vm_compute; reflexivity. Qed.

(** ** The whole pipeline on the sample world *)

(** With credentials set, the fetch for Testville sends the three
    requests in order, caches the granule under its key and reports the
    value of the strip's second cell, the one nearest to (12, 34). *)
Example fetch_live_aod_sample :
  fst (fetch_live_aod "Testville" None None
         (sample_world sample_credentials 200 ∅)) =
    Ok {| p_city := "Testville";
          p_date := "2024-03-10";
          p_latitude := num 12;
          p_longitude := num 34;
          p_modis_aod := num 5;
          p_granule_id := "MOD04_L2.A2024070.0530";
          p_source_url := sample_hdf_url |} /\
  net_log (snd (fetch_live_aod "Testville" None None
                  (sample_world sample_credentials 200 ∅))) =
    [CallGeocode "Testville";
     CallSearch CMR_URL
       (search_params (num 12) (num 34)
          "2024-03-10T00:00:00+00:00,2024-03-11T00:00:00+00:00");
     CallDownload sample_hdf_url ("user", "secret")] /\
  fs (snd (fetch_live_aod "Testville" None None
             (sample_world sample_credentials 200 ∅)))
    !! "data/modis_cache/MOD04_L2.A2024070.0530.hdf" = Some (File "HDF4").
Proof. repeat split; vm_compute; reflexivity. Qed.

(** * Further properties of the pipeline stages *)

(** ** Extraction: what a returned value can be *)

Lemma getitem_ok (a : ndarray) (idx : nat * nat) (v : float) :
  getitem a idx = Ok v -> exists k, buf a !! k = Some v.
Proof.
  destruct idx as [i j]. unfold getitem.
  destruct ((i <? fst (shape a))%nat && (j <? snd (shape a))%nat); [| discriminate].
  destruct (buf a !! (i * snd (shape a) + j)%nat) as [x |] eqn:Hx; [| discriminate].
  intros H. inversion H; subst. eauto.
Qed.

(** A value that extraction returns was read from the cells it holds,
    and is not NaN. *)
Lemma read_aod_from_sd_ok_inv (hdf : gmap string sds) (lat lon v : float) :
  read_aod_from_sd hdf lat lon = Ok v ->
  isnan v = false /\
  exists aod_ds k cell,
    hdf !! "Optical_Depth_Land_And_Ocean" = Some aod_ds /\
    aod_cells aod_ds !! k = Some cell /\
    v = to_f64 cell.
Proof.
  unfold read_aod_from_sd, hdf_select.
  destruct (hdf !! "Optical_Depth_Land_And_Ocean") as [aod_ds |]; [| discriminate].
  change (Ok aod_ds ≫= ?f) with (f aod_ds). cbv beta.
  destruct (hdf !! "Latitude") as [lat_ds |]; [| discriminate].
  change (Ok lat_ds ≫= ?f) with (f lat_ds). cbv beta.
  destruct (hdf !! "Longitude") as [lon_ds |]; [| discriminate].
  change (Ok lon_ds ≫= ?f) with (f lon_ds). cbv beta.
  destruct (dist_grid (astype_f32 (sds_data lat_ds)) (astype_f32 (sds_data lon_ds))
              lat lon) as [dist |]; [| discriminate].
  change (Ok dist ≫= ?f) with (f dist). cbv beta.
  destruct (nanargmin dist) as [k |]; [| discriminate].
  change (Ok k ≫= ?f) with (f k). cbv beta.
  destruct (unravel_index k (shape dist)) as [idx |]; [| discriminate].
  change (Ok idx ≫= ?f) with (f idx). cbv beta.
  match goal with
  | |- (getitem ?a idx ≫= _) = _ -> _ =>
      destruct (getitem a idx) as [cell |] eqn:Hget; [| discriminate]
  end.
  change (Ok cell ≫= ?f) with (f cell). cbv beta.
  destruct (isnan (to_f64 cell)) eqn:Hnan; [discriminate |].
  intros H. inversion H; subst. split; [exact Hnan |].
  apply getitem_ok in Hget. destruct Hget as [k' Hk'].
  exists aod_ds, k', cell. split; [reflexivity |]. split; [exact Hk' | reflexivity].
Qed.

(** X1.  Whatever the file holds, a value returned by extraction is
    never NaN; it is the float32 number
    [float32(raw) * float32(scale) + float32(offset)] for the raw value
    of some cell of the AOD data set, read as a Python float, and when
    [_FillValue] is present that float32 number does not compare equal
    to it. *)
Theorem extraction_result_is_a_valid_cell
    (hdf : gmap string sds) (lat lon v : float) :
  read_aod_from_sd hdf lat lon = Ok v ->
  isnan v = false /\
  exists aod_ds k raw,
    hdf !! "Optical_Depth_Land_And_Ocean" = Some aod_ds /\
    buf (sds_data aod_ds) !! k = Some raw /\
    v = to_f64 (add32 (mul32 (to_f32 raw) (to_f32 (scale_of aod_ds)))
                      (to_f32 (offset_of aod_ds))) /\
    (forall fill, sds_attrs aod_ds !! "_FillValue" = Some fill ->
                  feqb (add32 (mul32 (to_f32 raw) (to_f32 (scale_of aod_ds)))
                              (to_f32 (offset_of aod_ds)))
                       (to_f32 fill) = false).
Proof.
  intros H. apply read_aod_from_sd_ok_inv in H.
  destruct H as (Hnan & aod_ds & k & cell & Hds & Hk & ->). split; [exact Hnan |].
  rewrite isnan_to_f64 in Hnan.
  exists aod_ds, k. rewrite lookup_aod_cells in Hk.
  destruct (buf (sds_data aod_ds) !! k) as [raw |] eqn:Hraw; [| discriminate Hk].
  exists raw. cbn [fmap option_fmap option_map] in Hk.
  destruct (marked_missing aod_ds k) eqn:Hmark;
    inversion Hk; subst cell; [discriminate Hnan |].
  split; [exact Hds |]. split; [reflexivity |]. split; [reflexivity |].
  intros fill Hf. unfold marked_missing in Hmark.
  rewrite Hf, lookup_apply_scale, Hraw in Hmark. exact Hmark.
Qed.

Lemma extraction_result_is_a_valid_cell_witness :
  isnan (num 5) = false /\
  exists aod_ds k raw,
    granule_file strip_fill_first strip_lat strip_lon
      !! "Optical_Depth_Land_And_Ocean" = Some aod_ds /\
    buf (sds_data aod_ds) !! k = Some raw /\
    num 5 = to_f64 (add32 (mul32 (to_f32 raw) (to_f32 (scale_of aod_ds)))
                          (to_f32 (offset_of aod_ds))) /\
    (forall fill, sds_attrs aod_ds !! "_FillValue" = Some fill ->
                  feqb (add32 (mul32 (to_f32 raw) (to_f32 (scale_of aod_ds)))
                              (to_f32 (offset_of aod_ds)))
                       (to_f32 fill) = false).
Proof.
  apply (extraction_result_is_a_valid_cell
           (granule_file strip_fill_first strip_lat strip_lon) (num 0) (num 1)).
  reflexivity.
Defined.

(** A file whose coordinate grids numpy broadcasts is covered as well:
    the value read at (10, 0) is raw cell 2 of the 2x2 data set. *)
Example broadcast_result_is_a_cell :
  read_aod_from_sd (granule_file square_aod column_lat row_lon) (num 10) (num 0)
    = Ok (num 3) /\
  buf (sds_data square_aod) !! 2%nat = Some (num 3).
Proof. split; vm_compute; reflexivity. Qed.

(** ** Extraction: files that do not follow the data model *)

(** X2.  When one of the three named data sets is absent from the file,
    extraction raises [HDF4Error], whatever the other two hold. *)
Theorem missing_dataset_raises_hdf4error
    (hdf : gmap string sds) (lat lon : float) :
  hdf !! "Optical_Depth_Land_And_Ocean" = None \/
  hdf !! "Latitude" = None \/
  hdf !! "Longitude" = None ->
  read_aod_from_sd hdf lat lon = Raise HDF4Error.
Proof.
  intros H. unfold read_aod_from_sd, hdf_select.
  destruct (hdf !! "Optical_Depth_Land_And_Ocean") as [aod_ds |]; [| reflexivity].
  change (Ok aod_ds ≫= ?f) with (f aod_ds). cbv beta.
  destruct (hdf !! "Latitude") as [lat_ds |]; [| reflexivity].
  change (Ok lat_ds ≫= ?f) with (f lat_ds). cbv beta.
  destruct (hdf !! "Longitude") as [lon_ds |]; [| reflexivity].
  destruct H as [H | [H | H]]; discriminate H.
Qed.

Lemma missing_dataset_raises_hdf4error_witness :
  read_aod_from_sd {[ "Optical_Depth_Land_And_Ocean" := strip_fill_first;
                      "Latitude" := strip_lat ]} (num 0) (num 0)
    = Raise HDF4Error.
Proof.
  apply missing_dataset_raises_hdf4error. right. right. reflexivity.
Defined.

(** X3.  On a raster file the two degenerate searches end in numpy's
    [ValueError], not in the missing-pixel [ModisLiveError]: a grid
    without cells, and a grid in which no cell has a distance to the
    target (as when a target coordinate is NaN). *)
Theorem degenerate_grid_raises_valueerror
    (hdf : gmap string sds) (aod_ds lat_ds lon_ds : sds) (lat lon : float) :
  raster_file hdf aod_ds lat_ds lon_ds ->
  (buf (sds_data lat_ds) = [] ->
   read_aod_from_sd hdf lat lon =
     Raise (ValueError "attempt to get argmin of an empty sequence")) /\
  (buf (sds_data lat_ds) <> [] ->
   Forall (fun d => d = nan) (dist_cells lat_ds lon_ds lat lon) ->
   read_aod_from_sd hdf lat lon = Raise (ValueError "All-NaN slice encountered")) /\
  (lat = nan \/ lon = nan ->
   Forall (fun d => d = nan) (dist_cells lat_ds lon_ds lat lon)).
Proof.
  intros Hrf. pose proof (read_aod_from_sd_raster _ _ _ _ lat lon Hrf) as Hread.
  assert (Hlen : length (dist_cells lat_ds lon_ds lat lon)
                 = length (buf (sds_data lat_ds))).
  { apply length_dist_cells.
    destruct Hrf as [_ _ _ Hsla Hslo _ Hwla Hwlo]. unfold wf_ndarray in *.
    rewrite Hwla, Hwlo, Hsla, Hslo. reflexivity. }
  split; [| split].
  - intros Hempty. rewrite Hempty in Hlen. simpl in Hlen.
    destruct (dist_cells lat_ds lon_ds lat lon); [| discriminate Hlen].
    exact Hread.
  - intros Hne Hall.
    destruct (dist_cells lat_ds lon_ds lat lon) as [| d0 dt] eqn:Hd.
    + destruct (buf (sds_data lat_ds)); [congruence | discriminate Hlen].
    + assert (Hnan : forallb isnan (d0 :: dt) = true).
      { apply forallb_forall. intros x Hx. apply list_elem_of_In in Hx.
        rewrite Forall_forall in Hall. rewrite (Hall _ Hx). reflexivity. }
      unfold nanargmin_cells in Hread. rewrite Hnan in Hread. exact Hread.
  - intros Hnan. unfold dist_cells. apply Forall_lookup. intros i d Hd.
    apply lookup_zip_with_Some in Hd. destruct Hd as (x & y & -> & Hx & Hy).
    unfold sq_dist, nan. destruct Hnan as [-> | ->].
    + change (to_f32 nan) with S754_nan.
      assert (Hs : sub32 (to_f32 x) S754_nan = S754_nan)
        by (destruct (to_f32 x) as [[] | [] | | s m e]; reflexivity).
      rewrite Hs. reflexivity.
    + change (to_f32 nan) with S754_nan.
      assert (Hs : sub32 (to_f32 y) S754_nan = S754_nan)
        by (destruct (to_f32 y) as [[] | [] | | s m e]; reflexivity).
      rewrite Hs. change (square32 S754_nan) with S754_nan.
      destruct (square32 (sub32 (to_f32 x) (to_f32 lat))) as [[] | [] | | s m e];
        reflexivity.
Qed.

Lemma degenerate_grid_raises_valueerror_witness :
  read_aod_from_sd (granule_file empty_grid empty_grid empty_grid) (num 0) (num 0) =
    Raise (ValueError "attempt to get argmin of an empty sequence") /\
  read_aod_from_sd (granule_file strip_fill_first strip_lat strip_lon) nan (num 0) =
    Raise (ValueError "All-NaN slice encountered").
Proof.
  split.
  - refine (proj1 (degenerate_grid_raises_valueerror
                     (granule_file empty_grid empty_grid empty_grid)
                     empty_grid empty_grid empty_grid (num 0) (num 0) _) _).
    + apply raster_file_sample; reflexivity.
    + reflexivity.
  - destruct (degenerate_grid_raises_valueerror
                (granule_file strip_fill_first strip_lat strip_lon)
                strip_fill_first strip_lat strip_lon nan (num 0))
      as (_ & Hall & Hnan).
    + apply raster_file_sample; reflexivity.
    + apply Hall; [discriminate | apply Hnan; left; reflexivity].
Defined.

(** ** The downloader, case by case *)

Lemma append_empty_r (s : string) : s ++ "" = s.
Proof.
  induction s as [| x t IH]; [reflexivity |].
  change (String x (t ++ "") = String x t). rewrite IH. reflexivity.
Qed.

Lemma set_fs_same (w : world) : set_fs (fs w) w = w.
Proof. destruct w; reflexivity. Qed.

(** Streaming the chunks appends their concatenation to the open file. *)
Lemma write_chunks_content (p : string) (cs : list string) :
  forall w b, fs w !! p = Some (File b) ->
    write_chunks p cs w = (Ok tt, store p (File (b ++ join_chunks cs)) w).
Proof.
  induction cs as [| c r IH]; intros w b Hb; simpl.
  - unfold store. rewrite append_empty_r, insert_id by assumption.
    rewrite set_fs_same. reflexivity.
  - destruct c as [| x t].
    + simpl str_empty. cbv iota.
      rewrite (bind_ok _ _ w w tt) by reflexivity.
      change ("" ++ join_chunks r) with (join_chunks r). apply IH, Hb.
    + simpl str_empty. cbv iota.
      set (c := String x t).
      assert (Hstep : write_chunk p c w = (Ok tt, store p (File (b ++ c)) w)).
      { unfold write_chunk, modify, store. rewrite Hb. reflexivity. }
      rewrite (bind_ok _ _ _ _ _ Hstep).
      rewrite (IH _ (b ++ c)) by apply lookup_insert_eq.
      unfold store. simpl. rewrite insert_insert_eq, append_assoc. reflexivity.
Qed.

(** What a cache miss does, for every answer of the server. *)
Lemma download_granule_miss_run (url : string) (auth : string * string) (w w1 : world) :
  mkdir_parents CACHE_DIR w = (Ok tt, w1) ->
  fs w1 !! cache_path url = None ->
  download_granule url auth w =
    match earthdata w url auth with
    | NoResponse =>
        (Raise RequestException, log_call (CallDownload url auth) w1)
    | Responded status body =>
        if (status =? 401)%Z
        then (Raise (ModisLiveError msg_auth_401),
              log_call (CallDownload url auth) w1)
        else if response_ok status
        then (if broken body then Raise RequestException
              else Ok (cache_path url),
              store (cache_path url) (File (join_chunks (chunks body)))
                    (log_call (CallDownload url auth) w1))
        else (Raise (HTTPError status), log_call (CallDownload url auth) w1)
    end.
Proof.
  intros Hmk Hout. rewrite (download_granule_miss _ _ _ _ Hmk Hout).
  destruct (mkdir_all_inv _ _ _ Hmk) as [[f Hw1] _].
  unfold mbind at 1, M_bind, requests_get_stream.
  replace (earthdata w1 url auth) with (earthdata w url auth)
    by (rewrite Hw1; reflexivity).
  destruct (earthdata w url auth) as [status body |]; [| reflexivity].
  cbn [fst snd]. destruct (status =? 401)%Z; [reflexivity |].
  unfold response_ok. unfold mbind at 1, M_bind, lift.
  destruct (raise_for_status status) as [[] | e] eqn:Hst.
  - unfold mbind at 1, M_bind, open_wb, modify.
    set (w2 := log_call (CallDownload url auth) w1).
    unfold mbind at 1, M_bind.
    rewrite (write_chunks_content _ _ _ "") by apply lookup_insert_eq.
    assert (Hw : store (cache_path url) (File ("" ++ join_chunks (chunks body)))
                   (set_fs (<[cache_path url := File ""]> (fs w2)) w2)
                 = store (cache_path url) (File (join_chunks (chunks body))) w2).
    { unfold store. simpl. rewrite insert_insert_eq. reflexivity. }
    rewrite Hw. destruct (broken body); reflexivity.
  - unfold raise_for_status in Hst.
    destruct ((400 <=? status)%Z && (status <? 600)%Z); inversion Hst; subst.
    reflexivity.
Qed.

(** The cache directories are in place after [mkdir_parents CACHE_DIR]
    and stay so when the file under a key is stored. *)
Lemma cache_dirs_after_store (url : string) (n : fs_node) (c : net_call) (w w1 : world) :
  mkdir_parents CACHE_DIR w = (Ok tt, w1) ->
  fs w1 !! cache_path url = None ->
  forall d, In d (path_prefixes CACHE_DIR) ->
    fs (store (cache_path url) n (log_call c w1)) !! d = Some Dir.
Proof.
  intros Hmk Hout d Hd.
  destruct (mkdir_all_inv _ _ _ Hmk) as (_ & _ & Hdirs).
  pose proof (Hdirs d Hd) as Hdir. unfold store. simpl.
  rewrite lookup_insert_ne by congruence. exact Hdir.
Qed.

(** ** X4: a completed download *)

(** X4.  On a cache miss, a response whose status is no HTTP error and
    whose stream ends normally is stored under the cache key: the file
    holds the chunks in order, no other path changes, one request is
    logged, and opening the returned path decodes exactly those bytes. *)
Theorem completed_download_is_stored
    (url : string) (auth : string * string) (w w1 : world)
    (status : Z) (body : stream) :
  mkdir_parents CACHE_DIR w = (Ok tt, w1) ->
  fs w1 !! cache_path url = None ->
  earthdata w url auth = Responded status body ->
  response_ok status = true ->
  broken body = false ->
  exists w',
    download_granule url auth w = (Ok (cache_path url), w') /\
    fs w' !! cache_path url = Some (File (join_chunks (chunks body))) /\
    (forall q, q <> cache_path url -> fs w' !! q = fs w1 !! q) /\
    net_log w' = (net_log w ++ [CallDownload url auth])%list /\
    SD_open (cache_path url) w' =
      (match sd_decode w (join_chunks (chunks body)) with
       | Some hdf => Ok hdf
       | None => Raise HDF4Error
       end, w').
Proof.
  intros Hmk Hout Hsrv Hok Hbr.
  rewrite (download_granule_miss_run _ _ _ _ Hmk Hout), Hsrv, Hok, Hbr.
  assert (H401 : (status =? 401)%Z = false).
  { destruct (status =? 401)%Z eqn:H; [| reflexivity].
    apply Z.eqb_eq in H. subst. discriminate Hok. }
  rewrite H401.
  destruct (mkdir_all_inv _ _ _ Hmk) as [[f Hw1] _].
  eexists. split; [reflexivity |].
  split; [apply lookup_insert_eq |].
  split; [intros q Hq; unfold store; simpl; apply lookup_insert_ne; congruence |].
  split; [rewrite Hw1; reflexivity |].
  unfold SD_open, store. simpl. rewrite lookup_insert_eq.
  rewrite Hw1. simpl.
  destruct (sd_decode w (join_chunks (chunks body))); reflexivity.
Qed.

Lemma completed_download_is_stored_witness :
  exists w',
    download_granule sample_url sample_auth (sample_world ∅ 200 ∅) =
      (Ok (cache_path sample_url), w') /\
    fs w' !! cache_path sample_url = Some (File "HDF4") /\
    net_log w' = [CallDownload sample_url sample_auth].
Proof.
  destruct (completed_download_is_stored sample_url sample_auth
              (sample_world ∅ 200 ∅)
              (set_fs {[ "data" := Dir; "data/modis_cache" := Dir ]}
                      (sample_world ∅ 200 ∅))
              200 (mk_stream ["HDF"; ""; "4"] false))
    as (w' & H1 & H2 & _ & H3 & _).
  - vm_compute. reflexivity.
  - vm_compute. reflexivity.
  - reflexivity.
  - reflexivity.
  - reflexivity.
  - exists w'. split; [exact H1 |]. split; [exact H2 | exact H3].
Defined.

(** ** X5: an interrupted download *)

(** X5.  When the stream breaks after some chunks, [download_granule]
    raises the transport exception but the chunks already received stay
    in the file under the cache key; the next call for the same URL finds
    that file, returns its path and sends no request. *)
Theorem interrupted_download_stays_cached
    (url : string) (auth : string * string) (w w1 : world)
    (status : Z) (body : stream) :
  mkdir_parents CACHE_DIR w = (Ok tt, w1) ->
  fs w1 !! cache_path url = None ->
  earthdata w url auth = Responded status body ->
  response_ok status = true ->
  broken body = true ->
  exists w',
    download_granule url auth w = (Raise RequestException, w') /\
    fs w' !! cache_path url = Some (File (join_chunks (chunks body))) /\
    download_granule url auth w' = (Ok (cache_path url), w').
Proof.
  intros Hmk Hout Hsrv Hok Hbr.
  rewrite (download_granule_miss_run _ _ _ _ Hmk Hout), Hsrv, Hok, Hbr.
  assert (H401 : (status =? 401)%Z = false).
  { destruct (status =? 401)%Z eqn:H; [| reflexivity].
    apply Z.eqb_eq in H. subst. discriminate Hok. }
  rewrite H401. eexists. split; [reflexivity |].
  split; [apply lookup_insert_eq |].
  apply download_granule_hit.
  - apply mkdir_all_existing.
    apply (cache_dirs_after_store _ _ _ _ _ Hmk Hout).
  - unfold store. simpl. rewrite lookup_insert_eq. eauto.
Qed.

Lemma interrupted_download_stays_cached_witness :
  exists w',
    download_granule sample_url sample_auth
      (mk_world ∅ (mk_datetime 2024 3 10 12 0 0 0 (Some 0%Z))
                (fun _ => None) (fun _ => NoResponse)
                (fun _ _ => Responded 200 (mk_stream ["HD"] true))
                true (fun _ => None) ∅ []) =
      (Raise RequestException, w') /\
    fs w' !! cache_path sample_url = Some (File "HD") /\
    download_granule sample_url sample_auth w' = (Ok (cache_path sample_url), w').
Proof.
  eapply (interrupted_download_stays_cached sample_url sample_auth _ _ 200
            (mk_stream ["HD"] true)).
  - vm_compute. reflexivity.
  - vm_compute. reflexivity.
  - reflexivity.
  - reflexivity.
  - reflexivity.
Defined.

(** ** X6: a download that fails before the body *)

(** X6.  When no response arrives, or the response is 401 or another
    HTTP error, [download_granule] raises, logs the one request and
    writes nothing: no file appears under the cache key, so the same call
    made again sends a second request and fails the same way. *)
Theorem failed_download_leaves_no_entry
    (url : string) (auth : string * string) (w w1 : world) :
  mkdir_parents CACHE_DIR w = (Ok tt, w1) ->
  fs w1 !! cache_path url = None ->
  (earthdata w url auth = NoResponse \/
   exists status body,
     earthdata w url auth = Responded status body /\ response_ok status = false) ->
  exists e,
    download_granule url auth w =
      (Raise e, log_call (CallDownload url auth) w1) /\
    fs (log_call (CallDownload url auth) w1) !! cache_path url = None /\
    download_granule url auth (log_call (CallDownload url auth) w1) =
      (Raise e, log_call (CallDownload url auth)
                  (log_call (CallDownload url auth) w1)).
Proof.
  intros Hmk Hout Hsrv.
  destruct (mkdir_all_inv _ _ _ Hmk) as ([f Hw1] & _ & Hdirs).
  set (w2 := log_call (CallDownload url auth) w1).
  assert (Hmk2 : mkdir_parents CACHE_DIR w2 = (Ok tt, w2)).
  { apply mkdir_all_existing. intros d Hd. exact (Hdirs d Hd). }
  assert (Hout2 : fs w2 !! cache_path url = None) by exact Hout.
  assert (Hsame : earthdata w2 url auth = earthdata w url auth).
  { subst w2. rewrite Hw1. reflexivity. }
  rewrite (download_granule_miss_run _ _ _ _ Hmk Hout).
  rewrite (download_granule_miss_run _ _ _ _ Hmk2 Hout2), Hsame.
  destruct Hsrv as [-> | (status & body & -> & Hbad)].
  - exists RequestException. repeat split; assumption.
  - rewrite Hbad. destruct (status =? 401)%Z.
    + exists (ModisLiveError msg_auth_401). repeat split; assumption.
    + exists (HTTPError status). repeat split; assumption.
Qed.

Lemma failed_download_leaves_no_entry_witness :
  exists e,
    download_granule sample_url sample_auth (sample_world ∅ 503 ∅) =
      (Raise e, log_call (CallDownload sample_url sample_auth)
                  (set_fs {[ "data" := Dir; "data/modis_cache" := Dir ]}
                          (sample_world ∅ 503 ∅))) /\
    fs (log_call (CallDownload sample_url sample_auth)
          (set_fs {[ "data" := Dir; "data/modis_cache" := Dir ]}
                  (sample_world ∅ 503 ∅))) !! cache_path sample_url = None /\
    download_granule sample_url sample_auth
      (log_call (CallDownload sample_url sample_auth)
         (set_fs {[ "data" := Dir; "data/modis_cache" := Dir ]}
                 (sample_world ∅ 503 ∅))) =
      (Raise e, log_call (CallDownload sample_url sample_auth)
                  (log_call (CallDownload sample_url sample_auth)
                     (set_fs {[ "data" := Dir; "data/modis_cache" := Dir ]}
                             (sample_world ∅ 503 ∅)))).
Proof.
  apply (failed_download_leaves_no_entry sample_url sample_auth
           (sample_world ∅ 503 ∅)).
  - vm_compute. reflexivity.
  - vm_compute. reflexivity.
  - right. exists 503%Z, (mk_stream ["HDF"; ""; "4"] false).
    split; reflexivity.
Defined.

(** ** X7: a cache root that cannot be created *)

Lemma mkdir_parents_cache_blocked (w : world) (n : fs_node) :
  n <> Dir ->
  fs w !! "data" = Some n \/
  ((fs w !! "data" = None \/ fs w !! "data" = Some Dir) /\
   fs w !! CACHE_DIR = Some n) ->
  exists msg w1,
    mkdir_parents CACHE_DIR w = (Raise (OSError msg), w1) /\
    net_log w1 = net_log w.
Proof.
  intros Hn H. unfold mkdir_parents.
  change (path_prefixes CACHE_DIR) with ["data"; CACHE_DIR].
  cbn [mkdir_all]. unfold mbind at 1, M_bind, mkdir_one at 1.
  destruct H as [H | [[H | H] Hc]]; rewrite H.
  - destruct n; [congruence | eauto | eauto].
  - unfold mbind at 1, M_bind, mkdir_one. simpl fs.
    rewrite lookup_insert_ne by discriminate. rewrite Hc.
    destruct n; [congruence | eauto | eauto].
  - unfold mbind at 1, M_bind, mkdir_one. rewrite Hc.
    destruct n; [congruence | eauto | eauto].
Qed.

(** X7.  When [data] or [data/modis_cache] exists but is not a
    directory, [download_granule] raises [OSError] from [mkdir] and
    sends no request, cached file or not. *)
Theorem blocked_cache_root_raises_oserror
    (url : string) (auth : string * string) (w : world) (n : fs_node) :
  n <> Dir ->
  fs w !! "data" = Some n \/
  ((fs w !! "data" = None \/ fs w !! "data" = Some Dir) /\
   fs w !! CACHE_DIR = Some n) ->
  exists msg w1,
    download_granule url auth w = (Raise (OSError msg), w1) /\
    net_log w1 = net_log w.
Proof.
  intros Hn H.
  destruct (mkdir_parents_cache_blocked w n Hn H) as (msg & w1 & Hmk & Hlog).
  exists msg, w1. split; [| exact Hlog].
  unfold download_granule. apply bind_raise. exact Hmk.
Qed.

Lemma blocked_cache_root_raises_oserror_witness :
  exists msg w1,
    download_granule sample_url sample_auth
      (sample_world ∅ 200 {[ "data" := File "not a directory" ]}) =
      (Raise (OSError msg), w1) /\
    net_log w1 = [].
Proof.
  apply (blocked_cache_root_raises_oserror sample_url sample_auth
           (sample_world ∅ 200 {[ "data" := File "not a directory" ]})
           (File "not a directory")).
  - discriminate.
  - left. reflexivity.
Defined.

(** ** X8: two URLs with one basename *)

(** X8.  The cache is keyed by the basename alone: once a download of
    one URL has succeeded, a download of any URL with the same basename
    (another host, directory, query or credentials) returns the same
    file and sends no request. *)
Theorem same_basename_shares_cache_entry
    (url1 url2 : string) (auth1 auth2 : string * string)
    (w w' : world) (p : string) :
  cache_filename url1 = cache_filename url2 ->
  download_granule url1 auth1 w = (Ok p, w') ->
  download_granule url2 auth2 w' = (Ok p, w').
Proof.
  intros Hkey Hrun.
  destruct (download_granule_ok_inv _ _ _ _ _ Hrun) as (-> & Hdirs & Hin).
  assert (Hpath : cache_path url1 = cache_path url2).
  { unfold cache_path. rewrite Hkey. reflexivity. }
  rewrite Hpath in *.
  apply download_granule_hit; [| exact Hin].
  apply mkdir_all_existing. exact Hdirs.
Qed.

Lemma same_basename_shares_cache_entry_witness :
  download_granule "https://other.example/x/MOD04_L2.A2024070.0530.hdf"
    ("someone", "else")
    (snd (download_granule sample_url sample_auth (sample_world ∅ 200 ∅))) =
    (Ok "data/modis_cache/MOD04_L2.A2024070.0530.hdf",
     snd (download_granule sample_url sample_auth (sample_world ∅ 200 ∅))).
Proof.
  apply (same_basename_shares_cache_entry sample_url
           "https://other.example/x/MOD04_L2.A2024070.0530.hdf"
           sample_auth ("someone", "else") (sample_world ∅ 200 ∅)).
  - vm_compute. reflexivity.
  - vm_compute. reflexivity.
Defined.

(** ** X9: a URL without a basename *)

(** X9.  A URL whose part before the query ends in a slash (or whose
    last segment is a dot) has no file name to cache under: the cache
    path is then the cache directory itself, which exists, so
    [download_granule] returns that directory and sends no request, and
    opening it as an HDF file fails. *)
Theorem url_without_basename_yields_cache_dir
    (url : string) (auth : string * string) (w w1 : world) (lat lon : float) :
  mkdir_parents CACHE_DIR w = (Ok tt, w1) ->
  cache_filename url = "" \/ cache_filename url = "." ->
  download_granule url auth w = (Ok CACHE_DIR, w1) /\
  net_log w1 = net_log w /\
  (pyhdf_installed w = true ->
   read_aod_from_hdf CACHE_DIR lat lon w1 = (Raise HDF4Error, w1)) /\
  (forall p q : string,
      contains "?" p = false ->
      cache_filename (p ++ "/") = "" /\ cache_filename (p ++ "/?" ++ q) = "").
Proof.
  intros Hmk Hkey.
  destruct (mkdir_all_inv _ _ _ Hmk) as ([f Hw1] & _ & Hdirs).
  assert (Hdir : fs w1 !! CACHE_DIR = Some Dir).
  { apply Hdirs. right. left. reflexivity. }
  assert (Hpath : cache_path url = CACHE_DIR).
  { unfold cache_path. destruct Hkey as [-> | ->]; reflexivity. }
  split.
  { rewrite <- Hpath at 1. apply download_granule_hit; [exact Hmk |].
    rewrite Hpath, Hdir. eauto. }
  split; [rewrite Hw1; reflexivity |].
  split.
  { intros Hpy. unfold read_aod_from_hdf, mbind, M_bind, gets, SD_open.
    replace (pyhdf_installed w1) with true by (rewrite Hw1; simpl; congruence).
    rewrite Hdir. reflexivity. }
  intros p q Hp.
  exact (cache_filename_basename p "" q Hp eq_refl eq_refl).
Qed.

Lemma url_without_basename_yields_cache_dir_witness :
  download_granule "https://ladsweb.example/archive/?token=1" sample_auth
    (sample_world ∅ 200 ∅) =
    (Ok CACHE_DIR,
     set_fs {[ "data" := Dir; "data/modis_cache" := Dir ]} (sample_world ∅ 200 ∅)).
Proof.
  refine (proj1 (url_without_basename_yields_cache_dir
                   "https://ladsweb.example/archive/?token=1" sample_auth
                   (sample_world ∅ 200 ∅) _ (num 0) (num 0) _ _)).
  - vm_compute. reflexivity.
  - left. reflexivity.
Defined.

(** ** X10: where the cache key sits in the URL *)

Lemma first_occurrence (c : ascii) (s : string) :
  contains c s = true ->
  exists a b, s = a ++ String c b /\ contains c a = false.
Proof.
  induction s as [| x t IH]; simpl; [discriminate |].
  destruct (Ascii.eqb x c) eqn:Hx; simpl.
  - intros _. apply Ascii.eqb_eq in Hx. subst. exists "", t. split; reflexivity.
  - intros Ht. destruct (IH Ht) as (a & b & -> & Ha).
    exists (String x a), b. split; [reflexivity |]. simpl. rewrite Hx. exact Ha.
Qed.

Lemma last_occurrence (c : ascii) (s : string) :
  contains c s = true ->
  exists a b, s = a ++ String c b /\ contains c b = false.
Proof.
  induction s as [| x t IH]; simpl; [discriminate |].
  destruct (contains c t) eqn:Ht.
  - intros _. destruct (IH eq_refl) as (a & b & -> & Hb).
    exists (String x a), b. split; [reflexivity | exact Hb].
  - rewrite orb_false_r. intros Hx. apply Ascii.eqb_eq in Hx. subst.
    exists "", t. split; [reflexivity | exact Ht].
Qed.

(** X10.  For every URL the cache key is a segment of the URL itself:
    the URL reads [pre ++ key ++ post], where [pre] is empty or ends in a
    slash and holds no question mark, [post] is empty or starts with the
    first question mark, and the key holds neither character. *)
Theorem cache_key_is_a_url_segment (url : string) :
  exists pre post : string,
    url = pre ++ cache_filename url ++ post /\
    (pre = "" \/ exists p, pre = p ++ "/") /\
    (post = "" \/ exists q, post = String "?" q) /\
    contains "?" pre = false /\
    contains "/" (cache_filename url) = false /\
    contains "?" (cache_filename url) = false.
Proof.
  assert (Hhead : exists h post,
             url = h ++ post /\ List.hd "" (split_on "?" url) = h /\
             contains "?" h = false /\
             (post = "" \/ exists q, post = String "?" q)).
  { destruct (contains "?" url) eqn:Hq.
    - destruct (first_occurrence _ _ Hq) as (a & b & -> & Ha).
      exists a, (String "?" b). split; [reflexivity |]. split.
      + rewrite split_on_app, hd_app_nonempty by apply split_on_nonempty.
        rewrite (split_on_absent _ _ Ha). reflexivity.
      + split; [exact Ha | right; eauto].
    - exists url, "". split; [rewrite append_empty_r; reflexivity |]. split.
      + rewrite (split_on_absent _ _ Hq). reflexivity.
      + split; [exact Hq | left; reflexivity]. }
  destruct Hhead as (h & post & Hurl & Hhd & Hqh & Hpost).
  assert (Htail : exists pre key,
             h = pre ++ key /\ List.last (split_on "/" h) "" = key /\
             contains "/" key = false /\
             (pre = "" \/ exists p, pre = p ++ "/")).
  { destruct (contains "/" h) eqn:Hs.
    - destruct (last_occurrence _ _ Hs) as (a & b & -> & Hb).
      exists (a ++ "/"), b. split; [rewrite append_assoc; reflexivity |]. split.
      + rewrite split_on_app, last_app_nonempty by apply split_on_nonempty.
        rewrite (split_on_absent _ _ Hb). reflexivity.
      + split; [exact Hb | right; eauto].
    - exists "", h. split; [reflexivity |]. split.
      + rewrite (split_on_absent _ _ Hs). reflexivity.
      + split; [exact Hs | left; reflexivity]. }
  destruct Htail as (pre & key & Hh & Hlast & Hkey & Hpre).
  assert (Hk : cache_filename url = key).
  { unfold cache_filename. rewrite Hhd. exact Hlast. }
  rewrite Hk. exists pre, post.
  rewrite Hh, contains_app in Hqh. apply orb_false_iff in Hqh.
  destruct Hqh as [Hqpre Hqkey].
  split; [rewrite Hurl, Hh, append_assoc; reflexivity |].
  repeat split; assumption.
Qed.

(** ** The time window: its bounds, its text, its one failure *)

(** The bounds of the window, for a date that has a next day. *)
Lemma time_window_bounds_ok (date : option datetime) (w : world) :
  valid_datetime (requested_date date w) = true ->
  (toordinal (requested_date date w) < MAXORDINAL)%Z ->
  exists e,
    time_window_bounds date w =
      (Ok (mk_datetime (year (requested_date date w))
                       (month (requested_date date w))
                       (day (requested_date date w)) 0 0 0 0 (Some 0%Z), e), w) /\
    hour e = 0%Z /\ minute e = 0%Z /\ second e = 0%Z /\
    microsecond e = 0%Z /\ tzinfo e = Some 0%Z.
Proof.
  intros Hv Hmax.
  set (d := requested_date date w) in *.
  set (start := mk_datetime (year d) (month d) (day d) 0 0 0 0 (Some 0%Z)).
  assert (Hvs : valid_datetime start = true).
  { unfold valid_datetime in *. simpl.
    repeat (apply andb_prop in Hv; destruct Hv as [Hv ?]).
    repeat (apply andb_true_intro; split); try assumption; reflexivity. }
  destruct (add_one_day_spec start Hvs Hmax)
    as (e & He & _ & _ & Hh & Hmi & Hs & Hus & Htz).
  exists e. split; [| simpl in *; auto].
  unfold time_window_bounds.
  assert (Hd : match date with
               | Some d0 => mret d0
               | None => gets clock
               end w = (Ok d, w)) by (destruct date; reflexivity).
  rewrite (bind_ok _ _ _ _ _ Hd).
  unfold mbind at 1, M_bind, lift, datetime_utc_midnight.
  fold start. rewrite Hvs.
  unfold mbind at 1, M_bind. rewrite He. reflexivity.
Qed.

Lemma length_append (a b : string) :
  String.length (a ++ b) = (String.length a + String.length b)%nat.
Proof.
  induction a as [| x t IH]; [reflexivity |].
  change (S (String.length (t ++ b)) = S (String.length t + String.length b)).
  rewrite IH. reflexivity.
Qed.

Lemma length_zfill (n : nat) (z : Z) : String.length (zfill n z) = n.
Proof.
  revert z. induction n as [| n IH]; intros z; [reflexivity |].
  simpl zfill. rewrite length_append, IH. simpl. lia.
Qed.

(** An ISO stamp at midnight UTC is its date followed by a fixed tail. *)
Lemma isoformat_midnight_utc (d : datetime) :
  hour d = 0%Z -> minute d = 0%Z -> second d = 0%Z ->
  microsecond d = 0%Z -> tzinfo d = Some 0%Z ->
  isoformat d = iso_date d ++ "T00:00:00+00:00".
Proof.
  intros Hh Hmi Hs Hus Htz. unfold isoformat, iso_date.
  rewrite Hh, Hmi, Hs, Hus, Htz.
  change (zfill 2 0) with "00".
  change ((0 =? 0)%Z) with true. cbv iota.
  change (format_offset 0) with "+00:00".
  rewrite !append_assoc. reflexivity.
Qed.

(** X11.  For every valid date that has a next day, the [temporal]
    parameter is 51 characters long: the date, [T00:00:00+00:00], a
    comma, the date of the next calendar day and the same tail.  The
    time of day and the time zone of the requested date leave no trace
    in it: every request with the same year, month and day gets the same
    text. *)
Theorem time_window_text (date : option datetime) (w : world) :
  valid_datetime (requested_date date w) = true ->
  (toordinal (requested_date date w) < MAXORDINAL)%Z ->
  exists start end_ text,
    time_window_bounds date w = (Ok (start, end_), w) /\
    _time_window date w = (Ok text, w) /\
    text = (iso_date start ++ "T00:00:00+00:00") ++ "," ++
           (iso_date end_ ++ "T00:00:00+00:00") /\
    iso_date start = iso_date (requested_date date w) /\
    valid_datetime end_ = true /\
    toordinal end_ = (toordinal (requested_date date w) + 1)%Z /\
    String.length text = 51%nat /\
    (forall (d' : datetime) (w' : world),
        year d' = year (requested_date date w) ->
        month d' = month (requested_date date w) ->
        day d' = day (requested_date date w) ->
        _time_window (Some d') w' = (Ok text, w')).
Proof.
  intros Hv Hmax.
  destruct (time_window_bounds_next date w Hv Hmax)
    as (e & Hb & Hoe & Hve & Hh & Hmi & Hs & Hus & Htz).
  assert (Htext : forall w0 date0,
             time_window_bounds date0 w0 =
               (Ok (mk_datetime (year (requested_date date w))
                                (month (requested_date date w))
                                (day (requested_date date w)) 0 0 0 0 (Some 0%Z), e), w0) ->
             _time_window date0 w0 =
               (Ok ((iso_date (mk_datetime (year (requested_date date w))
                                (month (requested_date date w))
                                (day (requested_date date w)) 0 0 0 0 (Some 0%Z))
                     ++ "T00:00:00+00:00") ++ "," ++
                    (iso_date e ++ "T00:00:00+00:00")), w0)).
  { intros w0 date0 Hb0.
    unfold _time_window. rewrite (bind_ok _ _ _ _ _ Hb0). cbn [fst snd].
    rewrite (isoformat_midnight_utc e Hh Hmi Hs Hus Htz).
    rewrite isoformat_midnight_utc by reflexivity. reflexivity. }
  eexists _, e, _. split; [exact Hb |].
  split; [exact (Htext w date Hb) |].
  split; [reflexivity |]. split; [reflexivity |].
  split; [exact Hve |]. split; [exact Hoe |].
  split.
  { unfold iso_date.
    repeat (rewrite length_append || rewrite length_zfill). reflexivity. }
  intros d' w' Hy Hm Hd. apply Htext.
  rewrite time_window_bounds_run in Hb |- *.
  change (requested_date (Some d') w') with d'. rewrite Hy, Hm, Hd.
  destruct (datetime_utc_midnight _ _ _) as [s0 | x]; [| discriminate Hb].
  destruct (add_one_day s0) as [e0 | x]; [| discriminate Hb].
  inversion Hb; subst. reflexivity.
Qed.

Lemma time_window_text_witness :
  exists start end_ text,
    time_window_bounds
      (Some (mk_datetime 2023 12 31 23 59 59 999999 (Some (-18000)%Z)))
      (sample_world ∅ 200 ∅) = (Ok (start, end_), sample_world ∅ 200 ∅) /\
    _time_window
      (Some (mk_datetime 2023 12 31 23 59 59 999999 (Some (-18000)%Z)))
      (sample_world ∅ 200 ∅) = (Ok text, sample_world ∅ 200 ∅) /\
    text = (iso_date start ++ "T00:00:00+00:00") ++ "," ++
           (iso_date end_ ++ "T00:00:00+00:00") /\
    iso_date start = "2023-12-31" /\
    valid_datetime end_ = true /\
    toordinal end_ =
      (toordinal (mk_datetime 2023 12 31 23 59 59 999999 (Some (-18000)%Z)) + 1)%Z /\
    String.length text = 51%nat /\
    (forall (d' : datetime) (w' : world),
        year d' = 2023%Z -> month d' = 12%Z -> day d' = 31%Z ->
        _time_window (Some d') w' = (Ok text, w')).
Proof.
  apply (time_window_text
           (Some (mk_datetime 2023 12 31 23 59 59 999999 (Some (-18000)%Z)))
           (sample_world ∅ 200 ∅)); reflexivity.
Defined.

(** On the last day of 2023 the text names the first day of 2024. *)
Example time_window_text_new_year :
  _time_window (Some (mk_datetime 2023 12 31 23 59 59 999999 (Some (-18000)%Z)))
               (sample_world ∅ 200 ∅) =
    (Ok "2023-12-31T00:00:00+00:00,2024-01-01T00:00:00+00:00",
     sample_world ∅ 200 ∅).
Proof. reflexivity. Qed.

(** Months only add days. *)
Lemma days_before_month_nat_mono (y : Z) (n n' : nat) :
  (n <= n')%nat -> (days_before_month_nat y n <= days_before_month_nat y n')%Z.
Proof.
  induction 1 as [| n' _ IH]; [lia |].
  simpl. pose proof (days_in_month_pos y (Z.of_nat (S n'))). lia.
Qed.

(** Every valid date but 9999-12-31 lies below the last ordinal. *)
Lemma toordinal_below_max (d : datetime) :
  valid_datetime d = true -> is_last_day d = false ->
  (toordinal d < MAXORDINAL)%Z.
Proof.
  intros Hv Hlast. unfold valid_datetime in Hv.
  repeat (apply andb_prop in Hv; destruct Hv as [Hv ?]).
  repeat match goal with
         | H : (_ <=? _)%Z = true |- _ => apply Z.leb_le in H
         end.
  assert (Hmonth : (days_before_month (year d) (month d)
                    + days_in_month (year d) (month d)
                    <= days_before_month (year d) 12
                       + days_in_month (year d) 12)%Z).
  { destruct (Z.eq_dec (month d) 12%Z) as [-> | Hne]; [lia |].
    rewrite <- days_before_month_succ by lia.
    pose proof (days_in_month_pos (year d) 12).
    unfold days_before_month.
    pose proof (days_before_month_nat_mono (year d)
                  (Z.to_nat (month d + 1 - 1)) (Z.to_nat (12 - 1))).
    lia. }
  assert (Hstrict : month d = 12%Z \/
                    (days_before_month (year d) (month d)
                     + days_in_month (year d) (month d)
                     <= days_before_month (year d) 12)%Z).
  { destruct (Z.eq_dec (month d) 12%Z) as [-> | Hne]; [left; reflexivity |].
    right. rewrite <- days_before_month_succ by lia.
    unfold days_before_month.
    apply days_before_month_nat_mono. lia. }
  rewrite days_in_year in Hmonth.
  unfold toordinal.
  destruct (Z.eq_dec (year d) 9999%Z) as [Hy | Hy].
  - rewrite Hy in *.
    change (is_leap 9999) with false in Hmonth.
    change (days_before_year 9999) with 3651694%Z.
    unfold MAXORDINAL.
    destruct Hstrict as [Hm | Hm].
    + rewrite Hm in *.
      change (days_in_month 9999 12) with 31%Z in *.
      change (days_before_month 9999 12) with 334%Z in *.
      unfold is_last_day in Hlast. rewrite Hy, Hm in Hlast. simpl in Hlast.
      apply Z.eqb_neq in Hlast. lia.
    + change (days_before_month 9999 12) with 334%Z in Hm. lia.
  - assert (Hyear : (days_before_year (year d + 1) <= 3651694)%Z).
    { unfold days_before_year. replace (year d + 1 - 1)%Z with (year d) by lia.
      Z.div_mod_to_equations. lia. }
    rewrite days_before_year_succ in Hyear. unfold MAXORDINAL.
    destruct (is_leap (year d)); lia.
Qed.

(** X12.  The window fails for exactly one valid calendar day:
    9999-12-31, which has no next day.  There [_time_window] raises
    [OverflowError] and [search_granule] stops before sending its
    request; for every other valid date the window is produced. *)
Theorem time_window_fails_only_on_last_day
    (date : option datetime) (w : world) :
  valid_datetime (requested_date date w) = true ->
  (is_last_day (requested_date date w) = true ->
   _time_window date w = (Raise OverflowError, w) /\
   forall lat lon, search_granule lat lon date w = (Raise OverflowError, w)) /\
  (is_last_day (requested_date date w) = false ->
   exists text, _time_window date w = (Ok text, w)).
Proof.
  intros Hv. split.
  - intros Hlast. unfold is_last_day in Hlast.
    apply andb_prop in Hlast. destruct Hlast as [Hlast Hd].
    apply andb_prop in Hlast. destruct Hlast as [Hy Hm].
    apply Z.eqb_eq in Hy, Hm, Hd.
    assert (Hb : time_window_bounds date w = (Raise OverflowError, w)).
    { unfold time_window_bounds.
      assert (Hreq : match date with
                     | Some d0 => mret d0
                     | None => gets clock
                     end w = (Ok (requested_date date w), w))
        by (destruct date; reflexivity).
      rewrite (bind_ok _ _ _ _ _ Hreq). rewrite Hy, Hm, Hd. reflexivity. }
    assert (Ht : _time_window date w = (Raise OverflowError, w)).
    { unfold _time_window. apply bind_raise. exact Hb. }
    split; [exact Ht |].
    intros lat lon. unfold search_granule. apply bind_raise. exact Ht.
  - intros Hlast.
    destruct (time_window_bounds_ok date w Hv (toordinal_below_max _ Hv Hlast))
      as (e & Hb & _).
    eexists. unfold _time_window. rewrite (bind_ok _ _ _ _ _ Hb). reflexivity.
Qed.

Lemma time_window_fails_only_on_last_day_witness :
  _time_window (Some (mk_datetime 9999 12 31 10 0 0 0 None)) (sample_world ∅ 200 ∅)
    = (Raise OverflowError, sample_world ∅ 200 ∅) /\
  forall lat lon,
    search_granule lat lon (Some (mk_datetime 9999 12 31 10 0 0 0 None))
      (sample_world ∅ 200 ∅) = (Raise OverflowError, sample_world ∅ 200 ∅).
Proof.
  apply (proj1 (time_window_fails_only_on_last_day
                  (Some (mk_datetime 9999 12 31 10 0 0 0 None))
                  (sample_world ∅ 200 ∅) eq_refl)).
  reflexivity.
Defined.

(** ** The granule search, case by case *)

(** What [search_granule] does once the window text is known, for every
    answer of the catalogue. *)
Lemma search_granule_responded
    (lat lon : float) (date : option datetime) (w : world) (window : string) :
  _time_window date w = (Ok window, w) ->
  search_granule lat lon date w =
    (match cmr w (search_params lat lon window) with
     | NoResponse => Raise RequestException
     | Responded status body =>
         match raise_for_status status with
         | Raise e => Raise e
         | Ok _ =>
             match body with
             | None => Raise JSONDecodeError
             | Some data => granule_of_entries (feed_entries data)
             end
         end
     end,
     log_call (CallSearch CMR_URL (search_params lat lon window)) w).
Proof.
  intros Htw. unfold search_granule. rewrite (bind_ok _ _ _ _ _ Htw).
  unfold mbind at 1, M_bind, requests_get_search.
  destruct (cmr w (search_params lat lon window)) as [status body |]; [| reflexivity].
  cbn [fst snd]. unfold mbind at 1, M_bind, lift.
  destruct (raise_for_status status) as [[] | e]; [| reflexivity].
  unfold mbind at 1, M_bind.
  destruct body as [data |]; reflexivity.
Qed.

(** X13.  When the catalogue answers without a granule (the [feed] key
    is absent, its [entry] key is absent, or the entry list is empty),
    [search_granule] raises the no-granule [ModisLiveError] after its one
    request. *)
Theorem search_without_entries_raises
    (lat lon : float) (date : option datetime) (w : world)
    (window : string) (status : Z) (data : cmr_json) :
  _time_window date w = (Ok window, w) ->
  cmr w (search_params lat lon window) = Responded status (Some data) ->
  response_ok status = true ->
  feed data = None \/ feed data = Some None \/ feed data = Some (Some []) ->
  search_granule lat lon date w =
    (Raise (ModisLiveError msg_no_granule),
     log_call (CallSearch CMR_URL (search_params lat lon window)) w).
Proof.
  intros Htw Hcmr Hok Hfeed.
  rewrite (search_granule_responded _ _ _ _ _ Htw), Hcmr.
  unfold response_ok in Hok.
  destruct (raise_for_status status) as [[] | e]; [| discriminate Hok].
  unfold feed_entries.
  destruct Hfeed as [-> | [-> | ->]]; reflexivity.
Qed.

Lemma search_without_entries_raises_witness :
  search_granule (num 12) (num 34) None
    (mk_world ∅ (mk_datetime 2024 3 10 12 0 0 0 (Some 0%Z))
              (fun _ => None)
              (fun _ => Responded 200 (Some (mk_json (Some None))))
              (fun _ _ => NoResponse) true (fun _ => None) ∅ []) =
    (Raise (ModisLiveError msg_no_granule),
     log_call (CallSearch CMR_URL
                 (search_params (num 12) (num 34)
                    "2024-03-10T00:00:00+00:00,2024-03-11T00:00:00+00:00"))
       (mk_world ∅ (mk_datetime 2024 3 10 12 0 0 0 (Some 0%Z))
              (fun _ => None)
              (fun _ => Responded 200 (Some (mk_json (Some None))))
              (fun _ _ => NoResponse) true (fun _ => None) ∅ [])).
Proof.
  apply (search_without_entries_raises (num 12) (num 34) None _ _ 200
           (mk_json (Some None))).
  - reflexivity.
  - reflexivity.
  - reflexivity.
  - right. left. reflexivity.
Defined.

(** X14.  The search has no case of its own for 401: every HTTP error
    status, 401 included, surfaces as [HTTPError]; a request without
    response surfaces as the transport exception and a body that is not
    JSON as [JSONDecodeError].  In each case exactly the one search
    request was sent. *)
Theorem search_transport_errors
    (lat lon : float) (date : option datetime) (w : world) (window : string) :
  _time_window date w = (Ok window, w) ->
  (cmr w (search_params lat lon window) = NoResponse ->
   search_granule lat lon date w =
     (Raise RequestException,
      log_call (CallSearch CMR_URL (search_params lat lon window)) w)) /\
  (forall status body,
      cmr w (search_params lat lon window) = Responded status body ->
      response_ok status = false ->
      search_granule lat lon date w =
        (Raise (HTTPError status),
         log_call (CallSearch CMR_URL (search_params lat lon window)) w)) /\
  (forall status,
      cmr w (search_params lat lon window) = Responded status None ->
      response_ok status = true ->
      search_granule lat lon date w =
        (Raise JSONDecodeError,
         log_call (CallSearch CMR_URL (search_params lat lon window)) w)).
Proof.
  intros Htw. rewrite (search_granule_responded _ _ _ _ _ Htw).
  split; [| split].
  - intros ->. reflexivity.
  - intros status body -> Hbad.
    rewrite (raise_for_status_not_ok _ Hbad). reflexivity.
  - intros status -> Hok. unfold response_ok in Hok.
    destruct (raise_for_status status) as [[] | e]; [reflexivity | discriminate Hok].
Qed.

Lemma search_transport_errors_witness :
  search_granule (num 12) (num 34) None
    (mk_world ∅ (mk_datetime 2024 3 10 12 0 0 0 (Some 0%Z))
              (fun _ => None) (fun _ => Responded 401 None)
              (fun _ _ => NoResponse) true (fun _ => None) ∅ []) =
    (Raise (HTTPError 401),
     log_call (CallSearch CMR_URL
                 (search_params (num 12) (num 34)
                    "2024-03-10T00:00:00+00:00,2024-03-11T00:00:00+00:00"))
       (mk_world ∅ (mk_datetime 2024 3 10 12 0 0 0 (Some 0%Z))
              (fun _ => None) (fun _ => Responded 401 None)
              (fun _ _ => NoResponse) true (fun _ => None) ∅ [])).
Proof.
  refine (proj1 (proj2 (search_transport_errors (num 12) (num 34) None _ _ _))
            401%Z None _ _).
  - reflexivity.
  - reflexivity.
  - reflexivity.
Defined.

(** ** X15: the bounding box *)

Lemma whole_degrees_exact : forallb box_is_exact whole_degrees = true.
Proof. vm_compute. reflexivity. Qed.

Lemma box_bounds_exact (z : Z) :
  (-180 <= z <= 180)%Z ->
  sub64 (num z) half = dyadic (2 * z - 1) (-1) /\
  add64 (num z) half = dyadic (2 * z + 1) (-1).
Proof.
  intros Hz. pose proof whole_degrees_exact as H. rewrite forallb_forall in H.
  assert (Hin : In z whole_degrees) by (apply in_zrange; lia).
  specialize (H _ Hin). unfold box_is_exact in H.
  apply andb_true_iff in H. destruct H as [H1 H2].
  split; apply same_float_eq; assumption.
Qed.

(** X15.  The four bounds of the search box are computed on Python
    floats.  Around a point at whole degrees, latitude and longitude
    between -180 and 180, they are exactly half a degree away on each
    side, in the order west, south, east, north. *)
Theorem bounding_box_on_whole_degrees (lat lon : Z) (window : string) :
  (-180 <= lat <= 180)%Z -> (-180 <= lon <= 180)%Z ->
  bounding_box (search_params (num lat) (num lon) window) =
    (dyadic (2 * lon - 1) (-1), dyadic (2 * lat - 1) (-1),
     dyadic (2 * lon + 1) (-1), dyadic (2 * lat + 1) (-1)).
Proof.
  intros Hlat Hlon. unfold search_params. cbn [bounding_box].
  destruct (box_bounds_exact lat Hlat) as [-> ->].
  destruct (box_bounds_exact lon Hlon) as [-> ->]. reflexivity.
Qed.

Lemma bounding_box_on_whole_degrees_witness :
  bounding_box (search_params (num 12) (num 34) "") =
    (dyadic 67 (-1), dyadic 23 (-1), dyadic 69 (-1), dyadic 25 (-1)).
Proof.
  apply (bounding_box_on_whole_degrees 12 34 ""); lia.
Defined.

(** ** X16: where the download URL comes from *)

Lemma endswith_cons (x : ascii) (t suffix : string) :
  endswith (String x t) suffix =
    if String.eqb (String x t) suffix then true else endswith t suffix.
Proof. reflexivity. Qed.

Lemma endswith_suffix (s suffix : string) :
  endswith s suffix = true -> exists p, s = p ++ suffix.
Proof.
  induction s as [| x t IH].
  - destruct suffix; [exists ""; reflexivity | discriminate].
  - rewrite endswith_cons.
    destruct (String.eqb (String x t) suffix) eqn:He.
    + intros _. apply String.eqb_eq in He. subst. exists "". reflexivity.
    + intros H. destruct (IH H) as [p ->]. exists (String x p). reflexivity.
Qed.

(** X16.  A granule returned by the search is built from the top entry
    alone: its id and start time are that entry's, and its download URL
    is the non-empty [href] of one of that entry's links, either one
    ending in [.hdf] or, when no link does, one whose [rel] ends in
    [/data#].  Later entries are never looked at. *)
Theorem selected_url_comes_from_top_entry (entries : list cmr_entry) (g : granule) :
  granule_of_entries entries = Ok g ->
  exists entry rest l,
    entries = entry :: rest /\
    In l (default [] (links entry)) /\
    href l = Some (download_url g) /\
    download_url g <> "" /\
    granule_id g = default "" (title entry) /\
    g_time_start g = default "" (time_start entry) /\
    ((exists p, download_url g = p ++ ".hdf") \/
     (find is_hdf_link (default [] (links entry)) = None /\
      is_data_link l = true)).
Proof.
  destruct entries as [| entry rest]; [discriminate |].
  unfold granule_of_entries, select_url.
  rewrite first_hdf_href_find, first_data_href_find.
  set (ls := default [] (links entry)).
  assert (Hhref : forall (l : cmr_link) (u : string),
             default "" (href l) = u -> str_empty u = false -> href l = Some u).
  { intros l u Hu Hne. destruct (href l) as [h |]; simpl in Hu; subst;
      [reflexivity | discriminate Hne]. }
  assert (Hnonempty : forall u : string, str_empty u = false -> u <> "").
  { intros u Hu ->. discriminate Hu. }
  destruct (find is_hdf_link ls) as [l |] eqn:Hhdf.
  - pose proof (find_some _ _ Hhdf) as [Hin Hl]. unfold is_hdf_link in Hl.
    pose proof (endswith_nonempty _ _ Hl eq_refl) as Hne. rewrite Hne.
    rewrite Hne. intros H. inversion H; subst g; clear H. simpl.
    exists entry, rest, l. split; [reflexivity |].
    split; [exact Hin |]. split; [apply Hhref; [reflexivity | exact Hne] |].
    split; [apply Hnonempty, Hne |]. split; [reflexivity |].
    split; [reflexivity |]. left. apply endswith_suffix, Hl.
  - simpl str_empty at 1. cbv iota.
    destruct (find is_data_link ls) as [l |] eqn:Hdata.
    + pose proof (find_some _ _ Hdata) as [Hin Hl].
      destruct (str_empty (default "" (href l))) eqn:Hne; [discriminate |].
      intros H. inversion H; subst g; clear H. simpl.
      exists entry, rest, l. split; [reflexivity |].
      split; [exact Hin |]. split; [apply Hhref; [reflexivity | exact Hne] |].
      split; [apply Hnonempty, Hne |]. split; [reflexivity |].
      split; [reflexivity |]. right. split; [exact Hhdf | exact Hl].
    + discriminate.
Qed.

Lemma selected_url_comes_from_top_entry_witness :
  exists entry rest l,
    [sample_entry; mk_entry None None None] = entry :: rest /\
    In l (default [] (links entry)) /\
    href l = Some sample_hdf_url /\
    sample_hdf_url <> "" /\
    "MOD04_L2.A2024070.0530" = default "" (title entry) /\
    "2024-03-10T05:30:00.000Z" = default "" (time_start entry) /\
    ((exists p, sample_hdf_url = p ++ ".hdf") \/
     (find is_hdf_link (default [] (links entry)) = None /\
      is_data_link l = true)).
Proof.
  apply (selected_url_comes_from_top_entry
           [sample_entry; mk_entry None None None]
           (mk_granule "MOD04_L2.A2024070.0530" "2024-03-10T05:30:00.000Z"
                       sample_hdf_url)).
  reflexivity.
Defined.

(** ** The stages inside the pipeline *)

Lemma same_services_refl (w : world) : same_services w w.
Proof. repeat split. Qed.

Lemma same_services_trans (w1 w2 w3 : world) :
  same_services w1 w2 -> same_services w2 w3 -> same_services w1 w3.
Proof.
  unfold same_services. intros (?&?&?&?&?&?&?) (?&?&?&?&?&?&?).
  repeat split; congruence.
Qed.

Lemma same_services_set_fs (f : gmap string fs_node) (w : world) :
  same_services w (set_fs f w).
Proof. repeat split. Qed.

Lemma same_services_log_call (c : net_call) (w : world) :
  same_services w (log_call c w).
Proof. repeat split. Qed.

(** [mkdir] changes the file system only, also when it fails. *)
Lemma mkdir_all_world (ps : list string) :
  forall w, exists f, snd (mkdir_all ps w) = set_fs f w.
Proof.
  induction ps as [| p r IH]; intros w; simpl.
  - exists (fs w). rewrite set_fs_same. reflexivity.
  - unfold mbind, M_bind, mkdir_one.
    destruct (fs w !! p) as [[| b | row] |].
    + apply IH.
    + exists (fs w). rewrite set_fs_same. reflexivity.
    + exists (fs w). rewrite set_fs_same. reflexivity.
    + destruct (IH (set_fs (<[p := Dir]> (fs w)) w)) as [f Hf].
      exists f. rewrite Hf. reflexivity.
Qed.

(** [download_granule] changes the file system and logs at most its own
    request. *)
Lemma download_granule_world (url : string) (auth : string * string) (w : world) :
  exists f,
    snd (download_granule url auth w) = set_fs f w \/
    snd (download_granule url auth w) =
      set_fs f (log_call (CallDownload url auth) w).
Proof.
  destruct (mkdir_parents CACHE_DIR w) as [[[] | e] w1] eqn:Hmk.
  - destruct (mkdir_all_inv _ _ _ Hmk) as [[f Hw1] _].
    destruct (fs w1 !! cache_path url) as [n |] eqn:Hout.
    + rewrite (download_granule_hit _ _ _ _ Hmk) by (rewrite Hout; eauto).
      exists f. left. exact Hw1.
    + rewrite (download_granule_miss_run _ _ _ _ Hmk Hout). subst w1.
      destruct (earthdata w url auth) as [status body |].
      * destruct (status =? 401)%Z; [exists f; right; reflexivity |].
        destruct (response_ok status); [| exists f; right; reflexivity].
        eexists. right. unfold store. simpl. reflexivity.
      * exists f. right. reflexivity.
  - pose proof (mkdir_all_world (path_prefixes CACHE_DIR) w) as [f Hf].
    unfold mkdir_parents in Hmk. rewrite Hmk in Hf. simpl in Hf.
    exists f. left. unfold download_granule.
    rewrite (bind_raise _ _ _ _ _ Hmk). exact Hf.
Qed.

Lemma read_aod_from_hdf_world (p : string) (lat lon : float) (w : world) :
  snd (read_aod_from_hdf p lat lon w) = w.
Proof.
  unfold read_aod_from_hdf, mbind, M_bind, gets, raise, lift, SD_open.
  destruct (pyhdf_installed w); [| reflexivity].
  destruct (fs w !! p) as [[| b | row] |]; try reflexivity.
  destruct (sd_decode w b); reflexivity.
Qed.

(** What [read_aod_from_hdf] returns depends on the file, the decoder
    and the presence of pyhdf only. *)
Lemma read_aod_from_hdf_frame (p : string) (lat lon : float) (w w' : world) :
  pyhdf_installed w' = pyhdf_installed w -> sd_decode w' = sd_decode w ->
  fs w' !! p = fs w !! p ->
  fst (read_aod_from_hdf p lat lon w') = fst (read_aod_from_hdf p lat lon w).
Proof.
  intros Hpy Hsd Hfs.
  unfold read_aod_from_hdf, mbind, M_bind, gets, raise, lift, SD_open.
  cbv beta. rewrite Hpy.
  destruct (pyhdf_installed w); [| reflexivity].
  rewrite Hfs, Hsd.
  destruct (fs w !! p) as [[| b | row] |]; try reflexivity.
  destruct (sd_decode w b); reflexivity.
Qed.

(** A successful read went through [read_aod_from_sd] on the decoded
    file. *)
Lemma read_aod_from_hdf_ok_inv (p : string) (lat lon : float) (w w' : world) (v : float) :
  read_aod_from_hdf p lat lon w = (Ok v, w') ->
  w' = w /\
  exists b hdf, fs w !! p = Some (File b) /\ sd_decode w b = Some hdf /\
                read_aod_from_sd hdf lat lon = Ok v.
Proof.
  intros H. pose proof (read_aod_from_hdf_world p lat lon w) as Hw.
  rewrite H in Hw. simpl in Hw. split; [exact Hw |].
  unfold read_aod_from_hdf, mbind, M_bind, gets, raise, lift, SD_open in H.
  cbv beta in H.
  destruct (pyhdf_installed w); [| discriminate H].
  destruct (fs w !! p) as [[| b | row] |] eqn:Hp; try discriminate H.
  destruct (sd_decode w b) as [hdf |] eqn:Hdec; [| discriminate H].
  exists b, hdf. split; [reflexivity |]. split; [exact Hdec |].
  inversion H. reflexivity.
Qed.

Lemma earthdata_auth_run (w : world) :
  _earthdata_auth w =
    (if not_set (environ w !! "EARTHDATA_USERNAME")
        || not_set (environ w !! "EARTHDATA_PASSWORD")
     then Raise (ModisLiveError msg_credentials)
     else Ok (default "" (environ w !! "EARTHDATA_USERNAME"),
              default "" (environ w !! "EARTHDATA_PASSWORD")), w).
Proof.
  unfold _earthdata_auth, mbind, M_bind, getenv, gets.
  destruct (not_set (environ w !! "EARTHDATA_USERNAME")
            || not_set (environ w !! "EARTHDATA_PASSWORD")); reflexivity.
Qed.

(** Credentials that were returned are the two variables, both set and
    non-empty. *)
Lemma earthdata_auth_ok_inv (w w' : world) (auth : string * string) :
  _earthdata_auth w = (Ok auth, w') ->
  w' = w /\
  environ w !! "EARTHDATA_USERNAME" = Some (fst auth) /\
  environ w !! "EARTHDATA_PASSWORD" = Some (snd auth) /\
  fst auth <> "" /\ snd auth <> "".
Proof.
  rewrite earthdata_auth_run.
  destruct (environ w !! "EARTHDATA_USERNAME") as [[| x u] |];
    destruct (environ w !! "EARTHDATA_PASSWORD") as [[| y p] |];
    simpl; intros H; inversion H; subst; repeat split; discriminate.
Qed.

(** A successful search sent its request and built the granule from the
    entries of the answer. *)
Lemma search_granule_ok_inv (lat lon : float) (date : option datetime)
    (w w' : world) (g : granule) :
  search_granule lat lon date w = (Ok g, w') ->
  exists window entries,
    w' = log_call (CallSearch CMR_URL (search_params lat lon window)) w /\
    granule_of_entries entries = Ok g.
Proof.
  intros H.
  destruct (search_granule_run lat lon date w) as [[e He] | (window & r & Htw & Hr)].
  { rewrite He in H. discriminate H. }
  rewrite (search_granule_responded _ _ _ _ _ Htw) in H.
  destruct (cmr w (search_params lat lon window)) as [status body |];
    [| discriminate H].
  destruct (raise_for_status status) as [[] | e]; [| discriminate H].
  destruct body as [data |]; [| discriminate H].
  inversion H. exists window, (feed_entries data). auto.
Qed.

Lemma granule_of_entries_url_nonempty (entries : list cmr_entry) (g : granule) :
  granule_of_entries entries = Ok g -> download_url g <> "".
Proof.
  destruct entries as [| entry rest]; [discriminate |].
  unfold granule_of_entries.
  destruct (str_empty (select_url (default [] (links entry)))) eqn:Hne;
    [discriminate |].
  intros H. inversion H; subst. simpl. intros Hu. rewrite Hu in Hne.
  discriminate Hne.
Qed.

(** The [out_csv] branch writes to the file system only. *)
Lemma write_csv_world (out_csv : option string) (row : payload) (w : world) :
  exists f, snd (write_csv out_csv row w) = set_fs f w.
Proof.
  destruct out_csv as [p |]; simpl.
  - unfold mbind, M_bind.
    pose proof (mkdir_all_world (path_prefixes (path_parent p)) w) as [f Hf].
    unfold mkdir_parents.
    destruct (mkdir_all (path_prefixes (path_parent p)) w) as [[[] | e] w1];
      simpl in Hf; subst w1.
    + eexists. unfold to_csv, modify. simpl. reflexivity.
    + exists f. reflexivity.
  - exists (fs w). rewrite set_fs_same. reflexivity.
Qed.

(** The pipeline, with its last step named. *)
Lemma fetch_live_aod_unfold (city : string) (out_csv : option string)
    (date : option datetime) :
  fetch_live_aod city out_csv date =
    ('(lat, lon) ← geocode_city city;
     granule ← search_granule lat lon date;
     auth ← _earthdata_auth;
     hdf_path ← download_granule (download_url granule) auth;
     aod ← read_aod_from_hdf hdf_path lat lon;
     let payload := {| p_city := city;
                       p_date := if str_empty (g_time_start granule) then ""
                                 else substring 0 10 (g_time_start granule);
                       p_latitude := lat;
                       p_longitude := lon;
                       p_modis_aod := aod;
                       p_granule_id := granule_id granule;
                       p_source_url := download_url granule |} in
     _ ← write_csv out_csv payload;
     mret payload).
Proof. reflexivity. Qed.

(** A successful fetch, stage by stage. *)
Lemma fetch_live_aod_ok_inv (city : string) (out_csv : option string)
    (date : option datetime) (w w' : world) (pl : payload) :
  fetch_live_aod city out_csv date w = (Ok pl, w') ->
  exists lat lon g auth aod w2 w3,
    geocoder w city = Some (lat, lon) /\
    search_granule lat lon date (log_call (CallGeocode city) w) = (Ok g, w2) /\
    _earthdata_auth w2 = (Ok auth, w2) /\
    download_granule (download_url g) auth w2 =
      (Ok (cache_path (download_url g)), w3) /\
    read_aod_from_hdf (cache_path (download_url g)) lat lon w3 = (Ok aod, w3) /\
    pl = {| p_city := city;
            p_date := if str_empty (g_time_start g) then ""
                      else substring 0 10 (g_time_start g);
            p_latitude := lat;
            p_longitude := lon;
            p_modis_aod := aod;
            p_granule_id := granule_id g;
            p_source_url := download_url g |} /\
    write_csv out_csv pl w3 = (Ok tt, w').
Proof.
  rewrite fetch_live_aod_unfold. intros H.
  apply bind_inv_ok in H. destruct H as ([lat lon] & w1 & Hgeo & H).
  rewrite geocode_city_run in Hgeo.
  destruct (geocoder w city) as [[la lo] |] eqn:Hg; [| discriminate Hgeo].
  inversion Hgeo; subst la lo w1; clear Hgeo.
  apply bind_inv_ok in H. destruct H as (g & w2 & Hsearch & H).
  apply bind_inv_ok in H. destruct H as (auth & w2' & Hauth & H).
  destruct (earthdata_auth_ok_inv _ _ _ Hauth) as (-> & _).
  apply bind_inv_ok in H. destruct H as (path & w3 & Hdl & H).
  destruct (download_granule_ok_inv _ _ _ _ _ Hdl) as (-> & _).
  apply bind_inv_ok in H. destruct H as (aod & w3' & Hread & H).
  destruct (read_aod_from_hdf_ok_inv _ _ _ _ _ _ Hread) as (-> & _).
  cbv zeta in H.
  apply bind_inv_ok in H. destruct H as ([] & w4 & Hcsv & H).
  unfold mret, M_ret in H. inversion H; subst w4. clear H.
  exists lat, lon, g, auth, aod, w2, w3.
  repeat split; try assumption; try reflexivity.
Qed.

Lemma fetch_live_aod_stages (city : string) (out_csv : option string)
    (date : option datetime) :
  fetch_live_aod city out_csv date =
    ('(lat, lon) ← geocode_city city;
     granule ← search_granule lat lon date;
     auth ← _earthdata_auth;
     hdf_path ← download_granule (download_url granule) auth;
     read_and_report city out_csv granule lat lon hdf_path).
Proof. reflexivity. Qed.

(** Reading the file and writing the row send no request. *)
Lemma read_and_report_log (city : string) (out_csv : option string)
    (g : granule) (lat lon : float) (hdf_path : string) (w : world) :
  net_log (snd (read_and_report city out_csv g lat lon hdf_path w)) = net_log w.
Proof.
  unfold read_and_report. unfold mbind at 1, M_bind.
  pose proof (read_aod_from_hdf_world hdf_path lat lon w) as Hw.
  destruct (read_aod_from_hdf hdf_path lat lon w) as [[aod | e] w1];
    simpl in Hw; subst w1; [| reflexivity].
  unfold mbind at 1, M_bind.
  destruct (write_csv_world out_csv (make_payload city g lat lon aod) w) as [f Hf].
  destruct (write_csv out_csv (make_payload city g lat lon aod) w)
    as [[[] | e] w2]; simpl in Hf; subst w2; reflexivity.
Qed.

Lemma not_set_false (v : option string) :
  not_set v = false -> exists s, v = Some s /\ default "" v = s /\ s <> "".
Proof.
  destruct v as [[| x t] |]; simpl; try discriminate.
  intros _. exists (String x t). repeat split. discriminate.
Qed.

(** ** X17: the order of the requests *)

(** X17.  Whatever happens, one call of [fetch_live_aod] adds to the
    network log a prefix of the sequence geocoding request, search
    request, download request: never more than these three, never out of
    this order, never a later one without the earlier ones.  The search
    carries the geocoded coordinates, and a download request carries the
    values of the two credential variables. *)
Theorem fetch_requests_in_order
    (city : string) (out_csv : option string) (date : option datetime) (w : world) :
  exists l,
    net_log (snd (fetch_live_aod city out_csv date w)) = (net_log w ++ l)%list /\
    (l = [CallGeocode city] \/
     exists lat lon window,
       geocoder w city = Some (lat, lon) /\
       (l = [CallGeocode city;
             CallSearch CMR_URL (search_params lat lon window)] \/
        exists url user pass,
          environ w !! "EARTHDATA_USERNAME" = Some user /\
          environ w !! "EARTHDATA_PASSWORD" = Some pass /\
          l = [CallGeocode city;
               CallSearch CMR_URL (search_params lat lon window);
               CallDownload url (user, pass)])).
Proof.
  rewrite fetch_live_aod_stages. unfold mbind at 1, M_bind.
  rewrite geocode_city_run.
  destruct (geocoder w city) as [[lat lon] |] eqn:Hgeo.
  2: { exists [CallGeocode city]. split; [reflexivity | left; reflexivity]. }
  set (w1 := log_call (CallGeocode city) w).
  destruct (search_granule_run lat lon date w1) as [[e He] | (window & r & _ & Hr)].
  { rewrite (bind_raise _ _ _ _ _ He).
    exists [CallGeocode city]. split; [reflexivity | left; reflexivity]. }
  set (w2 := log_call (CallSearch CMR_URL (search_params lat lon window)) w1) in *.
  assert (Hlog2 : net_log w2 =
            (net_log w ++ [CallGeocode city;
                           CallSearch CMR_URL (search_params lat lon window)])%list).
  { subst w2 w1. simpl. rewrite <- app_assoc. reflexivity. }
  destruct r as [g | e].
  2: { rewrite (bind_raise _ _ _ _ _ Hr).
       eexists. split; [exact Hlog2 |]. right. exists lat, lon, window.
       split; [reflexivity | left; reflexivity]. }
  rewrite (bind_ok _ _ _ _ _ Hr).
  unfold mbind at 1, M_bind. rewrite earthdata_auth_run.
  destruct (not_set (environ w2 !! "EARTHDATA_USERNAME")
            || not_set (environ w2 !! "EARTHDATA_PASSWORD")) eqn:Hcred.
  { eexists. split; [exact Hlog2 |]. right. exists lat, lon, window.
    split; [reflexivity | left; reflexivity]. }
  apply orb_false_iff in Hcred. destruct Hcred as [Hu Hp].
  destruct (not_set_false _ Hu) as (user & Huser & Hdu & _).
  destruct (not_set_false _ Hp) as (pass & Hpass & Hdp & _).
  rewrite Hdu, Hdp.
  assert (Huser' : environ w !! "EARTHDATA_USERNAME" = Some user) by exact Huser.
  assert (Hpass' : environ w !! "EARTHDATA_PASSWORD" = Some pass) by exact Hpass.
  clear Huser Hpass Hu Hp Hdu Hdp Hr. clearbody w2.
  unfold mbind at 1, M_bind.
  destruct (download_granule_world (download_url g) (user, pass) w2) as [f Hf].
  destruct (download_granule (download_url g) (user, pass) w2)
    as [[path | e] w3] eqn:Hdl; simpl in Hf;
    [rewrite read_and_report_log |]; simpl;
    (destruct Hf as [-> | ->]; simpl;
     [ eexists; split; [exact Hlog2 |]; right; exists lat, lon, window;
       split; [reflexivity | left; reflexivity]
     | eexists; split;
       [ rewrite Hlog2, <- app_assoc; reflexivity
       | right; exists lat, lon, window; split; [reflexivity |];
         right; exists (download_url g), user, pass;
         split; [exact Huser' |]; split; [exact Hpass' | reflexivity] ] ]).
Qed.

Lemma length_substring_le (n : nat) (s : string) :
  (String.length (substring 0 n s) <= n)%nat.
Proof.
  revert s. induction n as [| n IH]; intros s.
  - destruct s; simpl; lia.
  - destruct s as [| x t]; simpl; [lia |]. specialize (IH t). lia.
Qed.

(** Writing the row keeps every path that exists. *)
Lemma write_csv_keeps (out_csv : option string) (row : payload) (w w' : world) :
  write_csv out_csv row w = (Ok tt, w') ->
  same_services w w' /\ net_log w' = net_log w /\
  (forall q, is_Some (fs w !! q) -> is_Some (fs w' !! q)) /\
  (forall p, out_csv = Some p -> fs w' !! p = Some (CsvFile row)) /\
  (out_csv = None -> w' = w).
Proof.
  destruct out_csv as [p |]; simpl; intros H.
  - apply bind_inv_ok in H. destruct H as ([] & w1 & Hmk & H).
    destruct (mkdir_all_inv _ _ _ Hmk) as ([f Hw1] & Hkeep & _).
    unfold to_csv, modify in H. inversion H; subst w'. clear H.
    split; [subst w1; repeat split |].
    split; [subst w1; reflexivity |].
    split.
    + intros q [n Hq]. simpl.
      destruct (decide (p = q)) as [-> | Hne].
      * rewrite lookup_insert_eq. eauto.
      * rewrite lookup_insert_ne by assumption. rewrite (Hkeep _ _ Hq). eauto.
    + split; [| discriminate].
      intros p' Hp. inversion Hp; subst p'. simpl. apply lookup_insert_eq.
  - inversion H; subst w'.
    split; [apply same_services_refl |]. split; [reflexivity |].
    split; [auto |]. split; [discriminate | reflexivity].
Qed.

Lemma download_granule_services (url : string) (auth : string * string) (w : world) :
  same_services w (snd (download_granule url auth w)).
Proof.
  destruct (download_granule_world url auth w) as [f [-> | ->]]; repeat split.
Qed.

(** ** X18: what a successful fetch guarantees *)

(** X18.  When [fetch_live_aod] returns, the record names the city it
    was asked for and the coordinates the geocoder gave; its AOD is a
    number, never NaN; its source URL is not empty and the file cached
    under that URL's key exists; its date has at most ten characters;
    both credential variables were set and non-empty; and nothing but the
    file system and the network log has changed. *)
Theorem successful_fetch_postcondition
    (city : string) (out_csv : option string) (date : option datetime)
    (w w' : world) (pl : payload) :
  fetch_live_aod city out_csv date w = (Ok pl, w') ->
  p_city pl = city /\
  geocoder w city = Some (p_latitude pl, p_longitude pl) /\
  isnan (p_modis_aod pl) = false /\
  p_source_url pl <> "" /\
  (String.length (p_date pl) <= 10)%nat /\
  is_Some (fs w' !! cache_path (p_source_url pl)) /\
  (exists user pass,
      environ w !! "EARTHDATA_USERNAME" = Some user /\
      environ w !! "EARTHDATA_PASSWORD" = Some pass /\
      user <> "" /\ pass <> "") /\
  same_services w w'.
Proof.
  intros H. apply fetch_live_aod_ok_inv in H.
  destruct H as (lat & lon & g & auth & aod & w2 & w3 &
                 Hgeo & Hsearch & Hauth & Hdl & Hread & -> & Hcsv).
  destruct (search_granule_ok_inv _ _ _ _ _ _ Hsearch) as (window & es & Hw2 & Hes).
  destruct (earthdata_auth_ok_inv _ _ _ Hauth) as (_ & Hu & Hp & Hune & Hpne).
  destruct (download_granule_ok_inv _ _ _ _ _ Hdl) as (_ & _ & Hin).
  destruct (read_aod_from_hdf_ok_inv _ _ _ _ _ _ Hread) as (_ & b & hdf & _ & _ & Hsd).
  destruct (read_aod_from_sd_ok_inv _ _ _ _ Hsd) as (Hnan & _).
  destruct (write_csv_keeps _ _ _ _ Hcsv) as (Hserv & _ & Hkeep & _).
  simpl. split; [reflexivity |]. split; [exact Hgeo |]. split; [exact Hnan |].
  split; [exact (granule_of_entries_url_nonempty _ _ Hes) |].
  split.
  { destruct (str_empty (g_time_start g)); [simpl; lia |].
    apply length_substring_le. }
  split; [apply Hkeep, Hin |].
  split.
  { exists (fst auth), (snd auth). subst w2. repeat split; assumption. }
  eapply same_services_trans; [| exact Hserv].
  pose proof (download_granule_services (download_url g) auth w2) as Hd.
  rewrite Hdl in Hd. simpl in Hd.
  eapply same_services_trans; [| exact Hd].
  subst w2. repeat split.
Qed.

Lemma successful_fetch_postcondition_witness :
  p_city (make_payload "Testville"
            (mk_granule "MOD04_L2.A2024070.0530" "2024-03-10T05:30:00.000Z"
                        sample_hdf_url)
            (num 12) (num 34) (num 5)) = "Testville" /\
  geocoder (sample_world sample_credentials 200 ∅) "Testville" =
    Some (num 12, num 34) /\
  isnan (num 5) = false.
Proof.
  destruct (successful_fetch_postcondition "Testville" None None
              (sample_world sample_credentials 200 ∅)
              (snd (fetch_live_aod "Testville" None None
                      (sample_world sample_credentials 200 ∅)))
              (make_payload "Testville"
                 (mk_granule "MOD04_L2.A2024070.0530" "2024-03-10T05:30:00.000Z"
                             sample_hdf_url)
                 (num 12) (num 34) (num 5)))
    as (H1 & H2 & H3 & _).
  - vm_compute. reflexivity.
  - split; [exact H1 |]. split; [exact H2 | exact H3].
Defined.

(** ** X19: the optional table *)

(** X19.  When a table path is given and the fetch succeeds, the file
    at that path holds one row, equal to the record returned. *)
Theorem csv_row_is_the_returned_record
    (city p : string) (date : option datetime) (w w' : world) (pl : payload) :
  fetch_live_aod city (Some p) date w = (Ok pl, w') ->
  fs w' !! p = Some (CsvFile pl).
Proof.
  intros H. apply fetch_live_aod_ok_inv in H.
  destruct H as (lat & lon & g & auth & aod & w2 & w3 &
                 _ & _ & _ & _ & _ & _ & Hcsv).
  destruct (write_csv_keeps _ _ _ _ Hcsv) as (_ & _ & _ & Hrow & _).
  apply Hrow. reflexivity.
Qed.

Lemma csv_row_is_the_returned_record_witness :
  fs (snd (fetch_live_aod "Testville" (Some "out/live/aod.csv") None
             (sample_world sample_credentials 200 ∅))) !! "out/live/aod.csv" =
    Some (CsvFile
            (make_payload "Testville"
               (mk_granule "MOD04_L2.A2024070.0530" "2024-03-10T05:30:00.000Z"
                           sample_hdf_url)
               (num 12) (num 34) (num 5))).
Proof.
  apply (csv_row_is_the_returned_record "Testville" "out/live/aod.csv" None
           (sample_world sample_credentials 200 ∅)).
  vm_compute. reflexivity.
Defined.

(** ** Running the fetch again *)

(** The window text depends on the clock alone. *)
Lemma time_window_frame (date : option datetime) (wA wB : world) :
  clock wB = clock wA ->
  fst (_time_window date wB) = fst (_time_window date wA).
Proof.
  intros Hclock.
  unfold _time_window, time_window_bounds, mbind, M_bind, gets, lift, mret, M_ret.
  destruct date as [d |]; cbv beta; [| rewrite Hclock];
    match goal with
    | |- context [datetime_utc_midnight ?y ?m ?d] =>
        destruct (datetime_utc_midnight y m d) as [s |]; [| reflexivity];
        destruct (add_one_day s); reflexivity
    end.
Qed.

(** A search that succeeded succeeds again, with the same granule and
    the same request, in any world with the same clock and catalogue. *)
Lemma search_granule_frame (lat lon : float) (date : option datetime)
    (wA wA' wB : world) (g : granule) :
  clock wB = clock wA -> cmr wB = cmr wA ->
  search_granule lat lon date wA = (Ok g, wA') ->
  exists window,
    wA' = log_call (CallSearch CMR_URL (search_params lat lon window)) wA /\
    search_granule lat lon date wB =
      (Ok g, log_call (CallSearch CMR_URL (search_params lat lon window)) wB).
Proof.
  intros Hclock Hcmr H.
  destruct (search_granule_run lat lon date wA) as [[e He] | (window & r & Htw & Hr)].
  { rewrite He in H. discriminate H. }
  rewrite Hr in H. inversion H; subst r wA'. clear H.
  exists window. split; [reflexivity |].
  assert (HtwB : _time_window date wB = (Ok window, wB)).
  { pose proof (time_window_frame date wA wB Hclock) as Hf.
    pose proof (time_window_world date wB) as Hw.
    rewrite Htw in Hf. simpl in Hf.
    destruct (_time_window date wB) as [rB wB0]. simpl in *. subst. reflexivity. }
  rewrite (search_granule_responded _ _ _ _ _ Htw) in Hr.
  rewrite (search_granule_responded _ _ _ _ _ HtwB), Hcmr.
  inversion Hr as [Hres]. rewrite Hres. reflexivity.
Qed.

(** X20.  A fetch that succeeded can be repeated: run again in the
    world it left (no table requested), it returns the same record,
    sends the geocoding and the search request again but no download
    request, and leaves the file system as it is. *)
Theorem repeated_fetch_skips_download
    (city : string) (date : option datetime) (w w' : world) (pl : payload) :
  fetch_live_aod city None date w = (Ok pl, w') ->
  exists lat lon window,
    fetch_live_aod city None date w' =
      (Ok pl, log_call (CallSearch CMR_URL (search_params lat lon window))
                (log_call (CallGeocode city) w')).
Proof.
  intros H. pose proof H as H0. apply fetch_live_aod_ok_inv in H0.
  destruct H0 as (lat & lon & g & auth & aod & w2 & w3 &
                  Hgeo & Hsearch & Hauth & Hdl & Hread & Hpl & Hcsv).
  simpl in Hcsv. inversion Hcsv; subst w'. clear Hcsv.
  assert (Hserv : same_services w w3).
  { destruct (search_granule_ok_inv _ _ _ _ _ _ Hsearch) as (window0 & es & Hw2 & _).
    pose proof (download_granule_services (download_url g) auth w2) as Hd.
    rewrite Hdl in Hd. simpl in Hd.
    eapply same_services_trans; [| exact Hd]. subst w2. repeat split. }
  destruct Hserv as (Henv & Hclock & Hgc & Hcmr & _ & Hpy & Hsd).
  set (wa := log_call (CallGeocode city) w3).
  destruct (search_granule_frame lat lon date _ _ wa g
              (Hclock : clock wa = clock (log_call (CallGeocode city) w))
              (Hcmr : cmr wa = cmr (log_call (CallGeocode city) w)) Hsearch)
    as (window & Hw2 & HsearchB).
  exists lat, lon, window.
  set (wb := log_call (CallSearch CMR_URL (search_params lat lon window)) wa) in *.
  rewrite fetch_live_aod_stages.
  assert (HgeoB : geocode_city city w3 = (Ok (lat, lon), wa)).
  { rewrite geocode_city_run, Hgc, Hgeo. reflexivity. }
  rewrite (bind_ok _ _ _ _ _ HgeoB). cbv beta iota.
  rewrite (bind_ok _ _ _ _ _ HsearchB).
  assert (HauthB : _earthdata_auth wb = (Ok auth, wb)).
  { rewrite earthdata_auth_run in *.
    assert (He : environ wb = environ w2)
      by (subst w2; simpl; exact Henv).
    rewrite He.
    destruct (not_set (environ w2 !! "EARTHDATA_USERNAME")
              || not_set (environ w2 !! "EARTHDATA_PASSWORD"));
      inversion Hauth. reflexivity. }
  rewrite (bind_ok _ _ _ _ _ HauthB).
  destruct (download_granule_ok_inv _ _ _ _ _ Hdl) as (_ & Hdirs & Hin).
  assert (HdlB : download_granule (download_url g) auth wb =
                 (Ok (cache_path (download_url g)), wb)).
  { apply download_granule_hit; [| exact Hin].
    apply mkdir_all_existing. exact Hdirs. }
  rewrite (bind_ok _ _ _ _ _ HdlB).
  unfold read_and_report.
  assert (HreadB : read_aod_from_hdf (cache_path (download_url g)) lat lon wb =
                   (Ok aod, wb)).
  { pose proof (read_aod_from_hdf_frame (cache_path (download_url g)) lat lon w3 wb
                  eq_refl eq_refl eq_refl) as Hf.
    pose proof (read_aod_from_hdf_world (cache_path (download_url g)) lat lon wb) as Hw.
    rewrite Hread in Hf. simpl in Hf.
    destruct (read_aod_from_hdf (cache_path (download_url g)) lat lon wb)
      as [rB wB0]. simpl in *. subst. reflexivity. }
  rewrite (bind_ok _ _ _ _ _ HreadB).
  simpl write_csv. rewrite (bind_ok _ _ wb wb tt) by reflexivity.
  rewrite Hpl. reflexivity.
Qed.

Lemma repeated_fetch_skips_download_witness :
  exists lat lon window,
    fetch_live_aod "Testville" None None
      (snd (fetch_live_aod "Testville" None None
              (sample_world sample_credentials 200 ∅))) =
      (Ok (make_payload "Testville"
             (mk_granule "MOD04_L2.A2024070.0530" "2024-03-10T05:30:00.000Z"
                         sample_hdf_url)
             (num 12) (num 34) (num 5)),
       log_call (CallSearch CMR_URL (search_params lat lon window))
         (log_call (CallGeocode "Testville")
            (snd (fetch_live_aod "Testville" None None
                    (sample_world sample_credentials 200 ∅))))).
Proof.
  apply (repeated_fetch_skips_download "Testville" None
           (sample_world sample_credentials 200 ∅)).
  vm_compute. reflexivity.
Defined.

(** ** X21: a city the geocoder does not know *)

(** X21.  When the geocoder has no match, [fetch_live_aod] raises the
    geocoding [ModisLiveError], whose message ends with the city as
    given; the geocoding request is the only trace: no search, no
    download, no credentials check, and the file system (cache directory
    included) is untouched. *)
Theorem unknown_city_stops_the_fetch
    (city : string) (out_csv : option string) (date : option datetime) (w : world) :
  geocoder w city = None ->
  fetch_live_aod city out_csv date w =
    (Raise (ModisLiveError ("Unable to geocode city: " ++ city)),
     log_call (CallGeocode city) w) /\
  fs (snd (fetch_live_aod city out_csv date w)) = fs w /\
  net_log (snd (fetch_live_aod city out_csv date w)) =
    (net_log w ++ [CallGeocode city])%list.
Proof.
  intros Hgeo.
  assert (H : fetch_live_aod city out_csv date w =
              (Raise (ModisLiveError ("Unable to geocode city: " ++ city)),
               log_call (CallGeocode city) w)).
  { rewrite fetch_live_aod_stages. apply bind_raise.
    rewrite geocode_city_run, Hgeo. reflexivity. }
  rewrite H. repeat split.
Qed.

Lemma unknown_city_stops_the_fetch_witness :
  fetch_live_aod "Atlantis" (Some "out.csv") None (sample_world ∅ 200 ∅) =
    (Raise (ModisLiveError "Unable to geocode city: Atlantis"),
     log_call (CallGeocode "Atlantis") (sample_world ∅ 200 ∅)).
Proof.
  apply (proj1 (unknown_city_stops_the_fetch "Atlantis" (Some "out.csv") None
                  (sample_world ∅ 200 ∅) eq_refl)).
Defined.

(** ** X22: opening the cached file *)

(** X22.  [read_aod_from_hdf] only reads: the world is the same after
    it, whatever it returns.  Without pyhdf it raises the install hint
    without looking at the path; with pyhdf, a path that is missing, is a
    directory or a table, or holds bytes pyhdf cannot decode raises
    [HDF4Error]. *)
Theorem read_aod_from_hdf_only_reads
    (hdf_path : string) (lat lon : float) (w : world) :
  snd (read_aod_from_hdf hdf_path lat lon w) = w /\
  (pyhdf_installed w = false ->
   read_aod_from_hdf hdf_path lat lon w = (Raise (ModisLiveError msg_pyhdf), w)) /\
  (pyhdf_installed w = true ->
   (forall b, fs w !! hdf_path = Some (File b) -> sd_decode w b = None) ->
   read_aod_from_hdf hdf_path lat lon w = (Raise HDF4Error, w)).
Proof.
  split; [apply read_aod_from_hdf_world |].
  unfold read_aod_from_hdf, mbind, M_bind, gets, raise, lift, SD_open. cbv beta.
  split.
  - intros ->. reflexivity.
  - intros -> Hbad.
    destruct (fs w !! hdf_path) as [[| b | row] |]; try reflexivity.
    rewrite (Hbad b eq_refl). reflexivity.
Qed.

Lemma read_aod_from_hdf_only_reads_witness :
  read_aod_from_hdf "data/modis_cache/absent.hdf" (num 0) (num 0)
    (sample_world ∅ 200 ∅) = (Raise HDF4Error, sample_world ∅ 200 ∅).
Proof.
  refine (proj2 (proj2 (read_aod_from_hdf_only_reads
                          "data/modis_cache/absent.hdf" (num 0) (num 0)
                          (sample_world ∅ 200 ∅))) _ _).
  - reflexivity.
  - intros b Hb. discriminate Hb.
Defined.

(** ** X23: what the downloader leaves alone *)

Lemma mkdir_all_keeps (ps : list string) :
  forall w q n, fs w !! q = Some n -> fs (snd (mkdir_all ps w)) !! q = Some n.
Proof.
  induction ps as [| p r IH]; intros w q n Hq; simpl; [exact Hq |].
  unfold mbind, M_bind, mkdir_one.
  destruct (fs w !! p) as [[| b | row] |] eqn:Hp.
  - apply IH, Hq.
  - exact Hq.
  - exact Hq.
  - apply IH. simpl. rewrite lookup_insert_ne; [exact Hq |].
    intros ->. rewrite Hp in Hq. discriminate Hq.
Qed.

(** X23.  [download_granule] never removes or overwrites a path that
    exists: every entry of the file system before the call, directory,
    file or table, is there unchanged after it, however the call ends. *)
Theorem download_keeps_existing_paths
    (url : string) (auth : string * string) (w : world) (q : string) (n : fs_node) :
  fs w !! q = Some n ->
  fs (snd (download_granule url auth w)) !! q = Some n.
Proof.
  intros Hq.
  pose proof (mkdir_all_keeps (path_prefixes CACHE_DIR) w q n Hq) as Hkeep.
  fold (mkdir_parents CACHE_DIR) in Hkeep.
  destruct (mkdir_parents CACHE_DIR w) as [[[] | e] w1] eqn:Hmk; simpl in Hkeep.
  - destruct (fs w1 !! cache_path url) as [n' |] eqn:Hout.
    + rewrite (download_granule_hit _ _ _ _ Hmk) by (rewrite Hout; eauto).
      exact Hkeep.
    + rewrite (download_granule_miss_run _ _ _ _ Hmk Hout).
      assert (Hne : cache_path url <> q) by congruence.
      destruct (earthdata w url auth) as [status body |]; [| exact Hkeep].
      destruct (status =? 401)%Z; [exact Hkeep |].
      destruct (response_ok status); [| exact Hkeep].
      unfold store. simpl. rewrite lookup_insert_ne by exact Hne. exact Hkeep.
  - unfold download_granule. rewrite (bind_raise _ _ _ _ _ Hmk). exact Hkeep.
Qed.

Lemma download_keeps_existing_paths_witness :
  fs (snd (download_granule sample_url sample_auth
             (sample_world ∅ 200 {[ "data" := Dir; "data/notes.txt" := File "keep me" ]})))
    !! "data/notes.txt" = Some (File "keep me").
Proof.
  apply (download_keeps_existing_paths sample_url sample_auth
           (sample_world ∅ 200 {[ "data" := Dir; "data/notes.txt" := File "keep me" ]})).
  reflexivity.
Defined.

